(** * Run ledger and reset orchestrator of the speedrun worker

    A shallow embedding of [src/index.ts] (the Hono worker) in its current
    revision: the one whose [update-state] switch knows [FAIL], whose
    [finish] stores [completion_details] and whose reset runs in the
    background with a bounded offline poll.  Earlier revisions of the same
    file are kept in the source tree; where they differ on a property
    proved below, the difference is stated next to the theorem.

    Modelling conventions
    - JavaScript numbers that hold timestamps and millisecond totals are
      integers ([Z]); the divisions of [formatDuration] are carried out on
      exact rationals ([Q]), [%] is the truncating remainder of JavaScript
      and [Math.floor] is [Qfloor].
    - The D1 database is a record of tables.  [runs] is keyed by its
      primary key; the other tables are row lists in insertion order.
      A statement either returns or throws; a throw leaves the rows that
      earlier statements wrote (there is no transaction in the source).
    - [Date.now()] is an input of each operation, one parameter per read.
    - The hosting API is an oracle that answers each request from the
      history of everything the task did so far; the task's observable
      behaviour is the trace of requests, answers and sleeps. *)

From Stdlib Require Import ZArith QArith Qround Lia Sorted.
From Stdlib Require Import Ascii.
From stdpp Require Import base strings list gmap pretty.

Open Scope Z_scope.

(** ** Effects: a state monad with exceptions *)

Inductive outcome (A : Type) : Type :=
  | Returned (a : A)
  | Thrown (msg : string).
Arguments Returned {A} a.
Arguments Thrown {A} msg.

Definition Eff (S A : Type) : Type := S -> outcome A * S.

Definition ret {S A} (a : A) : Eff S A := fun s => (Returned a, s).

Definition throw {S A} (msg : string) : Eff S A := fun s => (Thrown msg, s).

Definition bind {S A B} (m : Eff S A) (k : A -> Eff S B) : Eff S B :=
  fun s =>
    match m s with
    | (Returned a, s') => k a s'
    | (Thrown msg, s') => (Thrown msg, s')
    end.

(** [try { m } catch (e) { h e }] *)
Definition try_catch {S A} (m : Eff S A) (h : string -> Eff S A) : Eff S A :=
  fun s =>
    match m s with
    | (Returned a, s') => (Returned a, s')
    | (Thrown msg, s') => h msg s'
    end.

Declare Scope eff_scope.
Delimit Scope eff_scope with eff.
Notation "x <- m ;; k" := (bind m (fun x => k))
  (at level 100, m at next level, right associativity) : eff_scope.
Notation "m ;; k" := (bind m (fun _ => k))
  (at level 100, right associativity) : eff_scope.
Open Scope eff_scope.

(** ** JavaScript helpers *)

(** Truthiness of an optional string field of a JSON body: [undefined]
    and the empty string are falsy. *)
Definition truthy (v : option string) : bool :=
  match v with
  | Some s => negb (String.eqb s "")
  | None => false
  end.

(** [v || null] on an optional string. *)
Definition or_null (v : option string) : option string :=
  if truthy v then v else None.

(** [x % y] on numbers: the remainder has the sign of the dividend,
    [x - y * trunc (x / y)]. *)
Definition js_rem (x y : Q) : Q :=
  let q := (x / y)%Q in
  (x - y * inject_Z (Z.quot (Qnum q) (Zpos (Qden q))))%Q.

(** [formatDuration(ms)], index.ts lines 1037-1042. *)
Definition formatDuration (ms : Z) : string :=
  let seconds := Qfloor (js_rem (inject_Z ms / inject_Z 1000) (inject_Z 60)) in
  let minutes := Qfloor (js_rem (inject_Z ms / inject_Z (1000 * 60)) (inject_Z 60)) in
  let hours := Qfloor (inject_Z ms / inject_Z (1000 * 60 * 60)) in
  pretty hours +:+ "h " +:+ pretty minutes +:+ "m " +:+ pretty seconds +:+ " s".

(** The same function in the first revision of the worker (the variant
    without the hosting client), whose template literal ends in
    [${seconds}s]. *)
Definition formatDuration_first_revision (ms : Z) : string :=
  let seconds := Qfloor (js_rem (inject_Z ms / inject_Z 1000) (inject_Z 60)) in
  let minutes := Qfloor (js_rem (inject_Z ms / inject_Z (1000 * 60)) (inject_Z 60)) in
  let hours := Qfloor (inject_Z ms / inject_Z (1000 * 60 * 60)) in
  pretty hours +:+ "h " +:+ pretty minutes +:+ "m " +:+ pretty seconds +:+ "s".

(** ** Data model (the tables created by [/api/admin/init-db]) *)

Record Run : Type := {
  run_type : string;
  run_seed : string;
  run_goal : option string;
  run_target_mob : option string;
  run_hardcore : Z;
  run_set_seed : Z;
  run_status : string;
  run_created_at : Z;
  run_ended_at : option Z;
  run_duration : option Z;
  run_completion_details : option string
}.

Record Player : Type := {
  player_run_id : string;
  minecraft_name : string;
  role : string
}.

Record TimeLog : Type := {
  tl_run_id : string;
  tl_action : string;
  tl_timestamp : Z
}.

Record CheatLog : Type := {
  cl_run_id : string;
  cl_player_name : string;
  cl_details : string;
  cl_timestamp : Z
}.

Record SolvedSeed : Type := {
  ss_seed : string;
  ss_solved_at : Z
}.

(** [foreign_keys] is the connection's [PRAGMA foreign_keys]: when it is
    on, a row of [time_logs] must reference an existing run. *)
Record DB : Type := {
  runs : gmap string Run;
  players : list Player;
  time_logs : list TimeLog;
  cheat_logs : list CheatLog;
  solved_seeds : list SolvedSeed;
  foreign_keys : bool
}.

Definition set_runs (f : gmap string Run -> gmap string Run) (db : DB) : DB :=
  {| runs := f (runs db); players := players db; time_logs := time_logs db;
     cheat_logs := cheat_logs db; solved_seeds := solved_seeds db;
     foreign_keys := foreign_keys db |}.

Definition set_time_logs (f : list TimeLog -> list TimeLog) (db : DB) : DB :=
  {| runs := runs db; players := players db; time_logs := f (time_logs db);
     cheat_logs := cheat_logs db; solved_seeds := solved_seeds db;
     foreign_keys := foreign_keys db |}.

Definition set_solved_seeds (f : list SolvedSeed -> list SolvedSeed) (db : DB) : DB :=
  {| runs := runs db; players := players db; time_logs := time_logs db;
     cheat_logs := cheat_logs db; solved_seeds := f (solved_seeds db);
     foreign_keys := foreign_keys db |}.

(** ** SQL statements used by the handlers *)

(** The row [(run_id, action, timestamp)] of [time_logs]. *)
Definition log_of (run_id : string) (a : string) (t : Z) : TimeLog :=
  {| tl_run_id := run_id; tl_action := a; tl_timestamp := t |}.

(** The [SET] clauses of the three [UPDATE runs] statements. *)
Definition with_status (status : string) (r : Run) : Run :=
  {| run_type := run_type r; run_seed := run_seed r; run_goal := run_goal r;
     run_target_mob := run_target_mob r; run_hardcore := run_hardcore r;
     run_set_seed := run_set_seed r; run_status := status;
     run_created_at := run_created_at r; run_ended_at := run_ended_at r;
     run_duration := run_duration r;
     run_completion_details := run_completion_details r |}.

Definition with_finished (status : string) (ended_at : Z) (details : option string)
    (r : Run) : Run :=
  {| run_type := run_type r; run_seed := run_seed r; run_goal := run_goal r;
     run_target_mob := run_target_mob r; run_hardcore := run_hardcore r;
     run_set_seed := run_set_seed r; run_status := status;
     run_created_at := run_created_at r; run_ended_at := Some ended_at;
     run_duration := run_duration r;
     run_completion_details := details |}.

Definition with_duration (duration : Z) (r : Run) : Run :=
  {| run_type := run_type r; run_seed := run_seed r; run_goal := run_goal r;
     run_target_mob := run_target_mob r; run_hardcore := run_hardcore r;
     run_set_seed := run_set_seed r; run_status := run_status r;
     run_created_at := run_created_at r; run_ended_at := run_ended_at r;
     run_duration := Some duration;
     run_completion_details := run_completion_details r |}.

(** [UPDATE runs SET status = ? WHERE id = ?] *)
Definition sql_update_status (newStatus run_id : string) : Eff DB unit :=
  fun db => (Returned tt, set_runs (alter (with_status newStatus) run_id) db).

(** [UPDATE runs SET status = ?, ended_at = ?, completion_details = ? WHERE id = ?] *)
Definition sql_update_finished (status : string) (ended_at : Z)
    (details : option string) (run_id : string) : Eff DB unit :=
  fun db =>
    (Returned tt, set_runs (alter (with_finished status ended_at details) run_id) db).

(** [UPDATE runs SET duration = ? WHERE id = ?] *)
Definition sql_update_duration (duration : Z) (run_id : string) : Eff DB unit :=
  fun db => (Returned tt, set_runs (alter (with_duration duration) run_id) db).

(** [INSERT INTO time_logs (run_id, action, timestamp) VALUES (?, ?, ?)] *)
Definition sql_insert_time_log (run_id action : string) (timestamp : Z) : Eff DB unit :=
  fun db =>
    if foreign_keys db && negb (bool_decide (is_Some (runs db !! run_id)))
    then (Thrown "FOREIGN KEY constraint failed", db)
    else (Returned tt,
          set_time_logs (fun rows => rows ++ [log_of run_id action timestamp]) db).

(** [SELECT * FROM runs WHERE id = ?], [.first()] *)
Definition sql_select_run (run_id : string) : Eff DB (option Run) :=
  fun db => (Returned (runs db !! run_id), db).

(** [SELECT seed FROM runs WHERE id = ?], [.first()] *)
Definition sql_select_seed (run_id : string) : Eff DB (option string) :=
  fun db => (Returned (run_seed <$> runs db !! run_id), db).

Definition seed_present (seed : string) (rows : list SolvedSeed) : bool :=
  existsb (fun row => String.eqb (ss_seed row) seed) rows.

(** [INSERT OR IGNORE] on the rows of [solved_seeds]: [seed] is the
    primary key, a conflicting insert is dropped. *)
Definition insert_or_ignore (seed : string) (solved_at : Z)
    (rows : list SolvedSeed) : list SolvedSeed :=
  if seed_present seed rows then rows
  else rows ++ [{| ss_seed := seed; ss_solved_at := solved_at |}].

(** [INSERT OR IGNORE INTO solved_seeds (seed, solved_at) VALUES (?, ?)] *)
Definition sql_insert_or_ignore_solved_seed (seed : string) (solved_at : Z) : Eff DB unit :=
  fun db => (Returned tt, set_solved_seeds (insert_or_ignore seed solved_at) db).

(** [SELECT minecraft_name FROM players WHERE run_id = ? AND role = ?] *)
Definition sql_select_player_names (run_id wanted_role : string) : Eff DB (list string) :=
  fun db =>
    (Returned (map minecraft_name
       (List.filter (fun p => String.eqb (player_run_id p) run_id && String.eqb (role p) wanted_role)
          (players db))), db).

(** One row of [SELECT action, timestamp FROM time_logs ...]. *)
Record LogRow : Type := { action : string; timestamp : Z }.

Fixpoint insert_by_timestamp (row : LogRow) (sorted : list LogRow) : list LogRow :=
  match sorted with
  | [] => [row]
  | r :: rest =>
      if timestamp row <=? timestamp r then row :: r :: rest
      else r :: insert_by_timestamp row rest
  end.

(** [ORDER BY timestamp ASC]; rows with equal timestamps keep their
    insertion order. *)
Definition order_by_timestamp (rows : list LogRow) : list LogRow :=
  fold_right insert_by_timestamp [] rows.

Definition rows_of_run (run_id : string) (logs : list TimeLog) : list LogRow :=
  map (fun l => {| action := tl_action l; timestamp := tl_timestamp l |})
      (List.filter (fun l => String.eqb (tl_run_id l) run_id) logs).

(** [SELECT action, timestamp FROM time_logs WHERE run_id = ? ORDER BY timestamp ASC] *)
Definition sql_select_time_logs (run_id : string) : Eff DB (list LogRow) :=
  fun db => (Returned (order_by_timestamp (rows_of_run run_id (time_logs db))), db).

(** [SELECT COUNT( * ) as count FROM cheat_logs WHERE run_id = ?] *)
Definition sql_count_cheats (run_id : string) : Eff DB Z :=
  fun db =>
    (Returned (Z.of_nat (length
       (List.filter (fun c => String.eqb (cl_run_id c) run_id) (cheat_logs db)))), db).

(** ** Elapsed-time accounting ([calculateStats], index.ts lines 969-1035) *)

(** The three loop variables of the replay. *)
Record Clock : Type := {
  totalTimeMs : Z;
  lastStartTime : Z;
  isRunning : bool
}.

Definition clock_init : Clock :=
  {| totalTimeMs := 0; lastStartTime := 0; isRunning := false |}.

(** The body of [for (const log of timeLogs.results)]. *)
Definition clock_step (c : Clock) (log : LogRow) : Clock :=
  if String.eqb (action log) "START" || String.eqb (action log) "RESUME" then
    if negb (isRunning c) then
      {| totalTimeMs := totalTimeMs c; lastStartTime := timestamp log; isRunning := true |}
    else c
  else if String.eqb (action log) "PAUSE" || String.eqb (action log) "END" then
    if isRunning c then
      {| totalTimeMs := totalTimeMs c + (timestamp log - lastStartTime c);
         lastStartTime := lastStartTime c; isRunning := false |}
    else c
  else c.

Definition replay (logs : list LogRow) : Clock :=
  fold_left clock_step logs clock_init.

(** The loop followed by [if (isRunning) totalTimeMs += Date.now() - lastStartTime]. *)
Definition elapsed (now : Z) (logs : list LogRow) : Z :=
  let c := replay logs in
  if isRunning c then totalTimeMs c + (now - lastStartTime c) else totalTimeMs c.

Record Stats : Type := {
  st_run_id : string;
  st_type : string;
  st_seed : string;
  st_goal : option string;
  st_target_mob : option string;
  st_hardcore : bool;
  st_set_seed : bool;
  st_completion_details : option string;
  duration_ms : Z;
  duration_formatted : string;
  st_players : list string;
  cheat_incidents : Z;
  solved_at : option Z
}.

(** [now] is the value of the [Date.now()] read after the loop. *)
Definition calculateStats (now : Z) (runId : string) : Eff DB Stats :=
  run <- sql_select_run runId ;;
  match run with
  | None => throw "Run not found"
  | Some run =>
      players <- sql_select_player_names runId "RUNNER" ;;
      timeLogs <- sql_select_time_logs runId ;;
      let totalTimeMs := elapsed now timeLogs in
      cheatCount <- sql_count_cheats runId ;;
      ret {| st_run_id := runId;
             st_type := run_type run;
             st_seed := run_seed run;
             st_goal := run_goal run;
             st_target_mob := run_target_mob run;
             st_hardcore := negb (run_hardcore run =? 0);
             st_set_seed := negb (run_set_seed run =? 0);
             st_completion_details := run_completion_details run;
             duration_ms := totalTimeMs;
             duration_formatted := formatDuration totalTimeMs;
             st_players := players;
             cheat_incidents := cheatCount;
             solved_at := run_ended_at run |}
  end.

(** ** HTTP handlers of the ledger *)

Inductive Body : Type :=
  | BError (error : string)
  | BStatus (status : string)      (* { success: true, status } *)
  | BStats (stats : Stats).        (* { success: true, stats } *)

Record Response : Type := { http_status : Z; body : Body }.

Definition json (b : Body) (code : Z) : Response :=
  {| http_status := code; body := b |}.

(** The [switch (action)] of [/api/run/update-state]; [None] is the
    [default:] branch. *)
Definition status_of_action (action : string) : option string :=
  if String.eqb action "START" then Some "RUNNING"
  else if String.eqb action "RESUME" then Some "RUNNING"
  else if String.eqb action "PAUSE" then Some "PAUSED"
  else if String.eqb action "ABORT" then Some "ABORTED"
  else if String.eqb action "FAIL" then Some "FAILED"
  else None.

(** [POST /api/run/update-state], index.ts lines 663-713. *)
Definition update_state (now : Z) (run_id action : option string) : Eff DB Response :=
  if negb (truthy run_id) || negb (truthy action) then
    ret (json (BError "Missing required fields") 400)
  else
    let run_id := default "" run_id in
    let action := default "" action in
    try_catch
      (match status_of_action action with
       | None => ret (json (BError "Invalid action") 400)
       | Some newStatus =>
           sql_update_status newStatus run_id ;;
           sql_insert_time_log run_id action now ;;
           ret (json (BStatus newStatus) 200)
       end)
      (fun _ => ret (json (BError "Failed to update state") 500)).

(** [POST /api/run/finish], index.ts lines 902-947.  [now] is the
    handler's [Date.now()], [now_stats] the one inside [calculateStats]. *)
Definition finish (now now_stats : Z) (run_id : string)
    (completion_details : option string) : Eff DB Response :=
  try_catch
    (sql_update_finished "FINISHED" now (or_null completion_details) run_id ;;
     sql_insert_time_log run_id "END" now ;;
     run <- sql_select_seed run_id ;;
     match run with
     | Some seed => sql_insert_or_ignore_solved_seed seed now
     | None => ret tt
     end ;;
     stats <- calculateStats now_stats run_id ;;
     sql_update_duration (duration_ms stats) run_id ;;
     ret (json (BStats stats) 200))
    (fun _ => ret (json (BError "Failed to finish run") 500)).

(** [GET /api/run/:run_id/stats], index.ts lines 950-959. *)
Definition get_stats (now : Z) (run_id : string) : Eff DB (Response) :=
  try_catch
    (stats <- calculateStats now run_id ;; ret (json (BStats stats) 200))
    (fun _ => ret (json (BError "Failed to fetch stats") 500)).

(** ** The hosting API and the background orchestrations *)

(** What a task did, in order: each request with the answer it got
    ([false] / [None]: a non-success response, on which the client's
    [request] throws), and each [setTimeout] wait. *)
Inductive Event : Type :=
  | EStop (ok : bool)
  | EStatus (reply : option Z)
  | EStart (ok : bool)
  | ERestart (ok : bool)
  | EDelete (path : string) (ok : bool)
  | EGetFile (path : string) (reply : option string)
  | EUpload (path content : string) (ok : bool)
  | ESleep (ms : Z).

(** The remote server: the answer to a request may depend on everything
    that happened before it. *)
Record Remote : Type := {
  answer_stop : list Event -> bool;
  answer_status : list Event -> option Z;
  answer_start : list Event -> bool;
  answer_restart : list Event -> bool;
  answer_delete : list Event -> string -> bool;
  answer_get_file : list Event -> string -> option string;
  answer_upload : list Event -> string -> string -> bool
}.

Definition Task (A : Type) : Type := Eff (list Event) A.

Definition api_error : string := "Exaroton API Error".

Definition command (e : bool -> Event) (ok : bool) : Task unit :=
  fun h => (if ok then Returned tt else Thrown api_error, h ++ [e ok]).

Definition split_lines_cons (c : Ascii.ascii) (lines : list string) : list string :=
  match lines with
  | l :: ls => String c l :: ls
  | [] => [String c ""]
  end.

(** [s.split('\n')] *)
Fixpoint split_lines (s : string) : list string :=
  match s with
  | EmptyString => [""]
  | String c rest =>
      if Ascii.eqb c "010"%char then "" :: split_lines rest
      else split_lines_cons c (split_lines rest)
  end.

(** [lines.join('\n')] *)
Definition join_lines (lines : list string) : string :=
  String.concat (String "010"%char "") lines.

(** The rewrite of [server.properties] in [/api/server/restart],
    index.ts lines 856-868. *)
Definition rewrite_seed (seed propsContent : string) : string :=
  let lines := split_lines propsContent in
  let newLines :=
    map (fun line =>
           if String.prefix "level-seed=" line then "level-seed=" +:+ seed else line)
        lines in
  let newLines :=
    if negb (existsb (fun l => String.prefix "level-seed=" l) lines)
    then newLines ++ ["level-seed=" +:+ seed]
    else newLines in
  join_lines newLines.

Section Orchestrator.

Variable api : Remote.

Definition stopServer : Task unit :=
  fun h => command EStop (answer_stop api h) h.

Definition startServer : Task unit :=
  fun h => command EStart (answer_start api h) h.

Definition restartServer : Task unit :=
  fun h => command ERestart (answer_restart api h) h.

Definition deleteFile (path : string) : Task unit :=
  fun h => command (EDelete path) (answer_delete api h path) h.

(** Modelled from the spec: [uploadFile] is called by the restart handler
    but is not in the client sources at hand.  It overwrites a named file's
    text content and, like every call of the client, fails with a transport
    error when the remote answers with a non-success status. *)
Definition uploadFile (path content : string) : Task unit :=
  fun h => command (EUpload path content) (answer_upload api h path content) h.

Definition getServerStatus : Task Z :=
  fun h =>
    let reply := answer_status api h in
    (match reply with Some code => Returned code | None => Thrown api_error end,
     h ++ [EStatus reply]).

(** Modelled from the spec: [getFileContent] is called by the restart
    handler but is not in the client sources at hand.  It reads a named
    file's text content and fails like the other calls. *)
Definition getFileContent (path : string) : Task string :=
  fun h =>
    let reply := answer_get_file api h path in
    (match reply with Some text => Returned text | None => Thrown api_error end,
     h ++ [EGetFile path reply]).

(** [await new Promise(resolve => setTimeout(resolve, ms))] *)
Definition sleep (ms : Z) : Task unit :=
  fun h => (Returned tt, h ++ [ESleep ms]).

(** [while (status !== 0 && attempts < 100) { sleep 3000; status = poll; attempts++ }]
    with [budget = 100 - attempts]; the result is the last status read. *)
Fixpoint wait_offline (budget : nat) (status : Z) : Task Z :=
  match budget with
  | O => ret status
  | S budget' =>
      if negb (status =? 0) then
        sleep 3000 ;;
        status' <- getServerStatus ;;
        wait_offline budget' status'
      else ret status
  end.

Definition delete_world : Task unit :=
  deleteFile "world" ;;
  deleteFile "world_nether" ;;
  deleteFile "world_the_end".

(** The background task of [POST /api/run/reset], index.ts lines 754-797. *)
Definition reset_task : Task unit :=
  try_catch
    (stopServer ;;
     status <- getServerStatus ;;
     status <- wait_offline 100 status ;;
     if negb (status =? 0) then ret tt
     else
       try_catch delete_world (fun _ => ret tt) ;;
       startServer)
    (fun _ => ret tt).

(** Step 3 of the reseed; the result tells whether the task goes on
    ([false] is the [return] of the [catch] block). *)
Definition update_server_properties (seed : string) : Task bool :=
  try_catch
    (propsContent <- getFileContent "server.properties" ;;
     uploadFile "server.properties" (rewrite_seed seed propsContent) ;;
     ret true)
    (fun _ => ret false).

(** The background task of [POST /api/server/restart], index.ts lines 828-896. *)
Definition restart_task (seed : option string) : Task unit :=
  try_catch
    (if truthy seed then
       stopServer ;;
       status <- getServerStatus ;;
       status <- wait_offline 100 status ;;
       if negb (status =? 0) then ret tt
       else
         updated <- update_server_properties (default "" seed) ;;
         if negb updated then ret tt
         else
           delete_world ;;
           startServer
     else restartServer)
    (fun _ => ret tt).

End Orchestrator.

(** * Vocabulary of the statements *)

(** ** Time logs and the replay *)

(** How the replay classifies an action string. *)
Inductive Edge : Type := ClockOn | ClockOff | NoEdge.

Definition edge_of (a : string) : Edge :=
  if String.eqb a "START" || String.eqb a "RESUME" then ClockOn
  else if String.eqb a "PAUSE" || String.eqb a "END" then ClockOff
  else NoEdge.

Definition no_clock_on (r : LogRow) : Prop := edge_of (action r) <> ClockOn.

Definition no_clock_off (r : LogRow) : Prop := edge_of (action r) <> ClockOff.

Definition at_time (a : string) (t : Z) : LogRow := {| action := a; timestamp := t |}.

(** The log [START@s1, PAUSE@p1, START@s2, PAUSE@p2, ...]. *)
Fixpoint alternating (pairs : list (Z * Z)) : list LogRow :=
  match pairs with
  | [] => []
  | (s, p) :: rest => at_time "START" s :: at_time "PAUSE" p :: alternating rest
  end.

(** The sum of [pause_i - start_i]. *)
Fixpoint paired_total (pairs : list (Z * Z)) : Z :=
  match pairs with
  | [] => 0
  | (s, p) :: rest => (p - s) + paired_total rest
  end.

(** Strictly increasing timestamps, [t1 < t2 < ...]. *)
Fixpoint increasing (rows : list LogRow) : bool :=
  match rows with
  | r1 :: (r2 :: _) as rest => (timestamp r1 <? timestamp r2) && increasing rest
  | _ => true
  end.

Definition by_timestamp (r1 r2 : LogRow) : Prop := timestamp r1 <= timestamp r2.

Definition is_abort_or_fail (a : string) : bool :=
  String.eqb a "ABORT" || String.eqb a "FAIL".

(** The table [time_logs] without its ABORT and FAIL rows. *)
Definition without_abort_fail (logs : list TimeLog) : list TimeLog :=
  List.filter (fun l => negb (is_abort_or_fail (tl_action l))) logs.

(** The ordered log of a run, as [calculateStats] reads it. *)
Definition ordered_log (db : DB) (run_id : string) : list LogRow :=
  order_by_timestamp (rows_of_run run_id (time_logs db)).

(** The replay continued from a given clock. *)
Definition replay_from (c : Clock) (logs : list LogRow) : Clock :=
  fold_left clock_step logs c.

(** ** Handlers *)

(** The actions [update-state] accepts. *)
Definition valid_actions : list string := ["START"; "RESUME"; "PAUSE"; "ABORT"; "FAIL"].

(** One call of [/api/run/finish] with its two clock reads. *)
Record FinishCall : Type := {
  fc_now : Z;
  fc_now_stats : Z;
  fc_run_id : string;
  fc_details : option string
}.

Definition finish_call (db : DB) (c : FinishCall) : DB :=
  snd (finish (fc_now c) (fc_now_stats c) (fc_run_id c) (fc_details c) db).

Definition finish_all (calls : list FinishCall) (db : DB) : DB :=
  fold_left finish_call calls db.

(** The rows of [solved_seeds] for one seed. *)
Definition rows_for_seed (seed : string) (rows : list SolvedSeed) : list SolvedSeed :=
  List.filter (fun row => String.eqb (ss_seed row) seed) rows.

(** ** Traces *)

(** The trace of a task started on an empty history. *)
Definition trace_of {A} (t : Task A) : list Event := snd (t []).

Definition is_delete (e : Event) : bool :=
  match e with EDelete _ _ => true | _ => false end.

Definition is_start (e : Event) : bool :=
  match e with EStart _ => true | _ => false end.

Definition is_status (e : Event) : bool :=
  match e with EStatus _ => true | _ => false end.

Definition is_upload (e : Event) : bool :=
  match e with EUpload _ _ _ => true | _ => false end.

Definition is_sleep (e : Event) : bool :=
  match e with ESleep _ => true | _ => false end.

(** The stop request, a poll or a sleep. *)
Definition is_wait_event (e : Event) : bool :=
  match e with
  | EStop _ | EStatus _ | ESleep _ => true
  | _ => false
  end.

(** A poll that was answered OFFLINE (status code 0). *)
Definition saw_offline (e : Event) : bool :=
  match e with EStatus (Some 0) => true | _ => false end.

(** A failed fetch or a failed write-back of [server.properties]. *)
Definition seed_file_failed (e : Event) : bool :=
  match e with
  | EGetFile _ None => true
  | EUpload _ _ false => true
  | _ => false
  end.

(** The events of [replies] polls after the first: a sleep, then the poll. *)
Definition polls (replies : list (option Z)) : list Event :=
  flat_map (fun r => [ESleep 3000; EStatus r]) replies.

(** Every poll but the last is followed at once by a 3000 ms sleep and
    the next poll. *)
Fixpoint polls_spaced (tr : list Event) : bool :=
  match tr with
  | [] => true
  | EStatus _ :: rest =>
      (negb (existsb is_status rest) ||
       match rest with
       | ESleep ms :: EStatus _ :: _ => ms =? 3000
       | _ => false
       end) && polls_spaced rest
  | _ :: rest => polls_spaced rest
  end.

Definition count_polls (tr : list Event) : nat := length (List.filter is_status tr).

(** Neither a poll nor a sleep. *)
Definition after_wait (e : Event) : Prop := is_status e = false /\ is_sleep e = false.

(** The part of a trace up to the end of the wait: the stop request
    alone, or the stop, the first poll and at most 100 more polls. *)
Inductive wait_prefix : list Event -> Prop :=
  | prefix_stop (ok : bool) : wait_prefix [EStop ok]
  | prefix_polls (r0 : option Z) (replies : list (option Z)) :
      (length replies <= 100)%nat ->
      wait_prefix (EStop true :: EStatus r0 :: polls replies).

(** What the reseed does after the wait: nothing, a failed fetch, a
    failed write-back, or the update followed by deletions and a start. *)
Inductive reseed_tail : list Event -> Prop :=
  | tail_none : reseed_tail []
  | tail_fetch_failed (p : string) : reseed_tail [EGetFile p None]
  | tail_upload_failed (p c p' c' : string) :
      reseed_tail [EGetFile p (Some c); EUpload p' c' false]
  | tail_updated (p c p' c' : string) (rest : list Event) :
      Forall (fun e => is_delete e = true \/ is_start e = true) rest ->
      reseed_tail (EGetFile p (Some c) :: EUpload p' c' true :: rest).

(** ** Sample data *)

Definition sample_run (seed : string) : Run :=
  {| run_type := "SOLO"; run_seed := seed; run_goal := Some "ENDER_DRAGON";
     run_target_mob := None; run_hardcore := 0; run_set_seed := 0;
     run_status := "CREATED"; run_created_at := 0; run_ended_at := None;
     run_duration := None; run_completion_details := None |}.

(** Two runs on the same seed, one on another, and a given time log. *)
Definition sample_db (logs : list TimeLog) : DB :=
  {| runs := <["run-1" := sample_run "seed-A"]>
               (<["run-2" := sample_run "seed-A"]>
                  (<["run-3" := sample_run "seed-B"]> ∅));
     players := [{| player_run_id := "run-1"; minecraft_name := "Steve"; role := "RUNNER" |}];
     time_logs := logs; cheat_logs := []; solved_seeds := [];
     foreign_keys := true |}.

(** A server that never reports OFFLINE, and one that is offline at once
    but refuses the write-back of [server.properties]. *)
Definition never_offline : Remote :=
  {| answer_stop := fun _ => true; answer_status := fun _ => Some 3;
     answer_start := fun _ => true; answer_restart := fun _ => true;
     answer_delete := fun _ _ => true;
     answer_get_file := fun _ _ => Some "level-seed=1";
     answer_upload := fun _ _ _ => true |}.

Definition upload_refused : Remote :=
  {| answer_stop := fun _ => true; answer_status := fun _ => Some 0;
     answer_start := fun _ => true; answer_restart := fun _ => true;
     answer_delete := fun _ _ => true;
     answer_get_file := fun _ _ => Some "level-seed=1";
     answer_upload := fun _ _ _ => false |}.

(** * The rest of the worker *)

(** ** The other handlers of the ledger *)

(** The bodies of the handlers that only acknowledge. *)
Inductive Ack : Type :=
  | AError (error : string)
  | ASuccess                        (* { success: true } *)
  | AMessage (message : string)     (* { success: true, message } *)
  | ASolved (solved : bool).        (* { solved } *)

Record AckResponse : Type := { ack_status : Z; ack_body : Ack }.

Definition ack (b : Ack) (code : Z) : AckResponse :=
  {| ack_status := code; ack_body := b |}.

Definition set_players (f : list Player -> list Player) (db : DB) : DB :=
  {| runs := runs db; players := f (players db); time_logs := time_logs db;
     cheat_logs := cheat_logs db; solved_seeds := solved_seeds db;
     foreign_keys := foreign_keys db |}.

Definition set_cheat_logs (f : list CheatLog -> list CheatLog) (db : DB) : DB :=
  {| runs := runs db; players := players db; time_logs := time_logs db;
     cheat_logs := f (cheat_logs db); solved_seeds := solved_seeds db;
     foreign_keys := foreign_keys db |}.

(** The JSON body of [/api/run/init]; a player is [(name, role)]. *)
Record InitRequest : Type := {
  ir_run_id : option string;
  ir_type : option string;
  ir_seed : option string;
  ir_players : option (list (string * string));
  ir_goal : option string;
  ir_target_mob : option string;
  ir_hardcore : option bool;
  ir_set_seed : option bool
}.

(** [flag ? 1 : 0] on an optional boolean. *)
Definition flag_column (flag : option bool) : Z :=
  match flag with Some true => 1 | _ => 0 end.

(** [INSERT INTO runs (id, type, seed, status, created_at, goal, target_mob,
    hardcore, set_seed) VALUES (...)]: [id] is the primary key, the columns
    left out are NULL. *)
Definition sql_insert_run (run_id : string) (run : Run) : Eff DB unit :=
  fun db =>
    match runs db !! run_id with
    | Some _ => (Thrown "UNIQUE constraint failed: runs.id", db)
    | None => (Returned tt, set_runs (insert run_id run) db)
    end.

(** [players.map((p) => playerStmt.bind(run_id, p.name, p.role))] *)
Definition player_rows (run_id : string) (batch : list (string * string)) : list Player :=
  map (fun p => {| player_run_id := run_id; minecraft_name := fst p; role := snd p |}) batch.

(** [DB.batch] of [INSERT INTO players (run_id, minecraft_name, role)
    VALUES (?, ?, ?)], one statement per player; the rows reference the
    run.  D1 refuses a batch without statements: [DB.batch([])] throws
    before anything is written. *)
Definition sql_batch_insert_players (run_id : string)
    (batch : list (string * string)) : Eff DB unit :=
  fun db =>
    if bool_decide (batch = [])
    then (Thrown "D1_ERROR: No SQL statements detected.", db)
    else if foreign_keys db && negb (bool_decide (is_Some (runs db !! run_id)))
    then (Thrown "FOREIGN KEY constraint failed", db)
    else (Returned tt, set_players (fun rows => rows ++ player_rows run_id batch) db).

(** The values bound to the [INSERT INTO runs] of [/api/run/init]. *)
Definition new_run (now : Z) (req : InitRequest) : Run :=
  {| run_type := default "" (ir_type req);
     run_seed := default "" (ir_seed req);
     run_goal := if truthy (ir_goal req) then ir_goal req else Some "ENDER_DRAGON";
     run_target_mob := or_null (ir_target_mob req);
     run_hardcore := flag_column (ir_hardcore req);
     run_set_seed := flag_column (ir_set_seed req);
     run_status := "CREATED";
     run_created_at := now;
     run_ended_at := None;
     run_duration := None;
     run_completion_details := None |}.

(** [POST /api/run/init], index.ts lines 624-660. *)
Definition init_run (now : Z) (req : InitRequest) : Eff DB AckResponse :=
  if negb (truthy (ir_run_id req)) || negb (truthy (ir_type req))
     || negb (truthy (ir_seed req)) || negb (bool_decide (is_Some (ir_players req)))
  then ret (ack (AError "Missing required fields") 400)
  else
    let run_id := default "" (ir_run_id req) in
    try_catch
      (sql_insert_run run_id (new_run now req) ;;
       sql_batch_insert_players run_id (default [] (ir_players req)) ;;
       ret (ack (AMessage "Run initialized") 200))
      (fun _ => ret (ack (AError "Failed to initialize run") 500)).

(** [INSERT INTO cheat_logs (run_id, player_name, details, timestamp)
    VALUES (?, ?, ?, ?)]; the row references the run. *)
Definition sql_insert_cheat_log (run_id player_name details : string)
    (timestamp : Z) : Eff DB unit :=
  fun db =>
    if foreign_keys db && negb (bool_decide (is_Some (runs db !! run_id)))
    then (Thrown "FOREIGN KEY constraint failed", db)
    else (Returned tt,
          set_cheat_logs (fun rows => rows ++
            [{| cl_run_id := run_id; cl_player_name := player_name;
                cl_details := details; cl_timestamp := timestamp |}]) db).

(** [POST /api/run/cheat], index.ts lines 716-735. *)
Definition report_cheat (now : Z) (run_id player_name details : string)
    : Eff DB AckResponse :=
  try_catch
    (sql_insert_cheat_log run_id player_name details now ;;
     ret (ack ASuccess 200))
    (fun _ => ret (ack (AError "Failed to log cheat") 500)).

(** [GET /api/seed/:seed/check], index.ts lines 962-967:
    [SELECT 1 FROM solved_seeds WHERE seed = ?], answered [!!result]. *)
Definition seed_check (seed : string) : Eff DB AckResponse :=
  fun db => (Returned (ack (ASolved (seed_present seed (solved_seeds db))) 200), db).


(** ** The public statistics ([getStats], index.ts lines 508-597) *)

(** A row of [runs r JOIN players p ON r.id = p.run_id]. *)
Record Joined : Type := {
  j_run_id : string;
  j_run : Run;
  j_player : Player
}.

(** The join, player by player: [runs.id] is the primary key, so a player
    row joins with at most one run. *)
Definition join_runs_players (db : DB) : list Joined :=
  flat_map
    (fun p =>
       match runs db !! player_run_id p with
       | Some r => [{| j_run_id := player_run_id p; j_run := r; j_player := p |}]
       | None => []
       end)
    (players db).

Fixpoint insert_by {A : Type} (key : A -> Z) (x : A) (sorted : list A) : list A :=
  match sorted with
  | [] => [x]
  | y :: rest =>
      if key x <=? key y then x :: y :: rest
      else y :: insert_by key x rest
  end.

(** [ORDER BY key ASC]; rows with equal keys keep their order. *)
Definition order_by {A : Type} (key : A -> Z) (rows : list A) : list A :=
  fold_right (insert_by key) [] rows.

(** [r.duration] of a row that passed [r.duration IS NOT NULL]. *)
Definition duration_key (j : Joined) : Z := default 0 (run_duration (j_run j)).

(** [WHERE r.status = 'FINISHED' AND r.duration IS NOT NULL
    AND p.role = 'RUNNER' AND r.set_seed = ?] *)
Definition on_board (set_seed : Z) (j : Joined) : bool :=
  String.eqb (run_status (j_run j)) "FINISHED"
  && bool_decide (is_Some (run_duration (j_run j)))
  && String.eqb (role (j_player j)) "RUNNER"
  && (run_set_seed (j_run j) =? set_seed).

(** The rows of a leaderboard query:
    [... ORDER BY r.duration ASC LIMIT 10]; [set_seed] is 0 for the
    random-seed board and 1 for the set-seed board. *)
Definition leaderboard_rows (set_seed : Z) (db : DB) : list Joined :=
  firstn 10 (order_by duration_key (List.filter (on_board set_seed) (join_runs_players db))).

(** [rows.map(r => ({ ...r, duration_formatted: formatDuration(r.duration) }))] *)
Definition leaderboard (set_seed : Z) (db : DB) : list (Joined * string) :=
  map (fun j => (j, formatDuration (duration_key j))) (leaderboard_rows set_seed db).

(** [WHERE r.status IN ('CREATED', 'STARTED', 'PAUSED') AND p.role = 'RUNNER'] *)
Definition is_active (j : Joined) : bool :=
  (String.eqb (run_status (j_run j)) "CREATED"
   || String.eqb (run_status (j_run j)) "STARTED"
   || String.eqb (run_status (j_run j)) "PAUSED")
  && String.eqb (role (j_player j)) "RUNNER".

(** The active-run query: [... ORDER BY r.created_at DESC LIMIT 1], [.first()]. *)
Definition active_run (db : DB) : option Joined :=
  head (order_by (fun j => - run_created_at (j_run j))
          (List.filter is_active (join_runs_players db))).

(** ** Vocabulary of the further statements *)

(** Ordered by a key. *)
Definition by_key {A : Type} (key : A -> Z) (a b : A) : Prop := key a <= key b.

(** The four required fields of an init request are there. *)
Definition init_fields_present (req : InitRequest) : bool :=
  truthy (ir_run_id req) && truthy (ir_type req) && truthy (ir_seed req)
  && bool_decide (is_Some (ir_players req)).

(** The names of the runners among the rows of [players] of a run. *)
Definition runner_names (run_id : string) (rows : list Player) : list string :=
  map minecraft_name
    (List.filter (fun p => String.eqb (player_run_id p) run_id && String.eqb (role p) "RUNNER")
       rows).

Definition cheats_of (run_id : string) (rows : list CheatLog) : Z :=
  Z.of_nat (length (List.filter (fun c => String.eqb (cl_run_id c) run_id) rows)).

(** A complete init request for [run_id] on [seed] with one runner and
    one spectator. *)
Definition sample_init (run_id seed : string) : InitRequest :=
  {| ir_run_id := Some run_id; ir_type := Some "SOLO"; ir_seed := Some seed;
     ir_players := Some [("Alex", "RUNNER"); ("Bob", "SPECTATOR")];
     ir_goal := None; ir_target_mob := None; ir_hardcore := Some true;
     ir_set_seed := None |}.

Definition newline : ascii := "010"%char.

(** No line feed in the string. *)
Fixpoint one_line (s : string) : bool :=
  match s with
  | EmptyString => true
  | String c rest => negb (Ascii.eqb c newline) && one_line rest
  end.

Definition seed_line (seed : string) : string := "level-seed=" +:+ seed.

Definition is_seed_line (line : string) : bool := String.prefix "level-seed=" line.

(** The invariant of the replay over an ordered log whose rows lie in
    [lo .. hi]: the total never exceeds the time gone by. *)
Definition clock_within (lo hi : Z) (c : Clock) : Prop :=
  lo <= hi /\ 0 <= totalTimeMs c /\
  if isRunning c
  then lo <= lastStartTime c <= hi /\ totalTimeMs c <= lastStartTime c - lo
  else totalTimeMs c <= hi - lo.

(** A server that is offline at the first poll and grants everything, and
    one that refuses every deletion. *)
Definition all_granted : Remote :=
  {| answer_stop := fun _ => true; answer_status := fun _ => Some 0;
     answer_start := fun _ => true; answer_restart := fun _ => true;
     answer_delete := fun _ _ => true;
     answer_get_file := fun _ _ => Some "motd=hello";
     answer_upload := fun _ _ _ => true |}.

Definition delete_refused : Remote :=
  {| answer_stop := fun _ => true; answer_status := fun _ => Some 0;
     answer_start := fun _ => true; answer_restart := fun _ => true;
     answer_delete := fun _ _ => false;
     answer_get_file := fun _ _ => Some "motd=hello";
     answer_upload := fun _ _ _ => true |}.

(** ** The exact traces of the orchestrations *)

(** A request that the remote refused. *)
Definition refused (e : Event) : bool :=
  match e with
  | EStop ok | EStart ok | ERestart ok | EDelete _ ok | EUpload _ _ ok => negb ok
  | EStatus None | EGetFile _ None => true
  | _ => false
  end.

(** Every event that satisfies [p] is the last event of the trace. *)
Fixpoint only_last (p : Event -> bool) (tr : list Event) : bool :=
  match tr with
  | [] => true
  | e :: rest =>
      (negb (p e) || match rest with [] => true | _ :: _ => false end)
      && only_last p rest
  end.

(** What the wait loop does from a status already read, with [budget]
    attempts left, and how it ends. *)
Inductive waited : nat -> Z -> list Event -> outcome Z -> Prop :=
  | waited_offline (budget : nat) : waited budget 0 [] (Returned 0)
  | waited_timeout (status : Z) : status <> 0 -> waited 0 status [] (Returned status)
  | waited_failed (budget : nat) (status : Z) :
      status <> 0 ->
      waited (S budget) status [ESleep 3000; EStatus None] (Thrown api_error)
  | waited_again (budget : nat) (status code : Z) (tr : list Event) (out : outcome Z) :
      status <> 0 ->
      waited budget code tr out ->
      waited (S budget) status (ESleep 3000 :: EStatus (Some code) :: tr) out.

(** The deletions of the world directories, up to the first refusal;
    the flag tells whether all three were granted. *)
Inductive delete_attempts : list Event -> bool -> Prop :=
  | deleted_none : delete_attempts [EDelete "world" false] false
  | deleted_one :
      delete_attempts [EDelete "world" true; EDelete "world_nether" false] false
  | deleted_two :
      delete_attempts [EDelete "world" true; EDelete "world_nether" true;
                       EDelete "world_the_end" false] false
  | deleted_all :
      delete_attempts [EDelete "world" true; EDelete "world_nether" true;
                       EDelete "world_the_end" true] true.

(** The traces of the reset task. *)
Inductive reset_trace : list Event -> Prop :=
  | reset_stop_refused : reset_trace [EStop false]
  | reset_poll_refused : reset_trace [EStop true; EStatus None]
  | reset_gave_up (first : Z) (tr : list Event) (out : outcome Z) :
      waited 100 first tr out -> out <> Returned 0 ->
      reset_trace (EStop true :: EStatus (Some first) :: tr)
  | reset_done (first : Z) (tr deletions : list Event) (granted ok : bool) :
      waited 100 first tr (Returned 0) ->
      delete_attempts deletions granted ->
      reset_trace (EStop true :: EStatus (Some first) :: tr ++ deletions ++ [EStart ok]).

(** The traces of the reseed branch of the restart task. *)
Inductive reseed_trace (seed : string) : list Event -> Prop :=
  | reseed_stop_refused : reseed_trace seed [EStop false]
  | reseed_poll_refused : reseed_trace seed [EStop true; EStatus None]
  | reseed_gave_up (first : Z) (tr : list Event) (out : outcome Z) :
      waited 100 first tr out -> out <> Returned 0 ->
      reseed_trace seed (EStop true :: EStatus (Some first) :: tr)
  | reseed_fetch_refused (first : Z) (tr : list Event) :
      waited 100 first tr (Returned 0) ->
      reseed_trace seed
        (EStop true :: EStatus (Some first) :: tr ++ [EGetFile "server.properties" None])
  | reseed_upload_refused (first : Z) (tr : list Event) (text : string) :
      waited 100 first tr (Returned 0) ->
      reseed_trace seed
        (EStop true :: EStatus (Some first) :: tr ++
           [EGetFile "server.properties" (Some text);
            EUpload "server.properties" (rewrite_seed seed text) false])
  | reseed_delete_refused (first : Z) (tr deletions : list Event) (text : string) :
      waited 100 first tr (Returned 0) ->
      delete_attempts deletions false ->
      reseed_trace seed
        (EStop true :: EStatus (Some first) :: tr ++
           [EGetFile "server.properties" (Some text);
            EUpload "server.properties" (rewrite_seed seed text) true] ++ deletions)
  | reseed_done (first : Z) (tr deletions : list Event) (text : string) (ok : bool) :
      waited 100 first tr (Returned 0) ->
      delete_attempts deletions true ->
      reseed_trace seed
        (EStop true :: EStatus (Some first) :: tr ++
           [EGetFile "server.properties" (Some text);
            EUpload "server.properties" (rewrite_seed seed text) true] ++ deletions
           ++ [EStart ok]).

(** * Proofs *)

(** ** Duration formatting *)

Lemma js_rem_floor (ms d : Z) :
  0 <= ms -> 0 < d ->
  Qfloor (js_rem (inject_Z ms / inject_Z d) (inject_Z 60)) = (ms / d) mod 60.
Proof.
  intros Hms Hd.
  unfold js_rem, Qfloor, Qdiv, Qmult, Qinv, Qminus, Qplus, Qopp, inject_Z.
  destruct d as [|d|d]; try lia.
  cbn [Qnum Qden].
  rewrite !Pos.mul_1_l, !Pos.mul_1_r, !Z.mul_1_r, Pos2Z.inj_mul.
  set (D := Z.pos d) in *.
  rewrite Z.quot_div_nonneg by lia.
  replace (ms + - (60 * (ms / (D * 60))) * D) with (ms mod (D * 60))
    by (rewrite Z.mod_eq by lia; ring).
  rewrite Z.rem_mul_r by lia.
  rewrite (Z.mul_comm D), Z.div_add by lia.
  rewrite (Z.div_small (ms mod D)) by (apply Z.mod_pos_bound; lia).
  reflexivity.
Qed.

Lemma Qfloor_quotient (ms d : Z) :
  0 < d -> Qfloor (inject_Z ms / inject_Z d) = ms / d.
Proof.
  intros Hd. unfold Qfloor, Qdiv, Qmult, Qinv, inject_Z.
  destruct d as [|d|d]; try lia.
  cbn [Qnum Qden]. now rewrite Pos.mul_1_l, Z.mul_1_r.
Qed.

(** The three numbers of the string are the floor-based decomposition:
    hours uncapped, minutes and seconds modulo 60. *)
Lemma formatDuration_floor (ms : Z) :
  0 <= ms ->
  formatDuration ms =
    pretty (ms / 3600000) +:+ "h " +:+ pretty ((ms / 60000) mod 60) +:+ "m "
      +:+ pretty ((ms / 1000) mod 60) +:+ " s".
Proof.
  intros H. unfold formatDuration.
  rewrite !js_rem_floor, Qfloor_quotient by lia. reflexivity.
Qed.

(** C4: the duration string is [{h}h {m}m {s}s] with the floor-based
    numbers.  The numbers are right ([formatDuration_floor]), but the
    current template literal puts a space before the final [s]:
    3,661,000 ms gives ["1h 1m 1 s"] and 59,000 ms gives ["0h 0m 59 s"],
    not ["1h 1m 1s"] and ["0h 0m 59s"].  The first revision of the
    function printed the strings without the space. *)
Theorem formatDuration_trailing_unit :
  formatDuration 3661000 = "1h 1m 1 s" /\
  formatDuration 59000 = "0h 0m 59 s" /\
  formatDuration 3661000 <> "1h 1m 1s" /\
  formatDuration 59000 <> "0h 0m 59s" /\
  formatDuration_first_revision 3661000 = "1h 1m 1s" /\
  formatDuration_first_revision 59000 = "0h 0m 59s".
Proof. repeat split; try (vm_compute; reflexivity); vm_compute; discriminate. Qed.

(** ** The replay, edge by edge *)

Lemma replay_snoc (logs : list LogRow) (log : LogRow) :
  replay (logs ++ [log]) = clock_step (replay logs) log.
Proof. unfold replay. now rewrite fold_left_app. Qed.

Lemma clock_step_edge (c : Clock) (log : LogRow) :
  clock_step c log =
    match edge_of (action log), isRunning c with
    | ClockOn, false =>
        {| totalTimeMs := totalTimeMs c; lastStartTime := timestamp log; isRunning := true |}
    | ClockOff, true =>
        {| totalTimeMs := totalTimeMs c + (timestamp log - lastStartTime c);
           lastStartTime := lastStartTime c; isRunning := false |}
    | _, _ => c
    end.
Proof.
  unfold clock_step, edge_of.
  destruct (String.eqb (action log) "START" || String.eqb (action log) "RESUME");
    [ now destruct (isRunning c) | ].
  destruct (String.eqb (action log) "PAUSE" || String.eqb (action log) "END");
    now destruct (isRunning c).
Qed.

Lemma edge_of_abort_fail (a : string) :
  is_abort_or_fail a = true -> edge_of a = NoEdge.
Proof.
  unfold is_abort_or_fail. intros H.
  apply orb_true_iff in H as [H | H]; apply String.eqb_eq in H; now subst.
Qed.

Lemma replay_alternating (pairs : list (Z * Z)) (c : Clock) :
  isRunning c = false ->
  isRunning (replay_from c (alternating pairs)) = false /\
  totalTimeMs (replay_from c (alternating pairs)) = totalTimeMs c + paired_total pairs.
Proof.
  revert c. induction pairs as [|[s p] rest IH]; intros c Hc.
  - cbn. split; [exact Hc | lia].
  - change (replay_from c (alternating ((s, p) :: rest)))
      with (replay_from (clock_step (clock_step c (at_time "START" s)) (at_time "PAUSE" p))
              (alternating rest)).
    assert (Hstep : clock_step (clock_step c (at_time "START" s)) (at_time "PAUSE" p) =
                    {| totalTimeMs := totalTimeMs c + (p - s);
                       lastStartTime := s; isRunning := false |}).
    { unfold clock_step. cbn. rewrite Hc. reflexivity. }
    rewrite Hstep.
    destruct (IH {| totalTimeMs := totalTimeMs c + (p - s);
                    lastStartTime := s; isRunning := false |} eq_refl) as [H1 H2].
    split; [exact H1 | rewrite H2; cbn; lia].
Qed.

Lemma elapsed_alternating (now : Z) (pairs : list (Z * Z)) :
  elapsed now (alternating pairs) = paired_total pairs.
Proof.
  unfold elapsed, replay.
  destruct (replay_alternating pairs clock_init eq_refl) as [H1 H2].
  unfold replay_from in *. now rewrite H1, H2.
Qed.

(** ** [ORDER BY timestamp] *)

Lemma insert_before_head (row : LogRow) (rows : list LogRow) :
  match rows with [] => True | r :: _ => timestamp row <= timestamp r end ->
  insert_by_timestamp row rows = row :: rows.
Proof.
  destruct rows as [|r rest]; [reflexivity|]. cbn. intros H.
  now rewrite (proj2 (Z.leb_le _ _) H).
Qed.

Lemma order_increasing (rows : list LogRow) :
  increasing rows = true -> order_by_timestamp rows = rows.
Proof.
  induction rows as [|r1 rest IH]; [reflexivity|]. intros H.
  cbn [order_by_timestamp fold_right]. fold (order_by_timestamp rest).
  destruct rest as [|r2 rest'].
  - reflexivity.
  - cbn [increasing] in H. apply andb_true_iff in H as [Hlt Hrest].
    rewrite (IH Hrest). apply insert_before_head. apply Z.ltb_lt in Hlt. lia.
Qed.

Lemma insert_sorted (row : LogRow) (rows : list LogRow) :
  StronglySorted by_timestamp rows ->
  StronglySorted by_timestamp (insert_by_timestamp row rows).
Proof.
  induction 1 as [|r rest Hs IH Hall]; cbn.
  - repeat constructor.
  - destruct (Z.leb_spec (timestamp row) (timestamp r)).
    + constructor; [now constructor|]. constructor; [assumption|].
      eapply List.Forall_impl; [|exact Hall]. unfold by_timestamp. cbn. intros; lia.
    + constructor; [exact IH|].
      assert (Hin : forall x, In x (insert_by_timestamp row rest) -> x = row \/ In x rest).
      { clear. induction rest as [|y ys IHys]; cbn; intros x Hx.
        - destruct Hx as [<-|[]]. now left.
        - destruct (timestamp row <=? timestamp y); cbn in Hx.
          + destruct Hx as [<-|Hx]; [now left | now right].
          + destruct Hx as [<-|Hx]; [right; now left|].
            destruct (IHys _ Hx); [now left | right; now right]. }
      apply List.Forall_forall. intros x Hx. destruct (Hin _ Hx) as [->|Hx'].
      * unfold by_timestamp. lia.
      * rewrite List.Forall_forall in Hall. now apply Hall.
Qed.

Lemma order_sorted (rows : list LogRow) :
  StronglySorted by_timestamp (order_by_timestamp rows).
Proof.
  induction rows as [|r rest IH]; cbn; [constructor | now apply insert_sorted].
Qed.

Lemma insert_filter (keep : LogRow -> bool) (row : LogRow) (rows : list LogRow) :
  StronglySorted by_timestamp rows ->
  List.filter keep (insert_by_timestamp row rows) =
    if keep row then insert_by_timestamp row (List.filter keep rows)
    else List.filter keep rows.
Proof.
  induction 1 as [|r rest Hs IH Hall]; cbn.
  - now destruct (keep row).
  - destruct (Z.leb_spec (timestamp row) (timestamp r)) as [Hle|Hgt].
    + cbn. destruct (keep row); [|reflexivity].
      symmetry. apply insert_before_head.
      destruct (keep r); [exact Hle|].
      destruct (List.filter keep rest) as [|x xs] eqn:E; [exact I|].
      assert (Hx : In x rest).
      { apply (proj1 (List.filter_In keep x rest)). rewrite E. now left. }
      rewrite List.Forall_forall in Hall. specialize (Hall _ Hx).
      unfold by_timestamp in Hall. lia.
    + cbn. rewrite IH. destruct (keep r), (keep row); cbn; try reflexivity.
      now rewrite (proj2 (Z.leb_gt _ _) Hgt).
Qed.

Lemma order_filter (keep : LogRow -> bool) (rows : list LogRow) :
  order_by_timestamp (List.filter keep rows) =
  List.filter keep (order_by_timestamp rows).
Proof.
  induction rows as [|r rest IH]; [reflexivity|].
  cbn [List.filter order_by_timestamp fold_right]. fold (order_by_timestamp rest).
  rewrite insert_filter by apply order_sorted.
  destruct (keep r); [|exact IH]. cbn. fold (order_by_timestamp (List.filter keep rest)).
  now rewrite IH.
Qed.

(** Rows that are no edge can be dropped before the replay. *)
Lemma replay_from_filter_edges (logs : list LogRow) (c : Clock) :
  replay_from c (List.filter (fun r => negb (is_abort_or_fail (action r))) logs) =
  replay_from c logs.
Proof.
  revert c. induction logs as [|r rest IH]; intros c; [reflexivity|].
  cbn [List.filter]. destruct (is_abort_or_fail (action r)) eqn:E; cbn.
  - rewrite (clock_step_edge c r), (edge_of_abort_fail _ E). apply IH.
  - apply IH.
Qed.

Lemma rows_of_run_without (run_id : string) (logs : list TimeLog) :
  rows_of_run run_id (without_abort_fail logs) =
  List.filter (fun r => negb (is_abort_or_fail (action r))) (rows_of_run run_id logs).
Proof.
  unfold rows_of_run, without_abort_fail.
  induction logs as [|l rest IH]; [reflexivity|]. cbn.
  destruct (is_abort_or_fail (tl_action l)) eqn:E, (String.eqb (tl_run_id l) run_id) eqn:F;
    cbn; rewrite ?E, ?F; cbn; rewrite ?E; now rewrite IH.
Qed.

(** ** [calculateStats] on an existing run *)

Lemma calculateStats_found (db : DB) (runId : string) (now : Z) (run : Run) :
  runs db !! runId = Some run ->
  exists stats,
    calculateStats now runId db = (Returned stats, db) /\
    duration_ms stats = elapsed now (ordered_log db runId) /\
    duration_formatted stats = formatDuration (duration_ms stats) /\
    st_seed stats = run_seed run /\
    solved_at stats = run_ended_at run.
Proof.
  intros Hrun. unfold calculateStats, bind, sql_select_run. rewrite Hrun. cbn.
  eexists. split; [reflexivity|]. cbn. repeat split; reflexivity.
Qed.

Lemma calculateStats_missing (db : DB) (runId : string) (now : Z) :
  runs db !! runId = None ->
  calculateStats now runId db = (Thrown "Run not found", db).
Proof.
  intros Hrun. unfold calculateStats, bind, sql_select_run. now rewrite Hrun.
Qed.

Lemma calculateStats_without_abort_fail (db : DB) (runId : string) (now : Z) :
  fst (calculateStats now runId (set_time_logs without_abort_fail db)) =
  fst (calculateStats now runId db).
Proof.
  assert (Hlog : elapsed now (ordered_log (set_time_logs without_abort_fail db) runId) =
                 elapsed now (ordered_log db runId)).
  { unfold ordered_log, set_time_logs. cbn [time_logs].
    rewrite rows_of_run_without, order_filter. unfold elapsed, replay.
    fold (replay_from clock_init (List.filter (fun r => negb (is_abort_or_fail (action r)))
            (order_by_timestamp (rows_of_run runId (time_logs db))))).
    now rewrite replay_from_filter_edges. }
  unfold ordered_log in Hlog.
  unfold calculateStats, bind, sql_select_run, sql_select_player_names,
    sql_select_time_logs, sql_count_cheats, ret.
  cbn [runs set_time_logs].
  destruct (runs db !! runId) as [run|]; [|reflexivity].
  cbn [fst players cheat_logs]. now rewrite Hlog.
Qed.

(** ** The clock while it is on *)

Lemma replay_from_running (c : Clock) (logs : list LogRow) :
  isRunning c = true -> Forall no_clock_off logs -> replay_from c logs = c.
Proof.
  intros Hc Hall. induction Hall as [|r rest Hr _ IH]; [reflexivity|].
  cbn. rewrite clock_step_edge, Hc. unfold no_clock_off in Hr.
  destruct (edge_of (action r)); [exact IH | congruence | exact IH].
Qed.

(** A replay ends with the clock on exactly when the log is
    [pre ++ on :: post]: [pre] leaves the clock off, [on] is a clock-on
    edge (the last effective one) and no clock-off edge follows it. *)
Lemma replay_running_shape (logs : list LogRow) :
  isRunning (replay logs) = true ->
  exists pre on post,
    logs = pre ++ on :: post /\
    edge_of (action on) = ClockOn /\
    isRunning (replay pre) = false /\
    Forall no_clock_off post /\
    lastStartTime (replay logs) = timestamp on /\
    totalTimeMs (replay logs) = totalTimeMs (replay pre).
Proof.
  induction logs as [|log logs IH] using rev_ind; [discriminate|].
  rewrite replay_snoc, clock_step_edge.
  destruct (edge_of (action log)) eqn:Hedge, (isRunning (replay logs)) eqn:Hrun;
    cbn; intros H; try discriminate; try congruence.
  - destruct (IH eq_refl) as (pre & on & post & -> & Hon & Hpre & Hpost & Hlast & Htot).
    exists pre, on, (post ++ [log]). rewrite <- app_assoc. repeat split; try assumption.
    apply Forall_app. split; [assumption|]. constructor; [|constructor].
    unfold no_clock_off. congruence.
  - exists logs, log, []. repeat split; try assumption. constructor.
  - destruct (IH eq_refl) as (pre & on & post & -> & Hon & Hpre & Hpost & Hlast & Htot).
    exists pre, on, (post ++ [log]). rewrite <- app_assoc. repeat split; try assumption.
    apply Forall_app. split; [assumption|]. constructor; [|constructor].
    unfold no_clock_off. congruence.
Qed.

Lemma replay_shape_running (pre post : list LogRow) (on : LogRow) :
  edge_of (action on) = ClockOn ->
  isRunning (replay pre) = false ->
  Forall no_clock_off post ->
  replay (pre ++ on :: post) =
    {| totalTimeMs := totalTimeMs (replay pre); lastStartTime := timestamp on;
       isRunning := true |}.
Proof.
  intros Hon Hpre Hpost. unfold replay. rewrite fold_left_app. cbn [fold_left].
  fold (replay pre). rewrite clock_step_edge, Hon, Hpre.
  now apply replay_from_running.
Qed.

(** ** The accounting of a run *)

(** C1: the replay treats START and RESUME as clock-on edges and PAUSE and
    END as clock-off edges; a clock-on edge while the clock is on and a
    clock-off edge while it is off change nothing.  For a run whose log is
    START/PAUSE pairs with strictly increasing timestamps the stats
    computation returns the sum of [pause_i - start_i], and
    [START@0, RESUME@500, PAUSE@2000] gives 2000 ms. *)
Theorem accounting_fold (db : DB) (runId : string) (now : Z) (pairs : list (Z * Z)) :
  is_Some (runs db !! runId) ->
  rows_of_run runId (time_logs db) = alternating pairs ->
  increasing (alternating pairs) = true ->
  (edge_of "START" = ClockOn /\ edge_of "RESUME" = ClockOn /\
   edge_of "PAUSE" = ClockOff /\ edge_of "END" = ClockOff) /\
  (forall c log,
     clock_step c log =
       match edge_of (action log), isRunning c with
       | ClockOn, false =>
           {| totalTimeMs := totalTimeMs c; lastStartTime := timestamp log;
              isRunning := true |}
       | ClockOn, true => c
       | ClockOff, true =>
           {| totalTimeMs := totalTimeMs c + (timestamp log - lastStartTime c);
              lastStartTime := lastStartTime c; isRunning := false |}
       | ClockOff, false => c
       | NoEdge, _ => c
       end) /\
  elapsed now (alternating pairs) = paired_total pairs /\
  (exists stats,
     calculateStats now runId db = (Returned stats, db) /\
     duration_ms stats = paired_total pairs) /\
  elapsed now [at_time "START" 0; at_time "RESUME" 500; at_time "PAUSE" 2000] = 2000.
Proof.
  intros [run Hrun] Hrows Hinc. split; [repeat split|]. split.
  { intros c log. rewrite clock_step_edge.
    now destruct (edge_of (action log)), (isRunning c). }
  split; [apply elapsed_alternating|]. split; [|reflexivity].
  destruct (calculateStats_found db runId now run Hrun) as (stats & Hcall & Hdur & _).
  exists stats. split; [exact Hcall|].
  rewrite Hdur. unfold ordered_log. rewrite Hrows, (order_increasing _ Hinc).
  apply elapsed_alternating.
Qed.

Lemma accounting_fold_witness :
  exists stats,
    calculateStats 9000 "run-1"
      (sample_db [log_of "run-1" "START" 0; log_of "run-2" "START" 100;
                  log_of "run-1" "PAUSE" 1000; log_of "run-1" "START" 4000;
                  log_of "run-1" "PAUSE" 4500])
    = (Returned stats,
       sample_db [log_of "run-1" "START" 0; log_of "run-2" "START" 100;
                  log_of "run-1" "PAUSE" 1000; log_of "run-1" "START" 4000;
                  log_of "run-1" "PAUSE" 4500]) /\
    duration_ms stats = 1500.
Proof.
  apply (accounting_fold
           (sample_db [log_of "run-1" "START" 0; log_of "run-2" "START" 100;
                       log_of "run-1" "PAUSE" 1000; log_of "run-1" "START" 4000;
                       log_of "run-1" "PAUSE" 4500])
           "run-1" 9000 [(0, 1000); (4000, 4500)]).
  - exists (sample_run "seed-A"). vm_compute. reflexivity.
  - vm_compute. reflexivity.
  - vm_compute. reflexivity.
Defined.

(** C2: when the replay of a run's log ends with the clock on, the stats
    computation returns the accumulated total plus [now] minus the
    timestamp of the last effective clock-on edge; for [START@0] and
    [now = 5000] that is 5000 ms. *)
Theorem live_elapsed (db : DB) (runId : string) (now : Z) :
  is_Some (runs db !! runId) ->
  isRunning (replay (ordered_log db runId)) = true ->
  (exists stats pre on post,
     calculateStats now runId db = (Returned stats, db) /\
     ordered_log db runId = pre ++ on :: post /\
     edge_of (action on) = ClockOn /\
     isRunning (replay pre) = false /\
     Forall no_clock_off post /\
     totalTimeMs (replay (ordered_log db runId)) = totalTimeMs (replay pre) /\
     duration_ms stats =
       totalTimeMs (replay (ordered_log db runId)) + (now - timestamp on)) /\
  elapsed 5000 [at_time "START" 0] = 5000.
Proof.
  intros [run Hrun] Hon. split; [|reflexivity].
  destruct (calculateStats_found db runId now run Hrun) as (stats & Hcall & Hdur & _).
  destruct (replay_running_shape _ Hon) as (pre & on & post & Hlog & He & Hpre & Hpost & Hlast & Htot).
  exists stats, pre, on, post. repeat split; try assumption.
  rewrite Hdur. unfold elapsed. now rewrite Hon, Hlast.
Qed.

Lemma live_elapsed_witness :
  exists stats,
    calculateStats 5000 "run-1" (sample_db [log_of "run-1" "START" 0])
      = (Returned stats, sample_db [log_of "run-1" "START" 0]) /\
    duration_ms stats = 5000.
Proof.
  destruct (live_elapsed (sample_db [log_of "run-1" "START" 0]) "run-1" 5000)
    as [(stats & pre & on & post & Hcall & _) _].
  - exists (sample_run "seed-A"). vm_compute. reflexivity.
  - vm_compute. reflexivity.
  - exists stats. split; [exact Hcall|].
    vm_compute in Hcall. injection Hcall as <-. vm_compute. reflexivity.
Defined.

Lemma without_abort_fail_insert (before after : list TimeLog) (entry : TimeLog) :
  is_abort_or_fail (tl_action entry) = true ->
  without_abort_fail (before ++ entry :: after) = without_abort_fail (before ++ after).
Proof.
  intros H. unfold without_abort_fail.
  rewrite !List.filter_app. cbn [List.filter]. now rewrite H.
Qed.

Lemma elapsed_insert_no_edge (now : Z) (logs1 logs2 : list LogRow) (row : LogRow) :
  edge_of (action row) = NoEdge ->
  elapsed now (logs1 ++ row :: logs2) = elapsed now (logs1 ++ logs2).
Proof.
  intros H. unfold elapsed, replay. rewrite !fold_left_app. cbn [fold_left].
  now rewrite (clock_step_edge _ row), H.
Qed.

(** C3: ABORT and FAIL rows are no edges of the replay.  Inserting one
    anywhere in [time_logs] (for any run, with any timestamp) leaves the
    result of the stats computation as it was, and so does removing all of
    them; a clock that is on stays on across them, so [START@0, ABORT@1000]
    read at 5000 gives 5000 ms and only the PAUSE in
    [START@0, ABORT@1000, PAUSE@3000] stops it, at 3000 ms. *)
Theorem abort_fail_are_no_edges (db : DB) (runId : string) (now : Z)
    (before after : list TimeLog) (entry : TimeLog) :
  is_abort_or_fail (tl_action entry) = true ->
  time_logs db = before ++ after ->
  fst (calculateStats now runId (set_time_logs (fun _ => before ++ entry :: after) db)) =
    fst (calculateStats now runId db) /\
  fst (calculateStats now runId (set_time_logs without_abort_fail db)) =
    fst (calculateStats now runId db) /\
  (forall c t, clock_step c (at_time "ABORT" t) = c /\ clock_step c (at_time "FAIL" t) = c) /\
  (forall logs1 logs2 row,
     is_abort_or_fail (action row) = true ->
     elapsed now (logs1 ++ row :: logs2) = elapsed now (logs1 ++ logs2)) /\
  elapsed 5000 [at_time "START" 0; at_time "ABORT" 1000] = 5000 /\
  elapsed 5000 [at_time "START" 0; at_time "FAIL" 1000] = 5000 /\
  elapsed 5000 [at_time "START" 0; at_time "ABORT" 1000; at_time "PAUSE" 3000] = 3000.
Proof.
  intros Hentry Hlogs. repeat split; try reflexivity.
  - rewrite <- (calculateStats_without_abort_fail
                  (set_time_logs (fun _ => before ++ entry :: after) db)).
    rewrite <- (calculateStats_without_abort_fail db).
    unfold set_time_logs. cbn [runs players time_logs cheat_logs solved_seeds foreign_keys].
    now rewrite Hlogs, (without_abort_fail_insert _ _ _ Hentry).
  - apply calculateStats_without_abort_fail.
  - intros logs1 logs2 row Hrow. apply elapsed_insert_no_edge.
    now apply edge_of_abort_fail.
Qed.

Lemma abort_fail_are_no_edges_witness :
  fst (calculateStats 5000 "run-1"
         (sample_db [log_of "run-1" "START" 0; log_of "run-1" "ABORT" 1000;
                     log_of "run-1" "PAUSE" 3000])) =
  fst (calculateStats 5000 "run-1"
         (sample_db [log_of "run-1" "START" 0; log_of "run-1" "PAUSE" 3000])).
Proof.
  apply (abort_fail_are_no_edges
           (sample_db [log_of "run-1" "START" 0; log_of "run-1" "PAUSE" 3000])
           "run-1" 5000 [log_of "run-1" "START" 0] [log_of "run-1" "PAUSE" 3000]
           (log_of "run-1" "ABORT" 1000)).
  - vm_compute. reflexivity.
  - vm_compute. reflexivity.
Defined.

(** C10: for a run that exists and has no row in [time_logs], the replay
    ends with the clock off and the stats computation returns 0 ms,
    whatever [now] is. *)
Theorem empty_log_zero (db : DB) (runId : string) (now : Z) :
  is_Some (runs db !! runId) ->
  rows_of_run runId (time_logs db) = [] ->
  isRunning (replay (ordered_log db runId)) = false /\
  exists stats,
    calculateStats now runId db = (Returned stats, db) /\
    duration_ms stats = 0.
Proof.
  intros [run Hrun] Hrows.
  assert (Hlog : ordered_log db runId = []) by (unfold ordered_log; now rewrite Hrows).
  rewrite Hlog. split; [reflexivity|].
  destruct (calculateStats_found db runId now run Hrun) as (stats & Hcall & Hdur & _).
  exists stats. split; [exact Hcall|]. now rewrite Hdur, Hlog.
Qed.

Lemma empty_log_zero_witness :
  exists stats,
    calculateStats 123456 "run-1" (sample_db [log_of "run-2" "START" 0])
      = (Returned stats, sample_db [log_of "run-2" "START" 0]) /\
    duration_ms stats = 0.
Proof.
  apply (empty_log_zero (sample_db [log_of "run-2" "START" 0]) "run-1" 123456).
  - exists (sample_run "seed-A"). vm_compute. reflexivity.
  - vm_compute. reflexivity.
Defined.

(** ** Update state *)

Lemma status_of_action_invalid (a : string) :
  ~ In a valid_actions -> status_of_action a = None.
Proof.
  intros Hout. unfold status_of_action.
  repeat match goal with
  | |- context [String.eqb a ?s] =>
      destruct (String.eqb_spec a s) as [->|_];
      [ exfalso; apply Hout; cbn; tauto | ]
  end.
  reflexivity.
Qed.

Lemma status_of_action_valid (a : string) :
  In a valid_actions -> exists newStatus, status_of_action a = Some newStatus.
Proof.
  cbn. intros [<-|[<-|[<-|[<-|[<-|[]]]]]]; eexists; reflexivity.
Qed.

Lemma set_runs_same (db : DB) (f : gmap string Run -> gmap string Run) :
  f (runs db) = runs db -> set_runs f db = db.
Proof. destruct db. unfold set_runs. cbn. now intros ->. Qed.

(** The outcome of [update_state], branch by branch. *)
Lemma update_state_cases (db : DB) (now : Z) (run_id action : option string) :
  update_state now run_id action db =
    if negb (truthy run_id) || negb (truthy action) then
      (Returned (json (BError "Missing required fields") 400), db)
    else
      match status_of_action (default "" action) with
      | None => (Returned (json (BError "Invalid action") 400), db)
      | Some newStatus =>
          if foreign_keys db && negb (bool_decide (is_Some (runs db !! default "" run_id)))
          then (Returned (json (BError "Failed to update state") 500), db)
          else (Returned (json (BStatus newStatus) 200),
                set_time_logs
                  (fun rows => rows ++ [log_of (default "" run_id) (default "" action) now])
                  (set_runs (alter (with_status newStatus) (default "" run_id)) db))
      end.
Proof.
  unfold update_state.
  destruct (negb (truthy run_id) || negb (truthy action)); [reflexivity|].
  unfold try_catch.
  destruct (status_of_action (default "" action)) as [newStatus|]; [|reflexivity].
  unfold bind, sql_update_status, sql_insert_time_log, ret. cbn [runs set_runs foreign_keys].
  assert (Hsame : bool_decide (is_Some (alter (with_status newStatus) (default "" run_id)
                                          (runs db) !! default "" run_id)) =
                  bool_decide (is_Some (runs db !! default "" run_id))).
  { apply bool_decide_ext. rewrite lookup_alter_eq. apply fmap_is_Some. }
  rewrite Hsame.
  destruct (foreign_keys db) eqn:Hfk; cbn [andb]; [|reflexivity].
  destruct (bool_decide (is_Some (runs db !! default "" run_id))) eqn:Hrun; cbn [negb];
    [reflexivity|].
  f_equal. apply set_runs_same. apply alter_id. intros r Hr.
  apply bool_decide_eq_false in Hrun. exfalso. apply Hrun. now exists r.
Qed.

(** C5: [START] and [RESUME] map to RUNNING, [PAUSE] to PAUSED, [ABORT] to
    ABORTED and [FAIL] to FAILED.  A call whose action is missing or
    outside these five is answered 400 and leaves the database as it was;
    more generally every call that is not answered 200 leaves it as it was.
    An accepted call (both fields present, a listed action, the run's row
    present or foreign keys off) is answered 200 with the mapped status,
    sets that status on the run, every other column of the run kept, and
    appends the row [(run_id, action, now)] with the action as it was
    sent.  (The first revisions of the handler have no [FAIL] case and
    answer 400 to it.) *)
Theorem update_state_contract (db : DB) (now : Z) (run_id action : option string) :
  (status_of_action "START" = Some "RUNNING" /\
   status_of_action "RESUME" = Some "RUNNING" /\
   status_of_action "PAUSE" = Some "PAUSED" /\
   status_of_action "ABORT" = Some "ABORTED" /\
   status_of_action "FAIL" = Some "FAILED") /\
  ((forall a, action = Some a -> ~ In a valid_actions) ->
   exists resp,
     update_state now run_id action db = (Returned resp, db) /\
     http_status resp = 400) /\
  (forall out db',
     update_state now run_id action db = (out, db') ->
     (forall resp, out = Returned resp -> http_status resp <> 200) ->
     db' = db) /\
  (forall rid a,
     run_id = Some rid -> rid <> "" -> action = Some a -> In a valid_actions ->
     foreign_keys db = false \/ is_Some (runs db !! rid) ->
     exists newStatus db',
       status_of_action a = Some newStatus /\
       update_state now run_id action db = (Returned (json (BStatus newStatus) 200), db') /\
       time_logs db' =
         time_logs db ++ [{| tl_run_id := rid; tl_action := a; tl_timestamp := now |}] /\
       runs db' !! rid =
         (fun r =>
            {| run_type := run_type r; run_seed := run_seed r; run_goal := run_goal r;
               run_target_mob := run_target_mob r; run_hardcore := run_hardcore r;
               run_set_seed := run_set_seed r; run_status := newStatus;
               run_created_at := run_created_at r; run_ended_at := run_ended_at r;
               run_duration := run_duration r;
               run_completion_details := run_completion_details r |})
         <$> runs db !! rid /\
       (forall other, other <> rid -> runs db' !! other = runs db !! other) /\
       solved_seeds db' = solved_seeds db).
Proof.
  split; [repeat split|]. rewrite update_state_cases. split; [|split].
  - intros Hout.
    destruct (negb (truthy run_id) || negb (truthy action)); [eexists; split; reflexivity|].
    destruct action as [a|]; cbn [from_option id].
    + rewrite (status_of_action_invalid a (Hout a eq_refl)). eexists; split; reflexivity.
    + eexists; split; reflexivity.
  - intros out db' Hcall Hfail.
    destruct (negb (truthy run_id) || negb (truthy action)); [congruence|].
    destruct (status_of_action (default "" action)); [|congruence].
    destruct (foreign_keys db && negb (bool_decide (is_Some (runs db !! default "" run_id))));
      [congruence|].
    injection Hcall as <- <-. now destruct (Hfail _ eq_refl).
  - intros rid a -> Hrid -> Ha Hrun. cbn [from_option id truthy].
    destruct (String.eqb_spec rid "") as [->|_]; [congruence|].
    destruct (status_of_action_valid a Ha) as [newStatus Hst].
    assert (Ha' : String.eqb a "" = false).
    { destruct (String.eqb_spec a "") as [->|]; [discriminate Hst | reflexivity]. }
    rewrite Ha', Hst. cbn [negb orb].
    assert (Hfk : foreign_keys db && negb (bool_decide (is_Some (runs db !! rid))) = false).
    { destruct Hrun as [-> | Hrun]; [reflexivity|].
      rewrite (bool_decide_eq_true_2 _ Hrun). apply andb_false_r. }
    rewrite Hfk. eexists _, _. split; [reflexivity|]. split; [reflexivity|].
    cbn [time_logs runs solved_seeds set_time_logs set_runs].
    split; [reflexivity|].
    split; [exact (lookup_alter_eq (with_status newStatus) (runs db) rid)|].
    split; [|reflexivity].
    intros other Hne. now apply lookup_alter_ne.
Qed.

Lemma update_state_contract_witness :
  exists db',
    update_state 2000 (Some "run-1") (Some "PAUSE")
      (sample_db [{| tl_run_id := "run-1"; tl_action := "START"; tl_timestamp := 0 |}])
      = (Returned (json (BStatus "PAUSED") 200), db') /\
    time_logs db' =
      [{| tl_run_id := "run-1"; tl_action := "START"; tl_timestamp := 0 |};
       {| tl_run_id := "run-1"; tl_action := "PAUSE"; tl_timestamp := 2000 |}] /\
    run_status <$> runs db' !! "run-1" = Some "PAUSED" /\
    run_seed <$> runs db' !! "run-1" = Some "seed-A".
Proof.
  destruct (update_state_contract
              (sample_db [{| tl_run_id := "run-1"; tl_action := "START"; tl_timestamp := 0 |}])
              2000 (Some "run-1") (Some "PAUSE")) as (_ & _ & _ & Hok).
  destruct (Hok "run-1" "PAUSE") as (newStatus & db' & H1 & H2 & H3 & H4 & _).
  - reflexivity.
  - discriminate.
  - reflexivity.
  - cbn. tauto.
  - right. exists (sample_run "seed-A"). vm_compute. reflexivity.
  - vm_compute in H1. injection H1 as <-.
    exists db'. split; [exact H2|]. split; [exact H3|].
    rewrite H4. split; vm_compute; reflexivity.
Defined.

(** ** Finish and the solved seeds *)

Lemma finish_found (db : DB) (now now_stats : Z) (rid : string)
    (details : option string) (run : Run) :
  runs db !! rid = Some run ->
  exists stats db',
    finish now now_stats rid details db = (Returned (json (BStats stats) 200), db') /\
    time_logs db' = time_logs db ++ [log_of rid "END" now] /\
    solved_seeds db' = insert_or_ignore (run_seed run) now (solved_seeds db) /\
    duration_ms stats = elapsed now_stats (ordered_log db' rid) /\
    runs db' = alter (with_duration (duration_ms stats)) rid
                 (alter (with_finished "FINISHED" now (or_null details)) rid (runs db)) /\
    foreign_keys db' = foreign_keys db.
Proof.
  intros Hrun.
  unfold finish, try_catch, bind, sql_update_finished, sql_insert_time_log, sql_select_seed.
  cbn [runs set_runs foreign_keys set_time_logs].
  rewrite lookup_alter_eq, Hrun. cbn [fmap option_fmap option_map].
  rewrite bool_decide_eq_true_2 by (now eexists). rewrite andb_false_r.
  unfold sql_insert_or_ignore_solved_seed.
  cbn [runs set_runs set_time_logs].
  rewrite lookup_alter_eq, Hrun. cbn [fmap option_fmap option_map run_seed with_finished].
  match goal with |- context [calculateStats now_stats rid ?d] =>
    destruct (calculateStats_found d rid now_stats
                (with_finished "FINISHED" now (or_null details) run))
      as (stats & Hcall & Hdur & _) end.
  { cbn [runs set_runs set_solved_seeds set_time_logs]. now rewrite lookup_alter_eq, Hrun. }
  rewrite Hcall. unfold sql_update_duration, ret.
  eexists _, _. split; [reflexivity|].
  cbn [time_logs solved_seeds runs foreign_keys set_runs set_solved_seeds set_time_logs].
  repeat split; try reflexivity. rewrite Hdur. reflexivity.
Qed.

Lemma finish_keeps_seeds (db : DB) (c : FinishCall) (run : Run) :
  runs db !! fc_run_id c = Some run ->
  forall rid, run_seed <$> runs (finish_call db c) !! rid = run_seed <$> runs db !! rid.
Proof.
  intros Hrun rid. unfold finish_call.
  destruct (finish_found db (fc_now c) (fc_now_stats c) (fc_run_id c) (fc_details c) run Hrun)
    as (stats & db' & Hcall & _ & _ & _ & Hruns & _).
  rewrite Hcall. cbn [snd]. rewrite Hruns.
  destruct (decide (fc_run_id c = rid)) as [<-|Hne].
  - rewrite !lookup_alter_eq. now destruct (runs db !! fc_run_id c).
  - now rewrite !lookup_alter_ne.
Qed.

Lemma seed_present_rows (seed : string) (rows : list SolvedSeed) :
  seed_present seed rows = negb (bool_decide (rows_for_seed seed rows = [])).
Proof.
  induction rows as [|row rest IH]; [reflexivity|]. cbn.
  destruct (String.eqb (ss_seed row) seed); [reflexivity|]. exact IH.
Qed.

Lemma rows_for_seed_insert (seed other : string) (now : Z) (rows : list SolvedSeed) :
  rows_for_seed other (insert_or_ignore seed now rows) =
    if String.eqb seed other then
      match rows_for_seed seed rows with
      | [] => [{| ss_seed := seed; ss_solved_at := now |}]
      | _ :: _ => rows_for_seed seed rows
      end
    else rows_for_seed other rows.
Proof.
  unfold insert_or_ignore. rewrite seed_present_rows.
  destruct (String.eqb_spec seed other) as [<-|Hne].
  - destruct (rows_for_seed seed rows) as [|row rest] eqn:E; cbn [bool_decide negb].
    + rewrite bool_decide_eq_true_2 by reflexivity. cbn [negb].
      unfold rows_for_seed in *. rewrite List.filter_app, E. cbn.
      now rewrite String.eqb_refl.
    + rewrite bool_decide_eq_false_2 by discriminate. exact E.
  - destruct (negb (bool_decide (rows_for_seed seed rows = []))); [reflexivity|].
    unfold rows_for_seed. rewrite List.filter_app. cbn.
    destruct (String.eqb_spec seed other); [contradiction|]. apply app_nil_r.
Qed.

Lemma insert_or_ignore_NoDup (seed : string) (now : Z) (rows : list SolvedSeed) :
  NoDup (map ss_seed rows) -> NoDup (map ss_seed (insert_or_ignore seed now rows)).
Proof.
  intros Hnd. unfold insert_or_ignore.
  destruct (seed_present seed rows) eqn:E; [exact Hnd|].
  rewrite map_app. cbn. apply NoDup_app. split; [exact Hnd|]. split.
  - intros x Hx Hin. apply list_elem_of_In in Hx, Hin. destruct Hin as [<-|[]].
    apply in_map_iff in Hx as (row & Hseed & Hrow).
    assert (seed_present (ss_seed row) rows = true).
    { apply existsb_exists. exists row. split; [exact Hrow | apply String.eqb_refl]. }
    congruence.
  - apply NoDup_singleton.
Qed.

Lemma rows_for_seed_unique (seed : string) (rows : list SolvedSeed) :
  NoDup (map ss_seed rows) ->
  (length (rows_for_seed seed rows) <= 1)%nat.
Proof.
  induction rows as [|row rest IH]; [cbn; lia|]. intros Hnd.
  cbn [map] in Hnd. apply NoDup_cons in Hnd as [Hnotin Hnd].
  unfold rows_for_seed. cbn [List.filter]. fold (rows_for_seed seed rest).
  destruct (String.eqb_spec (ss_seed row) seed) as [Heq|]; [|now apply IH].
  assert (rows_for_seed seed rest = []) as ->; [|cbn; lia].
  destruct (rows_for_seed seed rest) as [|x xs] eqn:E; [reflexivity|]. exfalso.
  assert (Hx : In x (rows_for_seed seed rest)) by (rewrite E; now left).
  apply List.filter_In in Hx as [Hin Hs]. apply String.eqb_eq in Hs.
  apply Hnotin. apply list_elem_of_In. apply in_map_iff. exists x. split; [congruence | exact Hin].
Qed.

Lemma finish_call_solved (db : DB) (c : FinishCall) (seed : string) :
  run_seed <$> runs db !! fc_run_id c = Some seed ->
  solved_seeds (finish_call db c) = insert_or_ignore seed (fc_now c) (solved_seeds db).
Proof.
  intros Hseed. destruct (runs db !! fc_run_id c) as [run|] eqn:Hrun; [|discriminate].
  injection Hseed as <-. unfold finish_call.
  destruct (finish_found db (fc_now c) (fc_now_stats c) (fc_run_id c) (fc_details c) run Hrun)
    as (stats & db' & Hcall & _ & Hsolved & _).
  now rewrite Hcall.
Qed.

Lemma finish_all_solved (seed : string) (calls : list FinishCall) (db : DB) :
  NoDup (map ss_seed (solved_seeds db)) ->
  Forall (fun c => run_seed <$> runs db !! fc_run_id c = Some seed) calls ->
  NoDup (map ss_seed (solved_seeds (finish_all calls db))) /\
  rows_for_seed seed (solved_seeds (finish_all calls db)) =
    match calls, rows_for_seed seed (solved_seeds db) with
    | c :: _, [] => [{| ss_seed := seed; ss_solved_at := fc_now c |}]
    | _, rows => rows
    end.
Proof.
  revert db. induction calls as [|c rest IH]; intros db Hnd Hall.
  - cbn. split; [exact Hnd|]. now destruct (rows_for_seed seed (solved_seeds db)).
  - apply Forall_cons in Hall as [Hc Hrest].
    assert (Hrun : is_Some (runs db !! fc_run_id c)).
    { destruct (runs db !! fc_run_id c); [eauto | discriminate]. }
    destruct Hrun as [run Hrun].
    cbn [finish_all fold_left]. fold (finish_all rest (finish_call db c)).
    destruct (IH (finish_call db c)) as [Hnd' Hrows'].
    + rewrite (finish_call_solved db c seed Hc). now apply insert_or_ignore_NoDup.
    + eapply List.Forall_impl; [|exact Hrest]. cbn. intros c' Hc'.
      now rewrite (finish_keeps_seeds db c run Hrun).
    + split; [exact Hnd'|]. rewrite Hrows', (finish_call_solved db c seed Hc).
      rewrite rows_for_seed_insert, String.eqb_refl.
      destruct (rows_for_seed seed (solved_seeds db)) as [|row others]; now destruct rest.
Qed.

(** C6: after any non-empty sequence of finish calls on runs that share a
    seed, [solved_seeds] holds exactly one row for that seed: the row it
    already had, or else the one written by the first call, with that
    call's timestamp; the later inserts are ignored and the primary key
    stays unique. *)
Theorem seed_solved_once (db : DB) (seed : string) (first : FinishCall)
    (later : list FinishCall) :
  NoDup (map ss_seed (solved_seeds db)) ->
  Forall (fun c => run_seed <$> runs db !! fc_run_id c = Some seed) (first :: later) ->
  rows_for_seed seed (solved_seeds (finish_all (first :: later) db)) =
    [match rows_for_seed seed (solved_seeds db) with
     | row :: _ => row
     | [] => {| ss_seed := seed; ss_solved_at := fc_now first |}
     end] /\
  length (rows_for_seed seed (solved_seeds (finish_all (first :: later) db))) = 1%nat /\
  NoDup (map ss_seed (solved_seeds (finish_all (first :: later) db))).
Proof.
  intros Hnd Hall.
  destruct (finish_all_solved seed (first :: later) db Hnd Hall) as [Hnd' Hrows].
  pose proof (rows_for_seed_unique seed (solved_seeds db) Hnd) as Hle.
  rewrite Hrows. destruct (rows_for_seed seed (solved_seeds db)) as [|row [|row' others]];
    cbn in Hle; try lia; repeat split; try reflexivity; exact Hnd'.
Qed.

Lemma seed_solved_once_witness :
  rows_for_seed "seed-A"
    (solved_seeds
       (finish_all
          [{| fc_now := 7000; fc_now_stats := 7001; fc_run_id := "run-1"; fc_details := None |};
           {| fc_now := 9000; fc_now_stats := 9002; fc_run_id := "run-2"; fc_details := None |};
           {| fc_now := 9500; fc_now_stats := 9501; fc_run_id := "run-1"; fc_details := None |}]
          (sample_db [log_of "run-1" "START" 0; log_of "run-2" "START" 10]))) =
  [{| ss_seed := "seed-A"; ss_solved_at := 7000 |}].
Proof.
  apply (seed_solved_once
           (sample_db [log_of "run-1" "START" 0; log_of "run-2" "START" 10]) "seed-A"
           {| fc_now := 7000; fc_now_stats := 7001; fc_run_id := "run-1"; fc_details := None |}
           [{| fc_now := 9000; fc_now_stats := 9002; fc_run_id := "run-2"; fc_details := None |};
            {| fc_now := 9500; fc_now_stats := 9501; fc_run_id := "run-1"; fc_details := None |}]).
  - cbn. constructor.
  - repeat constructor.
Defined.

(** ** Finishing twice *)

Lemma insert_In (row x : LogRow) (rows : list LogRow) :
  In x (insert_by_timestamp row rows) -> x = row \/ In x rows.
Proof.
  induction rows as [|y ys IH]; cbn; intros Hx.
  - destruct Hx as [<-|[]]. now left.
  - destruct (timestamp row <=? timestamp y); cbn in Hx.
    + destruct Hx as [<-|Hx]; [now left | now right].
    + destruct Hx as [<-|Hx]; [right; now left|].
      destruct (IH Hx); [now left | right; now right].
Qed.

Lemma order_In (x : LogRow) (rows : list LogRow) :
  In x (order_by_timestamp rows) -> In x rows.
Proof.
  induction rows as [|r rest IH]; cbn; [tauto|]. intros Hx.
  destruct (insert_In _ _ _ Hx) as [->|Hx']; [now left | right; now apply IH].
Qed.

Lemma order_Forall (P : LogRow -> Prop) (rows : list LogRow) :
  Forall P rows -> Forall P (order_by_timestamp rows).
Proof.
  rewrite !List.Forall_forall. intros H x Hx. apply H. now apply order_In.
Qed.

Lemma insert_app (row : LogRow) (rows later : list LogRow) :
  Forall (fun y => timestamp row <= timestamp y) later ->
  insert_by_timestamp row (rows ++ later) = insert_by_timestamp row rows ++ later.
Proof.
  intros Hlater. induction rows as [|y ys IH]; cbn.
  - apply insert_before_head. destruct Hlater; [exact I | assumption].
  - destruct (timestamp row <=? timestamp y); [reflexivity | now rewrite IH].
Qed.

Lemma order_app (rows later : list LogRow) :
  Forall (fun x => Forall (fun y => timestamp x <= timestamp y) later) rows ->
  order_by_timestamp (rows ++ later) = order_by_timestamp rows ++ order_by_timestamp later.
Proof.
  induction 1 as [|x rest Hx _ IH]; [reflexivity|].
  cbn [app order_by_timestamp fold_right]. fold (order_by_timestamp (rest ++ later)).
  fold (order_by_timestamp rest). rewrite IH. apply insert_app. now apply order_Forall.
Qed.

Lemma order_snoc (rows : list LogRow) (last : LogRow) :
  Forall (fun x => timestamp x <= timestamp last) rows ->
  order_by_timestamp (rows ++ [last]) = order_by_timestamp rows ++ [last].
Proof.
  intros H. rewrite order_app; [reflexivity|].
  eapply List.Forall_impl; [|exact H]. cbn. intros x Hx. now constructor.
Qed.

Lemma rows_of_run_app (rid : string) (logs1 logs2 : list TimeLog) :
  rows_of_run rid (logs1 ++ logs2) = rows_of_run rid logs1 ++ rows_of_run rid logs2.
Proof. unfold rows_of_run. now rewrite List.filter_app, map_app. Qed.

Lemma rows_of_run_own (rid a : string) (t : Z) :
  rows_of_run rid [log_of rid a t] = [at_time a t].
Proof. unfold rows_of_run. cbn. now rewrite String.eqb_refl. Qed.

Lemma replay_from_stopped (c : Clock) (logs : list LogRow) :
  isRunning c = false -> Forall no_clock_on logs -> replay_from c logs = c.
Proof.
  intros Hc Hall. induction Hall as [|r rest Hr _ IH]; [reflexivity|].
  cbn. rewrite clock_step_edge, Hc. unfold no_clock_on in Hr.
  destruct (edge_of (action r)); [congruence | exact IH | exact IH].
Qed.

(** A log closed by END: the clock is off and the total is what a read
    at the END's timestamp would have shown. *)
Lemma replay_closed (logs : list LogRow) (t : Z) :
  isRunning (replay (logs ++ [at_time "END" t])) = false /\
  totalTimeMs (replay (logs ++ [at_time "END" t])) = elapsed t logs.
Proof.
  rewrite replay_snoc, clock_step_edge. unfold elapsed. cbn.
  destruct (isRunning (replay logs)) eqn:E; cbn; [split; reflexivity|].
  split; [exact E | reflexivity].
Qed.

Lemma elapsed_closed (now t : Z) (logs later : list LogRow) :
  Forall no_clock_on later ->
  elapsed now (logs ++ [at_time "END" t] ++ later) = elapsed t logs.
Proof.
  intros Hlater. destruct (replay_closed logs t) as [Hoff Htot].
  unfold elapsed at 1. unfold replay. rewrite app_assoc, fold_left_app.
  fold (replay (logs ++ [at_time "END" t])).
  fold (replay_from (replay (logs ++ [at_time "END" t])) later).
  rewrite (replay_from_stopped _ _ Hoff Hlater). now rewrite Hoff.
Qed.

Lemma finish_closes_log (db : DB) (now now_stats : Z) (rid : string)
    (details : option string) (run : Run) :
  runs db !! rid = Some run ->
  Forall (fun r => timestamp r <= now) (rows_of_run rid (time_logs db)) ->
  exists stats db',
    finish now now_stats rid details db = (Returned (json (BStats stats) 200), db') /\
    time_logs db' = time_logs db ++ [log_of rid "END" now] /\
    ordered_log db' rid = ordered_log db rid ++ [at_time "END" now] /\
    duration_ms stats = elapsed now (ordered_log db rid) /\
    runs db' !! rid =
      Some (with_duration (elapsed now (ordered_log db rid))
              (with_finished "FINISHED" now (or_null details) run)).
Proof.
  intros Hrun Hold.
  destruct (finish_found db now now_stats rid details run Hrun)
    as (stats & db' & Hcall & Hlogs & _ & Hdur & Hruns & _).
  assert (Hord : ordered_log db' rid = ordered_log db rid ++ [at_time "END" now]).
  { unfold ordered_log. rewrite Hlogs, rows_of_run_app, rows_of_run_own.
    now apply order_snoc. }
  assert (Hd : duration_ms stats = elapsed now (ordered_log db rid)).
  { rewrite Hdur, Hord.
    apply (elapsed_closed now_stats now (ordered_log db rid) []). constructor. }
  exists stats, db'. repeat split; try assumption.
  rewrite Hruns, !lookup_alter_eq, Hrun, Hd. reflexivity.
Qed.

(** C7: finish a run at [now1], let anything but a clock-on edge be logged
    for it afterwards, and finish it again at [now2 >= now1].  Both calls
    succeed; the second appends a second END row, which the replay ignores
    because the clock is already off; and the duration the second call
    computes and stores is the one the first stored, the total up to the
    first END edge.  Timestamps are taken not to run backwards: the rows
    already logged are not later than [now1]. *)
Theorem finish_twice_stable (db : DB) (rid : string) (now1 stats1 now2 stats2 : Z)
    (details1 details2 : option string) (between : list TimeLog) :
  is_Some (runs db !! rid) ->
  Forall (fun r => timestamp r <= now1) (rows_of_run rid (time_logs db)) ->
  Forall (fun r => no_clock_on r /\ now1 <= timestamp r) (rows_of_run rid between) ->
  now1 <= now2 ->
  let first := finish now1 stats1 rid details1 db in
  let db_between := set_time_logs (fun rows => rows ++ between) (snd first) in
  let second := finish now2 stats2 rid details2 db_between in
  (exists s1 s2,
     fst first = Returned (json (BStats s1) 200) /\
     fst second = Returned (json (BStats s2) 200) /\
     duration_ms s1 = elapsed now1 (ordered_log db rid) /\
     duration_ms s2 = duration_ms s1) /\
  run_duration <$> runs (snd first) !! rid = Some (Some (elapsed now1 (ordered_log db rid))) /\
  run_duration <$> runs (snd second) !! rid = Some (Some (elapsed now1 (ordered_log db rid))) /\
  time_logs (snd second) =
    time_logs db ++ [log_of rid "END" now1] ++ between ++ [log_of rid "END" now2] /\
  isRunning (replay (ordered_log db_between rid)) = false /\
  clock_step (replay (ordered_log db_between rid)) (at_time "END" now2) =
    replay (ordered_log db_between rid).
Proof.
  intros [run Hrun] Hold Hbetween Hnow first db_between second.
  destruct (finish_closes_log db now1 stats1 rid details1 run Hrun Hold)
    as (s1 & db1 & Hcall1 & Hlogs1 & Hord1 & Hdur1 & Hruns1).
  assert (Hfirst : first = (Returned (json (BStats s1) 200), db1)) by exact Hcall1.
  assert (Hdbb : db_between = set_time_logs (fun rows => rows ++ between) db1).
  { unfold db_between. now rewrite Hfirst. }
  assert (Hno : Forall no_clock_on (rows_of_run rid between)).
  { eapply List.Forall_impl; [|exact Hbetween]. cbn. tauto. }
  assert (Hsplit : forall tail : list LogRow,
             Forall (fun r => now1 <= timestamp r) tail ->
             order_by_timestamp ((rows_of_run rid (time_logs db) ++ [at_time "END" now1]) ++ tail) =
             ordered_log db rid ++ [at_time "END" now1] ++ order_by_timestamp tail).
  { intros tail Htail. rewrite order_app.
    - rewrite order_snoc by exact Hold. unfold ordered_log. now rewrite <- app_assoc.
    - apply Forall_app. split.
      + eapply List.Forall_impl; [|exact Hold]. cbn. intros x Hx.
        eapply List.Forall_impl; [|exact Htail]. cbn. intros; lia.
      + constructor; [|constructor]. exact Htail. }
  assert (Hordb : ordered_log db_between rid =
                  ordered_log db rid ++ [at_time "END" now1] ++
                    order_by_timestamp (rows_of_run rid between)).
  { rewrite Hdbb. unfold ordered_log at 1. cbn [time_logs set_time_logs].
    rewrite Hlogs1, !rows_of_run_app, rows_of_run_own. apply Hsplit.
    eapply List.Forall_impl; [|exact Hbetween]. cbn. tauto. }
  assert (Hoff : replay (ordered_log db_between rid) =
                 replay (ordered_log db rid ++ [at_time "END" now1])).
  { rewrite Hordb. unfold replay. rewrite app_assoc, fold_left_app.
    apply replay_from_stopped; [apply replay_closed | now apply order_Forall]. }
  assert (Hrunb : runs db_between !! rid =
                  Some (with_duration (elapsed now1 (ordered_log db rid))
                          (with_finished "FINISHED" now1 (or_null details1) run))).
  { rewrite Hdbb. exact Hruns1. }
  destruct (finish_found db_between now2 stats2 rid details2 _ Hrunb)
    as (s2 & db2 & Hcall2 & Hlogs2 & _ & Hdur2 & Hruns2 & _).
  assert (Hsecond : second = (Returned (json (BStats s2) 200), db2)) by exact Hcall2.
  assert (Hd2 : duration_ms s2 = elapsed now1 (ordered_log db rid)).
  { rewrite Hdur2. unfold ordered_log at 1. rewrite Hlogs2, Hdbb.
    cbn [time_logs set_time_logs].
    rewrite Hlogs1, !rows_of_run_app, !rows_of_run_own.
    rewrite <- (app_assoc (rows_of_run rid (time_logs db) ++ [at_time "END" now1])).
    rewrite Hsplit.
    - apply elapsed_closed. apply order_Forall. apply Forall_app. split; [exact Hno|].
      constructor; [|constructor]. unfold no_clock_on. cbn. discriminate.
    - apply Forall_app. split.
      + eapply List.Forall_impl; [|exact Hbetween]. cbn. tauto.
      + constructor; [exact Hnow | constructor]. }
  rewrite Hfirst, Hsecond. cbn [fst snd]. split.
  { exists s1, s2. repeat split; congruence. }
  split; [now rewrite Hruns1|]. split.
  { rewrite Hruns2, !lookup_alter_eq, Hrunb, Hd2. reflexivity. }
  split.
  { rewrite Hlogs2, Hdbb. cbn [time_logs set_time_logs]. rewrite Hlogs1.
    now rewrite <- !app_assoc. }
  assert (Hstop : isRunning (replay (ordered_log db_between rid)) = false).
  { rewrite Hoff. apply replay_closed. }
  split; [exact Hstop|]. now rewrite clock_step_edge, Hstop.
Qed.

Lemma finish_twice_stable_witness :
  run_duration <$>
    runs (snd (finish 6000 6003 "run-1" None
            (set_time_logs (fun rows => rows ++ [log_of "run-1" "PAUSE" 5500])
               (snd (finish 5000 5002 "run-1" None
                  (sample_db [log_of "run-1" "START" 0; log_of "run-1" "PAUSE" 1000;
                              log_of "run-1" "RESUME" 3000])))))) !! "run-1"
  = Some (Some 3000).
Proof.
  apply (finish_twice_stable
           (sample_db [log_of "run-1" "START" 0; log_of "run-1" "PAUSE" 1000;
                       log_of "run-1" "RESUME" 3000])
           "run-1" 5000 5002 6000 6003 None None [log_of "run-1" "PAUSE" 5500]).
  - exists (sample_run "seed-A"). vm_compute. reflexivity.
  - repeat constructor; cbn; lia.
  - repeat constructor; cbn; try lia. discriminate.
  - lia.
Defined.

(** ** The offline poll *)

Lemma wait_offline_trace (api : Remote) (budget : nat) (status : Z) (h : list Event) :
  exists replies,
    snd (wait_offline api budget status h) = h ++ polls replies /\
    (length replies <= budget)%nat /\
    (fst (wait_offline api budget status h) = Returned 0 ->
     status = 0 \/ In (Some 0) replies).
Proof.
  revert status h. induction budget as [|budget IH]; intros status h.
  - exists []. cbn. rewrite app_nil_r. repeat split; [lia|].
    intros [= ->]. now left.
  - cbn [wait_offline]. destruct (Z.eqb_spec status 0) as [->|Hne]; cbn [negb].
    + exists []. cbn. rewrite app_nil_r. repeat split; [lia | now left].
    + assert (Hstep :
        (sleep 3000 ;; status' <- getServerStatus api ;; wait_offline api budget status') h =
        match answer_status api (h ++ [ESleep 3000]) with
        | Some code =>
            wait_offline api budget code ((h ++ [ESleep 3000]) ++ [EStatus (Some code)])
        | None => (Thrown api_error, (h ++ [ESleep 3000]) ++ [EStatus None])
        end).
      { unfold bind, sleep, getServerStatus.
        now destruct (answer_status api (h ++ [ESleep 3000])). }
      rewrite Hstep. clear Hstep.
      destruct (answer_status api (h ++ [ESleep 3000])) as [code|] eqn:Hreply.
      * replace ((h ++ [ESleep 3000]) ++ [EStatus (Some code)])
          with (h ++ [ESleep 3000; EStatus (Some code)]) by (now rewrite <- app_assoc).
        destruct (IH code (h ++ [ESleep 3000; EStatus (Some code)]))
          as (replies & Htr & Hlen & Hzero).
        exists (Some code :: replies). rewrite Htr. cbn [polls flat_map length].
        rewrite <- app_assoc. cbn [app]. repeat split; [lia|].
        intros Hout. right. destruct (Hzero Hout) as [->|Hin]; [now left | now right].
      * exists [None]. cbn. rewrite <- app_assoc. repeat split; [lia | discriminate].
Qed.

Lemma polls_quiet (replies : list (option Z)) :
  existsb is_delete (polls replies) = false /\
  existsb is_start (polls replies) = false /\
  existsb seed_file_failed (polls replies) = false /\
  count_polls (polls replies) = length replies.
Proof.
  unfold count_polls.
  induction replies as [|r rest (H1 & H2 & H3 & H4)]; cbn; [repeat split|].
  repeat split; try assumption. now rewrite <- H4.
Qed.

Lemma polls_saw_offline (replies : list (option Z)) :
  In (Some 0) replies -> existsb saw_offline (polls replies) = true.
Proof.
  induction replies as [|r rest IH]; [intros []|].
  intros [->|Hin]; [reflexivity|].
  change (polls (r :: rest)) with (ESleep 3000 :: EStatus r :: polls rest).
  cbn [existsb]. rewrite (IH Hin). now rewrite !orb_true_r.
Qed.

Lemma after_wait_spaced (tail : list Event) :
  Forall after_wait tail ->
  existsb is_status tail = false /\ polls_spaced tail = true /\ count_polls tail = 0%nat.
Proof.
  unfold count_polls.
  induction 1 as [|e rest [He1 He2] _ (IH1 & IH2 & IH3)]; [repeat split|].
  destruct e; try discriminate; cbn; repeat split; assumption.
Qed.

Lemma polls_then_tail_spaced (replies : list (option Z)) (r0 : option Z) (tail : list Event) :
  Forall after_wait tail ->
  polls_spaced (EStatus r0 :: polls replies ++ tail) = true.
Proof.
  intros Htail. destruct (after_wait_spaced tail Htail) as (Hno & Hsp & _).
  revert r0. induction replies as [|r rest IH]; intros r0.
  - cbn [polls flat_map app polls_spaced]. now rewrite Hno, Hsp.
  - change (polls (r :: rest) ++ tail) with (ESleep 3000 :: EStatus r :: polls rest ++ tail).
    cbn [polls_spaced]. change (3000 =? 3000) with true.
    rewrite orb_true_r. cbn [andb]. exact (IH r).
Qed.

Lemma wait_prefix_quiet (pre : list Event) :
  wait_prefix pre ->
  existsb is_delete pre = false /\
  existsb is_start pre = false /\
  existsb seed_file_failed pre = false.
Proof.
  intros [ok | r0 replies Hlen]; [repeat split|].
  destruct (polls_quiet replies) as (H1 & H2 & H3 & _). cbn. repeat split; assumption.
Qed.

Lemma wait_prefix_polls (pre tail : list Event) :
  wait_prefix pre -> Forall after_wait tail ->
  (count_polls (pre ++ tail) <= 101)%nat /\ polls_spaced (pre ++ tail) = true.
Proof.
  intros [ok | r0 replies Hlen] Htail.
  - destruct (after_wait_spaced tail Htail) as (_ & Hsp & Hcount).
    cbn. unfold count_polls in *. cbn. rewrite Hcount. split; [lia | exact Hsp].
  - split.
    + destruct (after_wait_spaced tail Htail) as (_ & _ & Hcount).
      destruct (polls_quiet replies) as (_ & _ & _ & Hpolls).
      unfold count_polls in *. cbn [app List.filter is_status length].
      rewrite List.filter_app, length_app, Hcount, Hpolls. lia.
    + change (polls_spaced (EStatus r0 :: polls replies ++ tail) = true).
      now apply polls_then_tail_spaced.
Qed.

(** Both orchestrations begin alike; [K] is what follows the wait. *)
Lemma orchestration_prefix (api : Remote) (K : Z -> Task unit) :
  exists pre,
    wait_prefix pre /\
    ((stopServer api ;;
      status <- getServerStatus api ;;
      status <- wait_offline api 100 status ;;
      K status) [] = (Thrown api_error, pre)
     \/
     exists status,
       (stopServer api ;;
        status <- getServerStatus api ;;
        status <- wait_offline api 100 status ;;
        K status) [] = K status pre /\
       (status = 0 -> existsb saw_offline pre = true)).
Proof.
  set (prog := stopServer api ;;
               status <- getServerStatus api ;;
               status <- wait_offline api 100 status ;;
               K status).
  assert (Hprog : prog [] =
    if answer_stop api [] then
      match answer_status api [EStop true] with
      | Some s0 =>
          match wait_offline api 100 s0 [EStop true; EStatus (Some s0)] with
          | (Returned status, h') => K status h'
          | (Thrown msg, h') => (Thrown msg, h')
          end
      | None => (Thrown api_error, [EStop true; EStatus None])
      end
    else (Thrown api_error, [EStop false])).
  { unfold prog, bind, stopServer, command, getServerStatus.
    destruct (answer_stop api []); cbn [app]; [|reflexivity].
    now destruct (answer_status api [EStop true]). }
  rewrite Hprog. clear Hprog prog.
  destruct (answer_stop api []);
    [|exists [EStop false]; split; [constructor | now left]].
  destruct (answer_status api [EStop true]) as [s0|];
    [|exists [EStop true; EStatus None]; split;
      [apply (prefix_polls None []); cbn; lia | now left]].
  destruct (wait_offline_trace api 100 s0 [EStop true; EStatus (Some s0)])
    as (replies & Htr & Hlen & Hzero).
  destruct (wait_offline api 100 s0 [EStop true; EStatus (Some s0)]) as [[status|msg] h'] eqn:Hwait;
    cbn [fst snd] in Htr, Hzero; subst h'; cbn [app].
  - exists (EStop true :: EStatus (Some s0) :: polls replies).
    split; [now constructor|]. right. exists status. split; [reflexivity|].
    intros ->. destruct (Hzero eq_refl) as [->|Hin]; [reflexivity|].
    cbn [existsb]. rewrite (polls_saw_offline _ Hin). now rewrite !orb_true_r.
  - exists (EStop true :: EStatus (Some s0) :: polls replies).
    split; [now constructor|]. left.
    assert (msg = api_error) as ->; [|reflexivity].
    clear -Hwait. revert Hwait. generalize ([EStop true; EStatus (Some s0)] ++ polls replies).
    generalize [EStop true; EStatus (Some s0)].
    generalize 100%nat. intros budget. revert s0.
    induction budget as [|budget IH]; intros s0 h h'; cbn [wait_offline].
    + discriminate.
    + destruct (negb (s0 =? 0)); [|discriminate].
      unfold bind at 1. unfold sleep. unfold bind at 1. unfold getServerStatus.
      destruct (answer_status api (h ++ [ESleep 3000])) as [code|].
      * apply IH.
      * now intros [= <- _].
Qed.

(** ** The two orchestrations *)

Lemma wait_prefix_events (pre : list Event) :
  wait_prefix pre -> forallb is_wait_event pre = true.
Proof.
  intros [ok | r0 replies _]; [reflexivity|]. cbn.
  induction replies as [|r rest IH]; [reflexivity | exact IH].
Qed.

Lemma existsb_saw_offline_app (pre tail : list Event) :
  existsb saw_offline (pre ++ tail) = false -> existsb saw_offline pre = false.
Proof. rewrite existsb_app. now intros [H _]%orb_false_iff. Qed.

(** Case analysis on every answer of the remote that the goal mentions. *)
Ltac split_answers api :=
  repeat (match goal with
          | |- context [answer_get_file api ?h ?p] => destruct (answer_get_file api h p)
          | |- context [answer_upload api ?h ?p ?c] => destruct (answer_upload api h p c)
          | |- context [answer_delete api ?h ?p] => destruct (answer_delete api h p)
          | |- context [answer_start api ?h] => destruct (answer_start api h)
          end; cbn -[rewrite_seed]).

Lemma reset_task_shape (api : Remote) :
  exists pre tail,
    trace_of (reset_task api) = pre ++ tail /\
    wait_prefix pre /\
    Forall after_wait tail /\
    (tail = [] \/ existsb saw_offline pre = true).
Proof.
  unfold trace_of, reset_task, try_catch.
  match goal with
  | |- context [bind (stopServer api) (fun _ => bind (getServerStatus api)
                  (fun first => bind (wait_offline api 100 first) ?K))] =>
      destruct (orchestration_prefix api K) as (pre & Hpre & [Heq | (final & Heq & Hoff)])
  end; rewrite Heq.
  - exists pre, []. rewrite app_nil_r. repeat split; [assumption | constructor | now left].
  - destruct (Z.eqb_spec final 0) as [Hzero|Hne]; cbn [negb].
    + exists pre. unfold bind, try_catch, delete_world, bind, deleteFile, startServer, command, ret.
      split_answers api; cbn [snd]; rewrite <- ?app_assoc; cbn [app];
        (eexists; split; [reflexivity|]; split; [exact Hpre|];
         split; [repeat constructor | right; exact (Hoff Hzero)]).
    + exists pre, []. rewrite app_nil_r.
      repeat split; [assumption | constructor | now left].
Qed.

Lemma reseed_tail_after_wait (tail : list Event) :
  reseed_tail tail -> Forall after_wait tail.
Proof.
  intros [ | p | p c p' c' | p c p' c' rest Hrest]; repeat constructor.
  eapply List.Forall_impl; [|exact Hrest]. cbn.
  intros [] [H|H]; try discriminate; split; reflexivity.
Qed.

Lemma restart_task_shape (api : Remote) (seed : option string) :
  truthy seed = true ->
  exists pre tail,
    trace_of (restart_task api seed) = pre ++ tail /\
    wait_prefix pre /\
    reseed_tail tail /\
    (tail = [] \/ existsb saw_offline pre = true).
Proof.
  intros Hseed. unfold trace_of, restart_task, try_catch. rewrite Hseed.
  match goal with
  | |- context [bind (stopServer api) (fun _ => bind (getServerStatus api)
                  (fun first => bind (wait_offline api 100 first) ?K))] =>
      destruct (orchestration_prefix api K) as (pre & Hpre & [Heq | (final & Heq & Hoff)])
  end; rewrite Heq.
  - exists pre, []. rewrite app_nil_r. repeat split; [assumption | constructor | now left].
  - destruct (Z.eqb_spec final 0) as [Hzero|Hne]; cbn [negb].
    + exists pre.
      unfold bind, update_server_properties, try_catch, bind, getFileContent, uploadFile,
        delete_world, bind, deleteFile, startServer, command, ret.
      split_answers api; cbn [snd negb]; rewrite <- ?app_assoc; cbn [app];
        (eexists; split; [reflexivity|]; split; [exact Hpre|];
         split; [constructor; repeat constructor; cbn; tauto | right; exact (Hoff Hzero)]).
    + exists pre, []. rewrite app_nil_r.
      repeat split; [assumption | constructor | now left].
Qed.

Lemma never_offline_only_waits (pre tail : list Event) :
  wait_prefix pre ->
  tail = [] \/ existsb saw_offline pre = true ->
  existsb saw_offline (pre ++ tail) = false ->
  forallb is_wait_event (pre ++ tail) = true /\
  existsb is_delete (pre ++ tail) = false /\
  existsb is_start (pre ++ tail) = false /\
  existsb is_upload (pre ++ tail) = false.
Proof.
  intros Hpre Htail Hnever.
  destruct Htail as [-> | Hsaw];
    [|rewrite (existsb_saw_offline_app _ _ Hnever) in Hsaw; discriminate].
  rewrite app_nil_r. pose proof (wait_prefix_events pre Hpre) as Hev.
  split; [exact Hev|].
  rewrite forallb_forall in Hev.
  repeat split; apply not_true_is_false; intros Hex;
    apply existsb_exists in Hex as (e & Hin & He);
    specialize (Hev e Hin); destruct e; discriminate.
Qed.

(** C8: the background task of [/api/run/reset] and the reseed branch of
    [/api/server/restart] poll the status at most 101 times (the first
    read and 100 attempts), every poll but the last being followed at once
    by a 3000 ms sleep and the next poll.  If none of the polls answered
    OFFLINE (code 0), the task issues nothing but the stop, the polls and
    the sleeps: no deletion, no start and no file upload.  (The first
    revision of the reset handler ran in the request and polled every
    2000 ms until OFFLINE, without a bound.) *)
Theorem offline_wait_bounded (api : Remote) (seed : option string) :
  truthy seed = true ->
  ((count_polls (trace_of (reset_task api)) <= 101)%nat /\
   polls_spaced (trace_of (reset_task api)) = true /\
   (existsb saw_offline (trace_of (reset_task api)) = false ->
    forallb is_wait_event (trace_of (reset_task api)) = true /\
    existsb is_delete (trace_of (reset_task api)) = false /\
    existsb is_start (trace_of (reset_task api)) = false /\
    existsb is_upload (trace_of (reset_task api)) = false)) /\
  ((count_polls (trace_of (restart_task api seed)) <= 101)%nat /\
   polls_spaced (trace_of (restart_task api seed)) = true /\
   (existsb saw_offline (trace_of (restart_task api seed)) = false ->
    forallb is_wait_event (trace_of (restart_task api seed)) = true /\
    existsb is_delete (trace_of (restart_task api seed)) = false /\
    existsb is_start (trace_of (restart_task api seed)) = false /\
    existsb is_upload (trace_of (restart_task api seed)) = false)).
Proof.
  intros Hseed. split.
  - destruct (reset_task_shape api) as (pre & tail & -> & Hpre & Htail & Hsaw).
    destruct (wait_prefix_polls pre tail Hpre Htail) as [Hcount Hspaced].
    split; [exact Hcount|]. split; [exact Hspaced|].
    now apply never_offline_only_waits.
  - destruct (restart_task_shape api seed Hseed) as (pre & tail & -> & Hpre & Htail & Hsaw).
    destruct (wait_prefix_polls pre tail Hpre (reseed_tail_after_wait _ Htail))
      as [Hcount Hspaced].
    split; [exact Hcount|]. split; [exact Hspaced|].
    now apply never_offline_only_waits.
Qed.

Lemma offline_wait_bounded_witness :
  count_polls (trace_of (reset_task never_offline)) = 101%nat /\
  existsb is_delete (trace_of (reset_task never_offline)) = false /\
  existsb is_start (trace_of (reset_task never_offline)) = false /\
  existsb is_start (trace_of (restart_task never_offline (Some "42"))) = false.
Proof.
  destruct (offline_wait_bounded never_offline (Some "42") eq_refl)
    as [(_ & _ & Hreset) (_ & _ & Hrestart)].
  split; [vm_compute; reflexivity|].
  destruct Hreset as (_ & Hdel & Hstart & _); [vm_compute; reflexivity|].
  destruct Hrestart as (_ & _ & Hstart' & _); [vm_compute; reflexivity|].
  repeat split; assumption.
Defined.

(** C9: in the reseed, a failed fetch or a failed write-back of
    [server.properties] is the last thing the task does: the trace holds
    no deletion and no start request.  The rewrite of the text between
    the two requests is a total function.  (In the revision before the
    current one the [catch] block only logged the error.) *)
Theorem seed_file_failure_aborts (api : Remote) (seed : option string) :
  truthy seed = true ->
  existsb seed_file_failed (trace_of (restart_task api seed)) = true ->
  existsb is_delete (trace_of (restart_task api seed)) = false /\
  existsb is_start (trace_of (restart_task api seed)) = false /\
  exists before failed,
    trace_of (restart_task api seed) = before ++ [failed] /\
    seed_file_failed failed = true.
Proof.
  intros Hseed Hfailed.
  destruct (restart_task_shape api seed Hseed) as (pre & tail & Htr & Hpre & Htail & _).
  rewrite Htr in *. destruct (wait_prefix_quiet pre Hpre) as (Hdel & Hstart & Hquiet).
  rewrite existsb_app, Hquiet in Hfailed. cbn [orb] in Hfailed.
  rewrite !existsb_app, Hdel, Hstart. cbn [orb].
  destruct Htail as [ | p | p c p' c' | p c p' c' rest Hrest].
  - discriminate.
  - repeat split. exists pre, (EGetFile p None). now split.
  - repeat split. exists (pre ++ [EGetFile p (Some c)]), (EUpload p' c' false).
    rewrite <- app_assoc. now split.
  - exfalso. cbn in Hfailed. apply existsb_exists in Hfailed as (e & Hin & He).
    rewrite List.Forall_forall in Hrest. destruct (Hrest e Hin); destruct e; discriminate.
Qed.

Lemma seed_file_failure_aborts_witness :
  existsb is_delete (trace_of (restart_task upload_refused (Some "42"))) = false /\
  existsb is_start (trace_of (restart_task upload_refused (Some "42"))) = false /\
  exists before failed,
    trace_of (restart_task upload_refused (Some "42")) = before ++ [failed] /\
    seed_file_failed failed = true.
Proof.
  apply (seed_file_failure_aborts upload_refused (Some "42")).
  - reflexivity.
  - vm_compute. reflexivity.
Defined.

(** * Further properties *)

(** ** Formatting and ordering *)

(** X1: for a non-negative total the string is [h"h "m"m "s" s"] where
    the three numbers are non-negative, minutes and seconds are below 60,
    and together they are the total rounded down to a whole second. *)
Theorem formatDuration_parts (ms : Z) :
  0 <= ms ->
  exists h m s,
    formatDuration ms = pretty h +:+ "h " +:+ pretty m +:+ "m " +:+ pretty s +:+ " s" /\
    0 <= h /\ 0 <= m < 60 /\ 0 <= s < 60 /\
    h * 3600000 + m * 60000 + s * 1000 <= ms < h * 3600000 + m * 60000 + s * 1000 + 1000.
Proof.
  intros Hms. exists (ms / 3600000), ((ms / 60000) mod 60), ((ms / 1000) mod 60).
  split.
  - unfold formatDuration. now rewrite !js_rem_floor, Qfloor_quotient by lia.
  - Z.div_mod_to_equations. lia.
Qed.

Lemma formatDuration_parts_witness :
  exists h m s,
    formatDuration 3725999 = pretty h +:+ "h " +:+ pretty m +:+ "m " +:+ pretty s +:+ " s" /\
    0 <= h /\ 0 <= m < 60 /\ 0 <= s < 60 /\
    h * 3600000 + m * 60000 + s * 1000 <= 3725999
      < h * 3600000 + m * 60000 + s * 1000 + 1000.
Proof. apply (formatDuration_parts 3725999). lia. Defined.

Lemma insert_by_timestamp_perm (row : LogRow) (rows : list LogRow) :
  Permutation (insert_by_timestamp row rows) (row :: rows).
Proof.
  induction rows as [|r rest IH]; cbn; [reflexivity|].
  destruct (timestamp row <=? timestamp r); [reflexivity|].
  rewrite IH. apply perm_swap.
Qed.

Lemma order_sorted_fixed (rows : list LogRow) :
  StronglySorted by_timestamp rows -> order_by_timestamp rows = rows.
Proof.
  induction 1 as [|r rest Hs IH Hall]; [reflexivity|].
  cbn [order_by_timestamp fold_right]. fold (order_by_timestamp rest). rewrite IH.
  apply insert_before_head. destruct Hall; [exact I | assumption].
Qed.

(** X2: [ORDER BY timestamp] returns the same rows, each as often as
    before, in non-decreasing order of timestamp; ordering an ordered log
    again changes nothing. *)
Theorem order_by_timestamp_sorts (rows : list LogRow) :
  Permutation (order_by_timestamp rows) rows /\
  StronglySorted by_timestamp (order_by_timestamp rows) /\
  order_by_timestamp (order_by_timestamp rows) = order_by_timestamp rows.
Proof.
  split; [|split].
  - induction rows as [|r rest IH]; [reflexivity|].
    cbn [order_by_timestamp fold_right]. fold (order_by_timestamp rest).
    now rewrite insert_by_timestamp_perm, IH.
  - apply order_sorted.
  - apply order_sorted_fixed, order_sorted.
Qed.

(** ** Bounds on the elapsed time *)

Lemma clock_step_within (lo hi : Z) (c : Clock) (row : LogRow) :
  clock_within lo hi c -> hi <= timestamp row ->
  clock_within lo (timestamp row) (clock_step c row).
Proof.
  unfold clock_within. intros (Hlo & Hpos & Hc) Hrow. rewrite clock_step_edge.
  destruct (edge_of (action row)), (isRunning c) eqn:Hrun; cbn; rewrite ?Hrun; lia.
Qed.

Lemma replay_from_within (logs : list LogRow) (lo hi : Z) (c : Clock) :
  clock_within lo hi c ->
  StronglySorted by_timestamp logs ->
  Forall (fun r => hi <= timestamp r) logs ->
  exists hi', clock_within lo hi' (replay_from c logs) /\
              (hi' = hi \/ exists r, In r logs /\ hi' = timestamp r).
Proof.
  revert hi c. induction logs as [|row rest IH]; intros hi c Hc Hsorted Hhi.
  - exists hi. split; [exact Hc | now left].
  - apply StronglySorted_inv in Hsorted as [Hrest Hall].
    apply Forall_cons in Hhi as [Hrow _].
    destruct (IH (timestamp row) (clock_step c row)) as (hi' & Hin & Hhi').
    + now apply (clock_step_within lo hi).
    + exact Hrest.
    + exact Hall.
    + exists hi'. split; [exact Hin|]. right.
      destruct Hhi' as [->|(r & Hr & ->)]; [exists row | exists r]; cbn; tauto.
Qed.

(** X3: read at a time not before its last row, an ordered log never
    shows a negative total nor more than the time gone by since its first
    row; and a later read never shows less than an earlier one. *)
Theorem elapsed_bounds (now : Z) (first : LogRow) (rest : list LogRow) :
  StronglySorted by_timestamp (first :: rest) ->
  Forall (fun r => timestamp r <= now) (first :: rest) ->
  0 <= elapsed now (first :: rest) <= now - timestamp first /\
  (forall later, now <= later ->
     elapsed now (first :: rest) <= elapsed later (first :: rest)).
Proof.
  intros Hsorted Hnow. split.
  - destruct (replay_from_within (first :: rest) (timestamp first) (timestamp first) clock_init)
      as (hi & (Hlo & Hpos & Hc) & Hhi).
    + unfold clock_within. cbn. lia.
    + exact Hsorted.
    + apply StronglySorted_inv in Hsorted as [_ Hall]. constructor; [lia | exact Hall].
    + assert (Hle : hi <= now).
      { destruct Hhi as [->|(r & Hr & ->)].
        - now apply Forall_cons in Hnow as [H _].
        - rewrite List.Forall_forall in Hnow. now apply Hnow. }
      unfold elapsed. fold (replay_from clock_init (first :: rest)).
      change (replay (first :: rest)) with (replay_from clock_init (first :: rest)).
      destruct (isRunning (replay_from clock_init (first :: rest))); lia.
  - intros later Hlater. unfold elapsed.
    destruct (isRunning (replay (first :: rest))); lia.
Qed.

Lemma elapsed_bounds_witness :
  0 <= elapsed 9000 [at_time "START" 1000; at_time "PAUSE" 4000; at_time "RESUME" 6000]
    <= 9000 - 1000.
Proof.
  apply (elapsed_bounds 9000 (at_time "START" 1000)
           [at_time "PAUSE" 4000; at_time "RESUME" 6000]).
  - repeat constructor; unfold by_timestamp; cbn; lia.
  - repeat constructor; cbn; lia.
Defined.

(** ** Stats lookups *)

(** X4: a stats lookup never changes the database; it is answered 200
    when the run exists and 500 ("Failed to fetch stats") when it does
    not. *)
Theorem get_stats_read_only (db : DB) (run_id : string) (now : Z) :
  snd (calculateStats now run_id db) = db /\
  exists resp,
    get_stats now run_id db = (Returned resp, db) /\
    http_status resp = (if bool_decide (is_Some (runs db !! run_id)) then 200 else 500) /\
    (runs db !! run_id = None -> body resp = BError "Failed to fetch stats").
Proof.
  unfold get_stats, try_catch, bind.
  destruct (runs db !! run_id) as [run|] eqn:Hrun.
  - destruct (calculateStats_found db run_id now run Hrun) as (stats & -> & _).
    split; [reflexivity|]. eexists. split; [reflexivity|].
    rewrite bool_decide_eq_true_2 by eauto. split; [reflexivity | discriminate].
  - rewrite (calculateStats_missing db run_id now Hrun).
    split; [reflexivity|]. eexists. split; [reflexivity|].
    rewrite bool_decide_eq_false_2 by (intros [? ?]; discriminate). now split.
Qed.

(** ** Finish *)

Lemma finish_found_db (db : DB) (now now_stats : Z) (rid : string)
    (details : option string) (run : Run) :
  runs db !! rid = Some run ->
  exists stats,
    finish now now_stats rid details db =
      (Returned (json (BStats stats) 200),
       set_runs (alter (with_duration (duration_ms stats)) rid)
         (set_solved_seeds (insert_or_ignore (run_seed run) now)
            (set_time_logs (fun rows => rows ++ [log_of rid "END" now])
               (set_runs (alter (with_finished "FINISHED" now (or_null details)) rid) db)))) /\
    solved_at stats = Some now /\
    st_seed stats = run_seed run.
Proof.
  intros Hrun.
  unfold finish, try_catch, bind, sql_update_finished, sql_insert_time_log, sql_select_seed.
  cbn [runs set_runs foreign_keys set_time_logs].
  rewrite lookup_alter_eq, Hrun. cbn [fmap option_fmap option_map].
  rewrite bool_decide_eq_true_2 by (now eexists). rewrite andb_false_r.
  unfold sql_insert_or_ignore_solved_seed.
  cbn [runs set_runs set_time_logs].
  rewrite lookup_alter_eq, Hrun. cbn [fmap option_fmap option_map run_seed with_finished].
  match goal with |- context [calculateStats now_stats rid ?d] =>
    destruct (calculateStats_found d rid now_stats
                (with_finished "FINISHED" now (or_null details) run))
      as (stats & Hcall & _ & _ & Hseed & Hsolved) end.
  { cbn [runs set_runs set_solved_seeds set_time_logs]. now rewrite lookup_alter_eq, Hrun. }
  rewrite Hcall. unfold sql_update_duration, ret.
  exists stats. split; [reflexivity|]. split; assumption.
Qed.

(** X5: finishing a run that does not exist is answered 500 and never
    touches [runs] or [solved_seeds].  With foreign keys on nothing is
    written at all; with foreign keys off the END row written before the
    failure stays, as the handler has no rollback. *)
Theorem finish_unknown_run (db : DB) (now now_stats : Z) (run_id : string)
    (details : option string) :
  runs db !! run_id = None ->
  exists db',
    finish now now_stats run_id details db =
      (Returned (json (BError "Failed to finish run") 500), db') /\
    runs db' = runs db /\
    solved_seeds db' = solved_seeds db /\
    time_logs db' =
      (if foreign_keys db then time_logs db
       else time_logs db ++ [log_of run_id "END" now]) /\
    (foreign_keys db = true -> db' = db).
Proof.
  intros Hrun.
  assert (Halter : forall f : Run -> Run, alter f run_id (runs db) = runs db).
  { intros f. apply alter_id. intros r Hr. congruence. }
  unfold finish, try_catch, bind, sql_update_finished, sql_insert_time_log, sql_select_seed.
  cbn [runs set_runs foreign_keys set_time_logs]. rewrite Halter, Hrun.
  rewrite bool_decide_eq_false_2 by (intros [? ?]; discriminate). cbn [negb].
  rewrite andb_true_r. destruct (foreign_keys db) eqn:Hfk.
  - unfold ret. eexists. split; [reflexivity|]. cbn [runs solved_seeds time_logs set_runs].
    rewrite Halter. repeat split. intros _. apply set_runs_same, Halter.
  - cbn [runs set_runs set_time_logs]. rewrite Halter, Hrun.
    cbn [fmap option_fmap option_map]. unfold ret at 1. cbv beta iota.
    rewrite calculateStats_missing by (cbn [runs set_runs set_time_logs]; now rewrite Halter).
    unfold ret. eexists. split; [reflexivity|].
    cbn [runs solved_seeds time_logs set_runs set_time_logs]. rewrite Halter.
    repeat split. discriminate.
Qed.

Lemma finish_unknown_run_witness :
  exists db',
    finish 5000 5001 "ghost" None (sample_db [log_of "run-1" "START" 0]) =
      (Returned (json (BError "Failed to finish run") 500), db') /\
    db' = sample_db [log_of "run-1" "START" 0].
Proof.
  destruct (finish_unknown_run (sample_db [log_of "run-1" "START" 0]) 5000 5001 "ghost" None)
    as (db' & Hcall & _ & _ & _ & Hsame).
  - vm_compute. reflexivity.
  - exists db'. split; [exact Hcall | now apply Hsame].
Defined.

(** X6: a successful finish sets the run's status to FINISHED, its end
    time to [now], its completion details to the given ones (NULL when
    they are missing or empty) and its duration to the one reported, which
    is the elapsed time of the run's log with the new END row
    [(run_id, END, now)]; the other columns of the run keep their values;
    the stats it returns carry [now] as [solved_at]; every other run, the
    players and the cheat log stay as they were. *)
Theorem finish_marks_run (db : DB) (now now_stats : Z) (rid : string)
    (details : option string) (run : Run) :
  runs db !! rid = Some run ->
  exists stats db',
    finish now now_stats rid details db = (Returned (json (BStats stats) 200), db') /\
    runs db' !! rid =
      Some {| run_type := run_type run; run_seed := run_seed run; run_goal := run_goal run;
              run_target_mob := run_target_mob run; run_hardcore := run_hardcore run;
              run_set_seed := run_set_seed run; run_status := "FINISHED";
              run_created_at := run_created_at run; run_ended_at := Some now;
              run_duration := Some (duration_ms stats);
              run_completion_details :=
                match details with
                | Some text => if String.eqb text "" then None else Some text
                | None => None
                end |} /\
    time_logs db' =
      time_logs db ++ [{| tl_run_id := rid; tl_action := "END"; tl_timestamp := now |}] /\
    duration_ms stats = elapsed now_stats (ordered_log db' rid) /\
    solved_at stats = Some now /\
    (forall other, other <> rid -> runs db' !! other = runs db !! other) /\
    players db' = players db /\
    cheat_logs db' = cheat_logs db /\
    foreign_keys db' = foreign_keys db.
Proof.
  intros Hrun. destruct (finish_found_db db now now_stats rid details run Hrun)
    as (stats & Hcall & Hsolved & _).
  destruct (finish_found db now now_stats rid details run Hrun)
    as (stats' & db' & Hcall' & Hlogs & _ & Hdur & _).
  rewrite Hcall in Hcall'. injection Hcall' as <- Hdb. subst db'.
  eexists stats, _. split; [exact Hcall|].
  split.
  { cbn [runs set_runs set_solved_seeds set_time_logs].
    rewrite !lookup_alter_eq, Hrun. cbn [fmap option_fmap option_map]. f_equal.
    unfold with_duration, with_finished, or_null, truthy. cbn.
    destruct details as [text|]; [|reflexivity]. now destruct (String.eqb text ""). }
  split; [exact Hlogs|]. split; [exact Hdur|]. split; [exact Hsolved|].
  cbn [runs players cheat_logs foreign_keys set_runs set_solved_seeds set_time_logs].
  split; [|repeat split]. intros other Hne. now rewrite !lookup_alter_ne.
Qed.

Lemma finish_marks_run_witness :
  exists stats db',
    finish 5000 5001 "run-1" (Some "dragon down")
      (sample_db [{| tl_run_id := "run-1"; tl_action := "START"; tl_timestamp := 0 |}]) =
      (Returned (json (BStats stats) 200), db') /\
    run_status <$> runs db' !! "run-1" = Some "FINISHED" /\
    run_ended_at <$> runs db' !! "run-1" = Some (Some 5000) /\
    run_completion_details <$> runs db' !! "run-1" = Some (Some "dragon down") /\
    run_duration <$> runs db' !! "run-1" = Some (Some 5000) /\
    solved_at stats = Some 5000.
Proof.
  destruct (finish_marks_run
              (sample_db [{| tl_run_id := "run-1"; tl_action := "START"; tl_timestamp := 0 |}])
              5000 5001 "run-1" (Some "dragon down") (sample_run "seed-A"))
    as (stats & db' & Hcall & Hrun & Hlogs & Hdur & Hsolved & _).
  - vm_compute. reflexivity.
  - assert (Hd : duration_ms stats = 5000).
    { rewrite Hdur. unfold ordered_log. rewrite Hlogs. vm_compute. reflexivity. }
    exists stats, db'. split; [exact Hcall|]. rewrite Hrun, Hd.
    repeat split. exact Hsolved.
Defined.

(** X7: once a run is finished its stats no longer move: whatever the
    time of a later lookup, the duration it shows is the one stored at
    the finish, the total up to the END row.  (The rows logged before are
    not later than the finish.) *)
Theorem finished_stats_frozen (db : DB) (now now_stats later : Z) (rid : string)
    (details : option string) :
  is_Some (runs db !! rid) ->
  Forall (fun r => timestamp r <= now) (rows_of_run rid (time_logs db)) ->
  exists stats,
    calculateStats later rid (snd (finish now now_stats rid details db)) =
      (Returned stats, snd (finish now now_stats rid details db)) /\
    duration_ms stats = elapsed now (ordered_log db rid) /\
    run_duration <$> runs (snd (finish now now_stats rid details db)) !! rid =
      Some (Some (duration_ms stats)).
Proof.
  intros [run Hrun] Hold.
  destruct (finish_closes_log db now now_stats rid details run Hrun Hold)
    as (s1 & db' & Hcall & _ & Hord & _ & Hruns).
  rewrite Hcall. cbn [snd].
  destruct (calculateStats_found db' rid later _ Hruns) as (stats & Hstats & Hdur & _).
  exists stats. split; [exact Hstats|].
  assert (Hd : duration_ms stats = elapsed now (ordered_log db rid)).
  { rewrite Hdur, Hord.
    apply (elapsed_closed later now (ordered_log db rid) []). constructor. }
  split; [exact Hd|]. now rewrite Hruns, Hd.
Qed.

Lemma finished_stats_frozen_witness :
  exists stats,
    calculateStats 999999 "run-1"
      (snd (finish 5000 5001 "run-1" None (sample_db [log_of "run-1" "START" 2000]))) =
      (Returned stats,
       snd (finish 5000 5001 "run-1" None (sample_db [log_of "run-1" "START" 2000]))) /\
    duration_ms stats = 3000.
Proof.
  destruct (finished_stats_frozen (sample_db [log_of "run-1" "START" 2000])
              5000 5001 999999 "run-1" None) as (stats & Hcall & Hdur & _).
  - exists (sample_run "seed-A"). vm_compute. reflexivity.
  - repeat constructor. cbn. lia.
  - exists stats. split; [exact Hcall | exact Hdur].
Defined.

(** ** Seed check *)

Lemma seed_present_insert (seed other : string) (now : Z) (rows : list SolvedSeed) :
  seed_present other (insert_or_ignore seed now rows) =
    (String.eqb seed other || seed_present other rows).
Proof.
  unfold insert_or_ignore. destruct (seed_present seed rows) eqn:Hs.
  - destruct (String.eqb_spec seed other) as [<-|_]; [now rewrite Hs | reflexivity].
  - unfold seed_present. rewrite existsb_app. cbn. rewrite orb_false_r. apply orb_comm.
Qed.

(** X8: after a successful finish the seed check of the run's seed
    answers [solved: true], whatever it answered before; the answer for
    every other seed is as before; and the check itself writes nothing. *)
Theorem seed_check_after_finish (db : DB) (now now_stats : Z) (rid : string)
    (details : option string) (seed other : string) :
  run_seed <$> runs db !! rid = Some seed ->
  seed_check seed (snd (finish now now_stats rid details db)) =
    (Returned (ack (ASolved true) 200), snd (finish now now_stats rid details db)) /\
  (other <> seed ->
   fst (seed_check other (snd (finish now now_stats rid details db))) =
   fst (seed_check other db)).
Proof.
  intros Hseed. destruct (runs db !! rid) as [run|] eqn:Hrun; [|discriminate].
  injection Hseed as <-.
  destruct (finish_found db now now_stats rid details run Hrun)
    as (stats & db' & -> & _ & Hsolved & _).
  cbn [snd]. unfold seed_check. rewrite Hsolved, !seed_present_insert.
  rewrite String.eqb_refl. split; [reflexivity|].
  intros Hne. destruct (String.eqb_spec (run_seed run) other); [congruence | reflexivity].
Qed.

Lemma seed_check_after_finish_witness :
  fst (seed_check "seed-A" (sample_db [])) = Returned (ack (ASolved false) 200) /\
  seed_check "seed-A" (snd (finish 5000 5001 "run-2" None (sample_db []))) =
    (Returned (ack (ASolved true) 200), snd (finish 5000 5001 "run-2" None (sample_db []))).
Proof.
  split; [reflexivity|].
  apply (seed_check_after_finish (sample_db []) 5000 5001 "run-2" None "seed-A" "seed-B").
  vm_compute. reflexivity.
Defined.

(** ** Run initialisation *)

Lemma calculateStats_full (db : DB) (runId : string) (now : Z) (run : Run) :
  runs db !! runId = Some run ->
  calculateStats now runId db =
    (Returned
       {| st_run_id := runId;
          st_type := run_type run;
          st_seed := run_seed run;
          st_goal := run_goal run;
          st_target_mob := run_target_mob run;
          st_hardcore := negb (run_hardcore run =? 0);
          st_set_seed := negb (run_set_seed run =? 0);
          st_completion_details := run_completion_details run;
          duration_ms := elapsed now (ordered_log db runId);
          duration_formatted := formatDuration (elapsed now (ordered_log db runId));
          st_players := runner_names runId (players db);
          cheat_incidents := cheats_of runId (cheat_logs db);
          solved_at := run_ended_at run |}, db).
Proof.
  intros Hrun. unfold calculateStats, bind, sql_select_run. now rewrite Hrun.
Qed.

Lemma init_run_cases (db : DB) (now : Z) (req : InitRequest) :
  init_run now req db =
    if negb (init_fields_present req) then
      (Returned (ack (AError "Missing required fields") 400), db)
    else
      match runs db !! default "" (ir_run_id req) with
      | Some _ => (Returned (ack (AError "Failed to initialize run") 500), db)
      | None =>
          if bool_decide (default [] (ir_players req) = []) then
            (Returned (ack (AError "Failed to initialize run") 500),
             set_runs (insert (default "" (ir_run_id req)) (new_run now req)) db)
          else
            (Returned (ack (AMessage "Run initialized") 200),
             set_players
               (fun rows => rows ++
                  player_rows (default "" (ir_run_id req)) (default [] (ir_players req)))
               (set_runs (insert (default "" (ir_run_id req)) (new_run now req)) db))
      end.
Proof.
  unfold init_run, init_fields_present.
  destruct (truthy (ir_run_id req)), (truthy (ir_type req)), (truthy (ir_seed req)),
    (bool_decide (is_Some (ir_players req))); cbn [negb orb andb]; try reflexivity.
  unfold try_catch, bind, sql_insert_run, sql_batch_insert_players, ret.
  destruct (runs db !! default "" (ir_run_id req)) eqn:Hrun; [reflexivity|].
  destruct (bool_decide (default [] (ir_players req) = [])); [reflexivity|].
  cbn [runs set_runs foreign_keys]. rewrite lookup_insert_eq.
  rewrite (bool_decide_eq_true_2 (is_Some (Some (new_run now req)))) by eauto.
  cbn [negb]. now rewrite andb_false_r.
Qed.

(** X9: an init request is answered 400 [Missing required fields] when
    one of [run_id], [type], [seed] (missing or empty) or [players] is
    missing; otherwise 500 [Failed to initialize run] when the run id is
    taken or the list of players is empty; otherwise 200.  The first two
    cases write nothing.  In every other case, the one of the empty list
    included, the run is inserted, with the request's type and seed, the
    goal or ENDER_DRAGON, the target mob or NULL, the flags as 0 or 1,
    status CREATED, the time of the call, and no end time, duration or
    completion details; one player row per listed player is appended; the
    time logs, solved seeds and cheat logs are not touched.  So an empty
    list of players leaves a run without players behind a 500. *)
Theorem init_run_outcomes (db : DB) (now : Z) (req : InitRequest) :
  exists resp db',
    init_run now req db = (Returned resp, db') /\
    resp =
      (if negb (init_fields_present req)
       then {| ack_status := 400; ack_body := AError "Missing required fields" |}
       else if bool_decide (is_Some (runs db !! default "" (ir_run_id req)))
       then {| ack_status := 500; ack_body := AError "Failed to initialize run" |}
       else if bool_decide (ir_players req = Some [])
       then {| ack_status := 500; ack_body := AError "Failed to initialize run" |}
       else {| ack_status := 200; ack_body := AMessage "Run initialized" |}) /\
    (init_fields_present req = false \/ is_Some (runs db !! default "" (ir_run_id req)) ->
     db' = db) /\
    (init_fields_present req = true -> runs db !! default "" (ir_run_id req) = None ->
     runs db' =
       <[default "" (ir_run_id req) :=
           {| run_type := default "" (ir_type req);
              run_seed := default "" (ir_seed req);
              run_goal := if truthy (ir_goal req) then ir_goal req else Some "ENDER_DRAGON";
              run_target_mob := if truthy (ir_target_mob req) then ir_target_mob req else None;
              run_hardcore := match ir_hardcore req with Some true => 1 | _ => 0 end;
              run_set_seed := match ir_set_seed req with Some true => 1 | _ => 0 end;
              run_status := "CREATED";
              run_created_at := now;
              run_ended_at := None;
              run_duration := None;
              run_completion_details := None |}]> (runs db) /\
     players db' =
       players db ++
       map (fun p => {| player_run_id := default "" (ir_run_id req);
                        minecraft_name := fst p; role := snd p |})
         (default [] (ir_players req)) /\
     time_logs db' = time_logs db /\
     solved_seeds db' = solved_seeds db /\
     cheat_logs db' = cheat_logs db /\
     foreign_keys db' = foreign_keys db).
Proof.
  rewrite init_run_cases. destruct (init_fields_present req) eqn:Hpresent; cbn [negb].
  - destruct (runs db !! default "" (ir_run_id req)) as [r|] eqn:Hrun.
    + rewrite bool_decide_eq_true_2 by eauto.
      eexists _, _. split; [reflexivity|]. split; [reflexivity|].
      split; [reflexivity | discriminate].
    + rewrite (bool_decide_eq_false_2 (is_Some None)) by (intros [? ?]; discriminate).
      assert (Hplayers : exists ps, ir_players req = Some ps).
      { unfold init_fields_present in Hpresent.
        apply andb_true_iff in Hpresent as [_ Hps]. apply bool_decide_eq_true in Hps.
        destruct Hps as [ps Hps]. now exists ps. }
      destruct Hplayers as [ps Hps]. rewrite Hps. cbn [from_option id].
      assert (Hsame : bool_decide (Some ps = Some []) = bool_decide (ps = [])).
      { apply bool_decide_ext. split; congruence. }
      rewrite Hsame. destruct (bool_decide_reflect (ps = [])) as [->|Hne].
      * eexists _, _. split; [reflexivity|]. split; [reflexivity|].
        split; [intros [|[? ?]]; discriminate|]. intros _ _.
        cbn [runs players time_logs solved_seeds cheat_logs foreign_keys set_runs map].
        rewrite app_nil_r. repeat split.
      * eexists _, _. split; [reflexivity|]. split; [reflexivity|].
        split; [intros [|[? ?]]; discriminate|]. intros _ _.
        cbn [runs players time_logs solved_seeds cheat_logs foreign_keys set_runs
               set_players].
        repeat split.
  - eexists _, _. split; [reflexivity|]. split; [reflexivity|].
    split; [reflexivity | discriminate].
Qed.

Lemma init_run_outcomes_witness :
  exists db',
    init_run 10
      {| ir_run_id := Some "run-9"; ir_type := Some "SOLO"; ir_seed := Some "seed-C";
         ir_players := Some []; ir_goal := None; ir_target_mob := None;
         ir_hardcore := None; ir_set_seed := None |}
      (sample_db []) =
      (Returned {| ack_status := 500; ack_body := AError "Failed to initialize run" |}, db') /\
    run_status <$> runs db' !! "run-9" = Some "CREATED" /\
    players db' = players (sample_db []).
Proof.
  destruct (init_run_outcomes (sample_db []) 10
              {| ir_run_id := Some "run-9"; ir_type := Some "SOLO"; ir_seed := Some "seed-C";
                 ir_players := Some []; ir_goal := None; ir_target_mob := None;
                 ir_hardcore := None; ir_set_seed := None |})
    as (resp & db' & Hcall & Hresp & _ & Hwrites).
  destruct Hwrites as (Hruns & Hplayers & _); [reflexivity | reflexivity |].
  exists db'. vm_compute in Hresp. rewrite Hresp in Hcall. split; [exact Hcall|].
  rewrite Hruns, Hplayers. split; [vm_compute; reflexivity | apply app_nil_r].
Defined.

(** X10: after a successful init of a run that has no row in the time
    log, its stats are answered 200 with 0 ms, formatted ["0h 0m 0 s"],
    no [solved_at], the request's seed, and as players the runners of the
    request (not its spectators), after any runner rows the id already
    had. *)
Theorem init_then_stats (db : DB) (now later : Z) (req : InitRequest)
    (rid : string) (ps : list (string * string)) :
  ir_run_id req = Some rid ->
  ir_players req = Some ps ->
  init_fields_present req = true ->
  runs db !! rid = None ->
  rows_of_run rid (time_logs db) = [] ->
  exists stats,
    get_stats later rid (snd (init_run now req db)) =
      (Returned (json (BStats stats) 200), snd (init_run now req db)) /\
    duration_ms stats = 0 /\
    duration_formatted stats = "0h 0m 0 s" /\
    solved_at stats = None /\
    st_seed stats = default "" (ir_seed req) /\
    st_players stats =
      runner_names rid (players db) ++
      map fst (List.filter (fun p => String.eqb (snd p) "RUNNER") ps).
Proof.
  intros Hid Hps Hpresent Hfree Hrows.
  rewrite init_run_cases, Hpresent, Hid, Hps. cbn [negb from_option id].
  rewrite Hfree. destruct (bool_decide_reflect (ps = [])) as [Hempty|_]; cbn [snd].
  - unfold get_stats, try_catch, bind.
    rewrite (calculateStats_full _ rid later (new_run now req))
      by (cbn [runs set_runs]; apply lookup_insert_eq).
    eexists. split; [reflexivity|].
    cbn [duration_ms duration_formatted solved_at st_seed st_players].
    unfold ordered_log. cbn [time_logs players set_runs new_run run_ended_at run_seed].
    rewrite Hrows, Hempty. cbn [List.filter map]. rewrite app_nil_r. repeat split.
  - unfold get_stats, try_catch, bind.
    rewrite (calculateStats_full _ rid later (new_run now req))
      by (cbn [runs set_players set_runs]; apply lookup_insert_eq).
    eexists. split; [reflexivity|].
    cbn [duration_ms duration_formatted solved_at st_seed st_players].
    unfold ordered_log.
    cbn [time_logs players set_players set_runs new_run run_ended_at run_seed].
    rewrite Hrows. repeat split.
    unfold runner_names, player_rows. rewrite List.filter_app, map_app. f_equal.
    clear Hid Hps Hpresent Hfree Hrows. induction ps as [|[name r] rest IH]; [reflexivity|].
    cbn. rewrite String.eqb_refl. cbn.
    destruct (String.eqb r "RUNNER"); cbn; now rewrite <- IH.
Qed.

Lemma init_then_stats_witness :
  exists stats,
    get_stats 77 "run-9" (snd (init_run 10 (sample_init "run-9" "seed-C") (sample_db []))) =
      (Returned (json (BStats stats) 200),
       snd (init_run 10 (sample_init "run-9" "seed-C") (sample_db []))) /\
    duration_ms stats = 0 /\
    st_players stats = ["Alex"].
Proof.
  destruct (init_then_stats (sample_db []) 10 77 (sample_init "run-9" "seed-C") "run-9"
              [("Alex", "RUNNER"); ("Bob", "SPECTATOR")])
    as (stats & Hcall & Hdur & _ & _ & _ & Hplayers); try reflexivity.
  exists stats. split; [exact Hcall|]. split; [exact Hdur | exact Hplayers].
Defined.

(** ** Cheat reports *)

(** X11: a cheat report on an existing run is answered 200 and raises the
    cheat count in that run's stats by one; the cheat count of every
    other run, and every duration and player list, stay as they were. *)
Theorem report_cheat_counts (db : DB) (now later : Z) (rid player_name details : string)
    (other : string) (run other_run : Run) :
  runs db !! rid = Some run ->
  runs db !! other = Some other_run ->
  exists db' before after,
    report_cheat now rid player_name details db = (Returned (ack ASuccess 200), db') /\
    calculateStats later other db = (Returned before, db) /\
    calculateStats later other db' = (Returned after, db') /\
    cheat_incidents after =
      cheat_incidents before + (if String.eqb rid other then 1 else 0) /\
    duration_ms after = duration_ms before /\
    st_players after = st_players before.
Proof.
  intros Hrun Hother.
  unfold report_cheat, try_catch, bind, sql_insert_cheat_log, ret.
  rewrite Hrun, bool_decide_eq_true_2 by eauto. rewrite andb_false_r.
  eexists _, _, _. split; [reflexivity|].
  split; [exact (calculateStats_full db other later other_run Hother)|].
  split; [apply (calculateStats_full _ other later other_run); exact Hother|].
  cbn [cheat_incidents duration_ms st_players]. unfold ordered_log, cheats_of.
  cbn [time_logs players cheat_logs set_cheat_logs].
  repeat split. rewrite List.filter_app, length_app. cbn [List.filter cl_run_id].
  destruct (String.eqb rid other); cbn [length]; lia.
Qed.

Lemma report_cheat_counts_witness :
  exists db' before after,
    report_cheat 50 "run-1" "Steve" "x-ray" (sample_db []) = (Returned (ack ASuccess 200), db') /\
    calculateStats 60 "run-1" (sample_db []) = (Returned before, sample_db []) /\
    calculateStats 60 "run-1" db' = (Returned after, db') /\
    cheat_incidents after = cheat_incidents before + 1.
Proof.
  destruct (report_cheat_counts (sample_db []) 50 60 "run-1" "Steve" "x-ray" "run-1"
              (sample_run "seed-A") (sample_run "seed-A"))
    as (db' & before & after & H1 & H2 & H3 & H4 & _); try reflexivity.
  exists db', before, after. repeat split; assumption.
Defined.

(** X12: with foreign keys enforced, a cheat report for a run that does
    not exist is answered 500 [Failed to log cheat] and leaves the
    database as it was. *)
Theorem report_cheat_unknown (db : DB) (now : Z) (rid player_name details : string) :
  runs db !! rid = None -> foreign_keys db = true ->
  report_cheat now rid player_name details db =
    (Returned (ack (AError "Failed to log cheat") 500), db).
Proof.
  intros Hrun Hfk. unfold report_cheat, try_catch, bind, sql_insert_cheat_log, ret.
  rewrite Hrun, Hfk, bool_decide_eq_false_2 by (intros [? ?]; discriminate). reflexivity.
Qed.

Lemma report_cheat_unknown_witness :
  report_cheat 5 "run-0" "Steve" "fly" (sample_db []) =
    (Returned (ack (AError "Failed to log cheat") 500), sample_db []).
Proof. apply (report_cheat_unknown (sample_db []) 5 "run-0" "Steve" "fly"); reflexivity. Defined.

(** ** Sessions through update-state *)

Lemma update_state_logged (db : DB) (now : Z) (rid a : string) (run : Run) :
  runs db !! rid = Some run -> rid <> "" -> In a valid_actions ->
  Forall (fun r => timestamp r <= now) (rows_of_run rid (time_logs db)) ->
  exists newStatus db',
    update_state now (Some rid) (Some a) db = (Returned (json (BStatus newStatus) 200), db') /\
    status_of_action a = Some newStatus /\
    runs db' !! rid = Some (with_status newStatus run) /\
    rows_of_run rid (time_logs db') = rows_of_run rid (time_logs db) ++ [at_time a now] /\
    ordered_log db' rid = ordered_log db rid ++ [at_time a now].
Proof.
  intros Hrun Hrid Ha Hold. rewrite update_state_cases. cbn [truthy from_option id].
  destruct (String.eqb_spec rid "") as [|_]; [contradiction|].
  destruct (status_of_action_valid a Ha) as [newStatus Hst].
  destruct (String.eqb_spec a "") as [->|_]; [discriminate Hst|].
  cbn [negb orb]. rewrite Hst, Hrun, bool_decide_eq_true_2 by eauto. rewrite andb_false_r.
  eexists _, _. split; [reflexivity|]. split; [reflexivity|].
  cbn [runs time_logs set_runs set_time_logs].
  split; [now rewrite lookup_alter_eq, Hrun|].
  assert (Hrows : rows_of_run rid (time_logs db ++ [log_of rid a now]) =
                  rows_of_run rid (time_logs db) ++ [at_time a now])
    by now rewrite rows_of_run_app, rows_of_run_own.
  split; [exact Hrows|]. unfold ordered_log. cbn [time_logs set_time_logs set_runs].
  rewrite Hrows.
  now apply order_snoc.
Qed.

(** X13: on a run whose clock is off, START at [t1] followed by PAUSE at
    [t2 >= t1] adds exactly [t2 - t1] to the elapsed time, for every time
    of reading; between the two calls a reading at [now] shows the old
    total plus [now - t1]; afterwards the run is PAUSED.  (The rows logged
    before are not later than [t1].) *)
Theorem start_pause_session (db : DB) (rid : string) (t1 t2 : Z) :
  is_Some (runs db !! rid) -> rid <> "" ->
  Forall (fun r => timestamp r <= t1) (rows_of_run rid (time_logs db)) ->
  isRunning (replay (ordered_log db rid)) = false ->
  t1 <= t2 ->
  let db1 := snd (update_state t1 (Some rid) (Some "START") db) in
  let db2 := snd (update_state t2 (Some rid) (Some "PAUSE") db1) in
  (forall now, elapsed now (ordered_log db1 rid) =
               elapsed now (ordered_log db rid) + (now - t1)) /\
  (forall now, elapsed now (ordered_log db2 rid) =
               elapsed now (ordered_log db rid) + (t2 - t1)) /\
  run_status <$> runs db2 !! rid = Some "PAUSED".
Proof.
  intros [run Hrun] Hrid Hold Hoff Hle db1 db2. subst db2 db1.
  destruct (update_state_logged db t1 rid "START" run Hrun Hrid) as
    (s1 & d1 & Hcall1 & Hs1 & Hrun1 & Hrows1 & Hlog1); [cbn; tauto | exact Hold |].
  rewrite Hcall1. cbn [snd].
  destruct (update_state_logged d1 t2 rid "PAUSE" _ Hrun1 Hrid) as
    (s2 & d2 & Hcall2 & Hs2 & Hrun2 & _ & Hlog2); [cbn; tauto | |].
  { rewrite Hrows1. apply Forall_app. split.
    - eapply List.Forall_impl; [|exact Hold]. cbn. intros; lia.
    - repeat constructor. cbn. lia. }
  rewrite Hcall2. cbn [snd].
  assert (Hstart : replay (ordered_log d1 rid) =
                   {| totalTimeMs := totalTimeMs (replay (ordered_log db rid));
                      lastStartTime := t1; isRunning := true |}).
  { rewrite Hlog1, replay_snoc, clock_step_edge, Hoff. reflexivity. }
  assert (Hold_total : forall now, elapsed now (ordered_log db rid) =
                                   totalTimeMs (replay (ordered_log db rid))).
  { intros now. unfold elapsed. now rewrite Hoff. }
  split; [|split].
  - intros now. rewrite Hold_total. unfold elapsed. rewrite Hstart. reflexivity.
  - intros now. rewrite Hold_total. unfold elapsed.
    rewrite Hlog2, replay_snoc, clock_step_edge, Hstart. reflexivity.
  - rewrite Hrun2. cbn. injection Hs2 as <-. reflexivity.
Qed.

Lemma start_pause_session_witness :
  elapsed 999
    (ordered_log
       (snd (update_state 700 (Some "run-1") (Some "PAUSE")
          (snd (update_state 300 (Some "run-1") (Some "START")
             (sample_db [log_of "run-1" "START" 0; log_of "run-1" "PAUSE" 100])))))
       "run-1") =
  elapsed 999
    (ordered_log (sample_db [log_of "run-1" "START" 0; log_of "run-1" "PAUSE" 100]) "run-1")
    + (700 - 300).
Proof.
  apply (start_pause_session
           (sample_db [log_of "run-1" "START" 0; log_of "run-1" "PAUSE" 100]) "run-1" 300 700).
  - exists (sample_run "seed-A"). reflexivity.
  - discriminate.
  - repeat constructor; cbn; lia.
  - reflexivity.
  - lia.
Defined.

(** ** Database reset *)


(** ** The public statistics *)

Lemma insert_by_perm {A : Type} (key : A -> Z) (x : A) (rows : list A) :
  Permutation (insert_by key x rows) (x :: rows).
Proof.
  induction rows as [|y rest IH]; cbn; [reflexivity|].
  destruct (key x <=? key y); [reflexivity|]. rewrite IH. apply perm_swap.
Qed.

Lemma order_by_perm {A : Type} (key : A -> Z) (rows : list A) :
  Permutation (order_by key rows) rows.
Proof.
  induction rows as [|x rest IH]; [reflexivity|].
  cbn [order_by fold_right]. fold (order_by key rest).
  now rewrite insert_by_perm, IH.
Qed.

Lemma insert_by_sorted {A : Type} (key : A -> Z) (x : A) (rows : list A) :
  StronglySorted (by_key key) rows -> StronglySorted (by_key key) (insert_by key x rows).
Proof.
  induction 1 as [|y rest Hs IH Hall]; cbn.
  - repeat constructor.
  - destruct (Z.leb_spec (key x) (key y)).
    + constructor; [now constructor|]. constructor; [assumption|].
      eapply List.Forall_impl; [|exact Hall]. unfold by_key. intros; lia.
    + constructor; [exact IH|].
      rewrite insert_by_perm. constructor; [unfold by_key; lia | exact Hall].
Qed.

Lemma order_by_sorted {A : Type} (key : A -> Z) (rows : list A) :
  StronglySorted (by_key key) (order_by key rows).
Proof.
  induction rows as [|x rest IH]; cbn; [constructor | now apply insert_by_sorted].
Qed.

Lemma sorted_app_le {A : Type} (key : A -> Z) (front back : list A) :
  StronglySorted (by_key key) (front ++ back) ->
  forall x y, In x front -> In y back -> key x <= key y.
Proof.
  induction front as [|a front IH]; cbn; [tauto|]. intros Hs x y Hx Hy.
  apply StronglySorted_inv in Hs as [Hs Hall]. destruct Hx as [<-|Hx].
  - rewrite List.Forall_forall in Hall. apply Hall. apply in_or_app. now right.
  - now apply IH.
Qed.

Lemma sorted_firstn {A : Type} (key : A -> Z) (n : nat) (rows : list A) :
  StronglySorted (by_key key) rows -> StronglySorted (by_key key) (firstn n rows).
Proof.
  intros Hs. revert n. induction Hs as [|x rest Hs IH Hall]; intros [|n]; cbn;
    try constructor; [apply IH|].
  rewrite List.Forall_forall in *. intros y Hy. apply Hall.
  rewrite <- (firstn_skipn n rest). apply in_or_app. now left.
Qed.

Lemma join_runs_players_In (db : DB) (j : Joined) :
  In j (join_runs_players db) ->
  In (j_player j) (players db) /\
  player_run_id (j_player j) = j_run_id j /\
  runs db !! j_run_id j = Some (j_run j).
Proof.
  unfold join_runs_players. rewrite in_flat_map. intros (p & Hp & Hj).
  destruct (runs db !! player_run_id p) as [r|] eqn:Hr; [|destruct Hj].
  destruct Hj as [<-|[]]. cbn. auto.
Qed.

(** X15: a leaderboard holds at most ten rows, fastest first.  Each row
    is a RUNNER of a FINISHED run that has a duration and the board's
    [set_seed] value; every such row that is left out is no faster than
    any row on the board, and rows are left out only when the board is
    full.  The text shown with a row is [formatDuration] of its duration,
    and no run is on both boards. *)
Theorem leaderboard_best (set_seed : Z) (db : DB) :
  (length (leaderboard_rows set_seed db) <= 10)%nat /\
  StronglySorted (by_key duration_key) (leaderboard_rows set_seed db) /\
  Forall (fun j =>
            run_status (j_run j) = "FINISHED" /\
            run_duration (j_run j) = Some (duration_key j) /\
            role (j_player j) = "RUNNER" /\
            run_set_seed (j_run j) = set_seed /\
            runs db !! j_run_id j = Some (j_run j) /\
            In (j_player j) (players db))
         (leaderboard_rows set_seed db) /\
  (exists left_out,
     Permutation (leaderboard_rows set_seed db ++ left_out)
       (List.filter (on_board set_seed) (join_runs_players db)) /\
     (forall x y, In x (leaderboard_rows set_seed db) -> In y left_out ->
                  duration_key x <= duration_key y) /\
     (left_out <> [] -> length (leaderboard_rows set_seed db) = 10%nat)) /\
  leaderboard set_seed db =
    map (fun j => (j, formatDuration (duration_key j))) (leaderboard_rows set_seed db) /\
  (forall a b, In a (leaderboard_rows 0 db) -> In b (leaderboard_rows 1 db) ->
               j_run_id a <> j_run_id b).
Proof.
  set (candidates := List.filter (on_board set_seed) (join_runs_players db)).
  assert (Hqual : forall s j, In j (leaderboard_rows s db) ->
                              on_board s j = true /\ In j (join_runs_players db)).
  { intros s j Hj. unfold leaderboard_rows in Hj.
    assert (Hin : In j (order_by duration_key (List.filter (on_board s) (join_runs_players db)))).
    { rewrite <- (firstn_skipn 10). apply in_or_app. now left. }
    apply (Permutation_in _ (order_by_perm _ _)) in Hin.
    apply List.filter_In in Hin. tauto. }
  split; [apply firstn_le_length|].
  split; [apply sorted_firstn, order_by_sorted|].
  split.
  { apply List.Forall_forall. intros j Hj. destruct (Hqual _ _ Hj) as [Hon Hin].
    destruct (join_runs_players_In db j Hin) as (Hp & _ & Hr).
    unfold on_board in Hon. repeat (apply andb_true_iff in Hon as [Hon ?]).
    apply String.eqb_eq in Hon. apply bool_decide_eq_true in H1.
    destruct H1 as [d Hd]. repeat split; try assumption.
    - unfold duration_key. now rewrite Hd.
    - now apply String.eqb_eq.
    - now apply Z.eqb_eq. }
  split.
  { exists (skipn 10 (order_by duration_key candidates)). unfold leaderboard_rows.
    fold candidates. split; [|split].
    - rewrite firstn_skipn. apply order_by_perm.
    - apply sorted_app_le. rewrite firstn_skipn. apply order_by_sorted.
    - intros Hrest. rewrite length_firstn.
      destruct (Nat.le_gt_cases (length (order_by duration_key candidates)) 10) as [Hle|Hgt];
        [|lia].
      exfalso. apply Hrest. now apply skipn_all2. }
  split; [reflexivity|].
  intros a b Ha Hb Heq.
  destruct (Hqual _ _ Ha) as [Hona Hina]. destruct (Hqual _ _ Hb) as [Honb Hinb].
  destruct (join_runs_players_In db a Hina) as (_ & _ & Hra).
  destruct (join_runs_players_In db b Hinb) as (_ & _ & Hrb).
  rewrite Heq, Hrb in Hra. injection Hra as Hra.
  unfold on_board in Hona, Honb. rewrite Hra in Honb.
  apply andb_true_iff in Hona as [_ Hona]. apply andb_true_iff in Honb as [_ Honb].
  apply Z.eqb_eq in Hona, Honb. congruence.
Qed.

Lemma active_run_In (db : DB) (j : Joined) :
  active_run db = Some j ->
  is_active j = true /\ In j (join_runs_players db).
Proof.
  unfold active_run. intros Hhead.
  assert (Hin : In j (order_by (fun j => - run_created_at (j_run j))
                        (List.filter is_active (join_runs_players db)))).
  { destruct (order_by _ _) as [|x xs]; [discriminate|]. injection Hhead as ->. now left. }
  apply (Permutation_in _ (order_by_perm _ _)) in Hin.
  apply List.filter_In in Hin. tauto.
Qed.

(** X16: the active run shown on the status page is a RUNNER row of a run
    whose status is CREATED, STARTED or PAUSED.  Update-state never writes
    STARTED: a run that was just started or resumed has status RUNNING and
    is therefore never the active run. *)
Theorem running_run_not_active (db : DB) (now : Z) (rid a : string) :
  is_Some (runs db !! rid) -> rid <> "" -> a = "START" \/ a = "RESUME" ->
  (forall j, active_run db = Some j ->
     In (run_status (j_run j)) ["CREATED"; "STARTED"; "PAUSED"] /\
     role (j_player j) = "RUNNER" /\
     runs db !! j_run_id j = Some (j_run j)) /\
  fst (update_state now (Some rid) (Some a) db) = Returned (json (BStatus "RUNNING") 200) /\
  (forall j, active_run (snd (update_state now (Some rid) (Some a) db)) = Some j ->
     j_run_id j <> rid).
Proof.
  intros [run Hrun] Hrid Ha.
  assert (Hactive : forall d j, active_run d = Some j ->
            In (run_status (j_run j)) ["CREATED"; "STARTED"; "PAUSED"] /\
            role (j_player j) = "RUNNER" /\
            runs d !! j_run_id j = Some (j_run j)).
  { intros d j Hj. destruct (active_run_In d j Hj) as [Hact Hin].
    destruct (join_runs_players_In d j Hin) as (_ & _ & Hr).
    unfold is_active in Hact. apply andb_true_iff in Hact as [Hst Hrole].
    apply String.eqb_eq in Hrole. split; [|now split].
    apply orb_true_iff in Hst as [Hst|Hst]; [apply orb_true_iff in Hst as [Hst|Hst]|];
      apply String.eqb_eq in Hst; rewrite Hst; cbn; tauto. }
  split; [apply Hactive|].
  rewrite update_state_cases. cbn [truthy from_option id].
  destruct (String.eqb_spec rid "") as [|_]; [contradiction|].
  assert (Hst : status_of_action a = Some "RUNNING") by (destruct Ha as [->| ->]; reflexivity).
  assert (Hne : String.eqb a "" = false) by (destruct Ha as [->| ->]; reflexivity).
  rewrite Hne, Hst, Hrun, bool_decide_eq_true_2 by eauto.
  cbn [negb orb]. rewrite andb_false_r. cbn [fst snd]. split; [reflexivity|].
  intros j Hj Heq. destruct (Hactive _ j Hj) as (Hstatus & _ & Hr).
  cbn [runs set_runs set_time_logs] in Hr. rewrite Heq, lookup_alter_eq, Hrun in Hr.
  injection Hr as Hr. rewrite <- Hr in Hstatus. cbn in Hstatus.
  destruct Hstatus as [H|[H|[H|[]]]]; discriminate.
Qed.

Lemma running_run_not_active_witness :
  exists j,
    active_run
      (snd (update_state 100 (Some "run-1") (Some "START")
              (set_players (fun rows => rows ++ player_rows "run-2" [("Alex", "RUNNER")])
                 (sample_db [])))) = Some j /\
    j_run_id j <> "run-1".
Proof.
  eexists. split; [vm_compute; reflexivity|].
  apply (running_run_not_active
           (set_players (fun rows => rows ++ player_rows "run-2" [("Alex", "RUNNER")])
              (sample_db [])) 100 "run-1" "START").
  - exists (sample_run "seed-A"). reflexivity.
  - discriminate.
  - now left.
  - vm_compute. reflexivity.
Defined.

(** ** The seed line of [server.properties] *)

Lemma append_cons (c : ascii) (a b : string) : String c a +:+ b = String c (a +:+ b).
Proof. reflexivity. Qed.

Lemma append_empty (b : string) : "" +:+ b = b.
Proof. reflexivity. Qed.

Lemma split_lines_nonempty (s : string) : split_lines s <> [].
Proof.
  destruct s as [|c rest]; cbn; [discriminate|].
  destruct (Ascii.eqb c "010"); [discriminate|].
  destruct (split_lines rest); discriminate.
Qed.

Lemma join_lines_cons (line : string) (next : string) (rest : list string) :
  join_lines (line :: next :: rest) =
  line +:+ String "010" (join_lines (next :: rest)).
Proof. reflexivity. Qed.

Lemma join_split_lines (s : string) : join_lines (split_lines s) = s.
Proof.
  induction s as [|c rest IH]; [reflexivity|]. cbn [split_lines].
  destruct (split_lines rest) as [|l ls] eqn:E; [now destruct (split_lines_nonempty rest)|].
  destruct (Ascii.eqb_spec c "010") as [->|Hne].
  - rewrite join_lines_cons, IH. reflexivity.
  - cbn [split_lines_cons]. destruct ls as [|l' ls'].
    + cbn in IH |- *. now rewrite IH.
    + rewrite join_lines_cons in IH |- *. rewrite <- IH. reflexivity.
Qed.

Lemma split_one_line (line : string) : one_line line = true -> split_lines line = [line].
Proof.
  induction line as [|c rest IH]; [reflexivity|]. cbn [one_line split_lines].
  unfold newline. intros [Hc Hrest]%andb_true_iff. apply negb_true_iff in Hc.
  rewrite Hc, (IH Hrest).
  reflexivity.
Qed.

Lemma split_line_then (line rest : string) :
  one_line line = true ->
  split_lines (line +:+ String "010" rest) = line :: split_lines rest.
Proof.
  induction line as [|c line IH]; [reflexivity|]. cbn [one_line]. unfold newline.
  intros [Hc Hline]%andb_true_iff. apply negb_true_iff in Hc.
  rewrite append_cons. cbn [split_lines]. rewrite Hc, (IH Hline). reflexivity.
Qed.

Lemma split_join_lines (lines : list string) :
  lines <> [] -> forallb one_line lines = true ->
  split_lines (join_lines lines) = lines.
Proof.
  induction lines as [|line [|next rest] IH]; [contradiction| |].
  - intros _ [Hline _]%andb_true_iff. now apply split_one_line.
  - intros _ [Hline Hrest]%andb_true_iff.
    rewrite join_lines_cons, (split_line_then _ _ Hline), IH; [reflexivity | discriminate | exact Hrest].
Qed.

Lemma split_lines_one_line (s : string) : forallb one_line (split_lines s) = true.
Proof.
  induction s as [|c rest IH]; [reflexivity|]. cbn [split_lines].
  destruct (Ascii.eqb_spec c "010") as [->|Hne]; [exact IH|].
  destruct (split_lines rest) as [|l ls];
    cbn [split_lines_cons forallb one_line] in *; unfold newline at 1;
    destruct (Ascii.eqb_spec c "010") as [|_]; [contradiction | | contradiction |];
    [reflexivity | exact IH].
Qed.

(** X17: splitting a text at its line feeds and joining the lines again
    gives the text back; the lines hold no line feed and there is at
    least one; and joining lines that hold no line feed and splitting
    again gives the lines back. *)
Theorem split_join_round_trip (text : string) (lines : list string) :
  join_lines (split_lines text) = text /\
  split_lines text <> [] /\
  forallb one_line (split_lines text) = true /\
  (lines <> [] -> forallb one_line lines = true ->
   split_lines (join_lines lines) = lines).
Proof.
  split; [apply join_split_lines|]. split; [apply split_lines_nonempty|].
  split; [apply split_lines_one_line | apply split_join_lines].
Qed.

Lemma split_join_round_trip_witness :
  split_lines (join_lines ["motd=hi"; ""; "level-seed=7"]) = ["motd=hi"; ""; "level-seed=7"].
Proof.
  apply (split_join_round_trip "" ["motd=hi"; ""; "level-seed=7"]).
  - discriminate.
  - reflexivity.
Defined.

Lemma prefix_append (p s : string) : String.prefix p (p +:+ s) = true.
Proof.
  induction p as [|c p IH]; [rewrite append_empty; now destruct s|].
  rewrite append_cons. cbn [String.prefix].
  destruct (ascii_dec c c); [exact IH | contradiction].
Qed.

Lemma one_line_append (a b : string) :
  one_line a = true -> one_line b = true -> one_line (a +:+ b) = true.
Proof.
  induction a as [|c a IH]; [now rewrite append_empty|].
  rewrite append_cons. cbn [one_line].
  intros [Hc Ha]%andb_true_iff Hb. now rewrite Hc, (IH Ha Hb).
Qed.

(** The lines of the rewritten text. *)
Lemma rewrite_seed_split (seed text : string) :
  one_line seed = true ->
  split_lines (rewrite_seed seed text) =
    map (fun line => if is_seed_line line then seed_line seed else line) (split_lines text)
    ++ (if existsb is_seed_line (split_lines text) then [] else [seed_line seed]).
Proof.
  intros Hseed. unfold rewrite_seed.
  assert (Hone : one_line (seed_line seed) = true) by now apply one_line_append.
  assert (Hmap : forallb one_line
            (map (fun line => if is_seed_line line then seed_line seed else line)
               (split_lines text)) = true).
  { pose proof (split_lines_one_line text) as Hl.
    induction (split_lines text) as [|l ls IH]; [reflexivity|].
    cbn [map forallb] in *. apply andb_true_iff in Hl as [Hl Hls].
    rewrite (IH Hls), andb_true_r. now destruct (is_seed_line l). }
  fold is_seed_line. fold (seed_line seed).
  change (fun line => if String.prefix "level-seed=" line then seed_line seed else line)
    with (fun line => if is_seed_line line then seed_line seed else line).
  change (fun l => String.prefix "level-seed=" l) with is_seed_line.
  destruct (existsb is_seed_line (split_lines text)); cbn [negb].
  - rewrite app_nil_r. apply split_join_lines; [|exact Hmap].
    pose proof (split_lines_nonempty text). now destruct (split_lines text).
  - apply split_join_lines.
    + now destruct (map _ (split_lines text)).
    + rewrite forallb_app, Hmap. cbn. now rewrite Hone.
Qed.

(** X18: after the rewrite (with a seed that holds no line feed) the text
    has a line [level-seed=<seed>]; every line that starts with
    [level-seed=] is that line; the other lines are the old ones, in the
    old order; and a line is added only when the old text had no seed
    line. *)
Theorem rewrite_seed_lines (seed text : string) :
  one_line seed = true ->
  In (seed_line seed) (split_lines (rewrite_seed seed text)) /\
  Forall (fun line => is_seed_line line = true -> line = seed_line seed)
    (split_lines (rewrite_seed seed text)) /\
  List.filter (fun line => negb (is_seed_line line)) (split_lines (rewrite_seed seed text)) =
    List.filter (fun line => negb (is_seed_line line)) (split_lines text) /\
  length (split_lines (rewrite_seed seed text)) =
    (length (split_lines text) +
     (if existsb is_seed_line (split_lines text) then 0 else 1))%nat.
Proof.
  intros Hseed. rewrite (rewrite_seed_split seed text Hseed).
  assert (Hself : is_seed_line (seed_line seed) = true) by apply prefix_append.
  generalize (split_lines text). intros lines. split; [|split; [|split]].
  - destruct (existsb is_seed_line lines) eqn:Hex.
    + apply existsb_exists in Hex as (l & Hin & Hl). apply in_or_app. left.
      apply in_map_iff. exists l. now rewrite Hl.
    + apply in_or_app. right. now left.
  - apply Forall_app. split.
    + apply List.Forall_forall. intros l (l0 & <- & _)%in_map_iff.
      destruct (is_seed_line l0) eqn:Hl0; [reflexivity | congruence].
    + destruct (existsb is_seed_line lines); repeat constructor.
  - rewrite List.filter_app.
    assert (Htail : List.filter (fun line => negb (is_seed_line line))
                      (if existsb is_seed_line lines then [] else [seed_line seed]) = []).
    { destruct (existsb is_seed_line lines); cbn; [reflexivity | now rewrite Hself]. }
    rewrite Htail, app_nil_r. clear Htail.
    induction lines as [|l ls IH]; [reflexivity|]. cbn [map List.filter].
    destruct (is_seed_line l) eqn:Hl.
    + rewrite Hself. cbn [negb]. exact IH.
    + rewrite Hl. cbn [negb]. now rewrite IH.
  - rewrite length_app, length_map. now destruct (existsb is_seed_line lines).
Qed.

Lemma rewrite_seed_lines_witness :
  In (seed_line "42")
    (split_lines (rewrite_seed "42" (join_lines ["motd=hi"; "level-seed=7"; "pvp=true"]))) /\
  split_lines (rewrite_seed "42" (join_lines ["motd=hi"; "level-seed=7"; "pvp=true"])) =
    ["motd=hi"; "level-seed=42"; "pvp=true"].
Proof.
  split; [|vm_compute; reflexivity].
  apply (rewrite_seed_lines "42" (join_lines ["motd=hi"; "level-seed=7"; "pvp=true"])).
  reflexivity.
Defined.

(** X19: the last rewrite wins: rewriting to [seed1] and then to [seed2]
    gives what rewriting to [seed2] alone gives; in particular rewriting
    twice to the same seed changes nothing the second time. *)
Theorem rewrite_seed_overwrites (seed1 seed2 text : string) :
  one_line seed1 = true ->
  rewrite_seed seed2 (rewrite_seed seed1 text) = rewrite_seed seed2 text /\
  rewrite_seed seed1 (rewrite_seed seed1 text) = rewrite_seed seed1 text.
Proof.
  intros Hseed.
  assert (Hgen : forall seed, rewrite_seed seed (rewrite_seed seed1 text) = rewrite_seed seed text).
  { intros seed. unfold rewrite_seed at 1 3. rewrite (rewrite_seed_split seed1 text Hseed).
    fold is_seed_line. fold (seed_line seed).
    change (fun line => if String.prefix "level-seed=" line then seed_line seed else line)
      with (fun line => if is_seed_line line then seed_line seed else line).
    change (fun l => String.prefix "level-seed=" l) with is_seed_line.
    assert (Hself : is_seed_line (seed_line seed1) = true) by apply prefix_append.
    generalize (split_lines text). intros lines. f_equal.
    rewrite map_app, existsb_app.
    assert (Hmap : map (fun line => if is_seed_line line then seed_line seed else line)
                     (map (fun line => if is_seed_line line then seed_line seed1 else line) lines)
                   = map (fun line => if is_seed_line line then seed_line seed else line) lines).
    { rewrite map_map. apply map_ext. intros l.
      destruct (is_seed_line l) eqn:Hl; [now rewrite Hself | now rewrite Hl]. }
    assert (Hex : existsb is_seed_line
                    (map (fun line => if is_seed_line line then seed_line seed1 else line) lines)
                  = existsb is_seed_line lines).
    { clear Hmap. induction lines as [|l ls IH]; [reflexivity|]. cbn [map existsb]. rewrite IH.
      destruct (is_seed_line l) eqn:Hl; [now rewrite Hself | now rewrite Hl]. }
    rewrite Hmap, Hex. destruct (existsb is_seed_line lines); cbn [negb orb app map existsb].
    - now rewrite !app_nil_r.
    - rewrite Hself. cbn [negb orb]. reflexivity. }
  split; apply Hgen.
Qed.

Lemma rewrite_seed_overwrites_witness :
  rewrite_seed "9" (rewrite_seed "42" "motd=hi") = rewrite_seed "9" "motd=hi".
Proof. apply (rewrite_seed_overwrites "42" "9" "motd=hi"). reflexivity. Defined.

(** ** The exact traces of the orchestrations *)

Lemma wait_offline_waited (api : Remote) (budget : nat) (status : Z) (h : list Event) :
  exists tr out,
    wait_offline api budget status h = (out, h ++ tr) /\ waited budget status tr out.
Proof.
  revert status h. induction budget as [|budget IH]; intros status h.
  - exists [], (Returned status). rewrite app_nil_r. split; [reflexivity|].
    destruct (Z.eq_dec status 0) as [->|Hne]; now constructor.
  - cbn [wait_offline]. destruct (Z.eqb_spec status 0) as [->|Hne]; cbn [negb].
    + exists [], (Returned 0). rewrite app_nil_r. split; [reflexivity | constructor].
    + assert (Hstep :
        (sleep 3000 ;; status' <- getServerStatus api ;; wait_offline api budget status') h =
        match answer_status api (h ++ [ESleep 3000]) with
        | Some code =>
            wait_offline api budget code (h ++ [ESleep 3000; EStatus (Some code)])
        | None => (Thrown api_error, h ++ [ESleep 3000; EStatus None])
        end).
      { unfold bind, sleep, getServerStatus.
        destruct (answer_status api (h ++ [ESleep 3000])); now rewrite <- app_assoc. }
      rewrite Hstep. destruct (answer_status api (h ++ [ESleep 3000])) as [code|].
      * destruct (IH code (h ++ [ESleep 3000; EStatus (Some code)])) as (tr & out & -> & Hw).
        exists (ESleep 3000 :: EStatus (Some code) :: tr), out.
        rewrite <- app_assoc. split; [reflexivity | now constructor].
      * exists [ESleep 3000; EStatus None], (Thrown api_error).
        split; [reflexivity | now constructor].
Qed.

(** Both orchestrations up to the end of the wait; [K] is what follows. *)
Lemma orchestration_waited (api : Remote) (K : Z -> Task unit) :
  (stopServer api ;;
   status <- getServerStatus api ;;
   status <- wait_offline api 100 status ;;
   K status) [] = (Thrown api_error, [EStop false])
  \/
  (stopServer api ;;
   status <- getServerStatus api ;;
   status <- wait_offline api 100 status ;;
   K status) [] = (Thrown api_error, [EStop true; EStatus None])
  \/
  exists first tr out,
    waited 100 first tr out /\
    (stopServer api ;;
     status <- getServerStatus api ;;
     status <- wait_offline api 100 status ;;
     K status) [] =
      match out with
      | Returned status => K status (EStop true :: EStatus (Some first) :: tr)
      | Thrown msg => (Thrown msg, EStop true :: EStatus (Some first) :: tr)
      end.
Proof.
  set (prog := stopServer api ;;
               status <- getServerStatus api ;;
               status <- wait_offline api 100 status ;;
               K status).
  assert (Hprog : prog [] =
    if answer_stop api [] then
      match answer_status api [EStop true] with
      | Some s0 =>
          match wait_offline api 100 s0 [EStop true; EStatus (Some s0)] with
          | (Returned status, h') => K status h'
          | (Thrown msg, h') => (Thrown msg, h')
          end
      | None => (Thrown api_error, [EStop true; EStatus None])
      end
    else (Thrown api_error, [EStop false])).
  { unfold prog, bind, stopServer, command, getServerStatus.
    destruct (answer_stop api []); cbn [app]; [|reflexivity].
    now destruct (answer_status api [EStop true]). }
  rewrite Hprog. clear Hprog prog.
  destruct (answer_stop api []); [|now left].
  destruct (answer_status api [EStop true]) as [s0|]; [|right; now left].
  right. right.
  destruct (wait_offline_waited api 100 s0 [EStop true; EStatus (Some s0)])
    as (tr & out & -> & Hw).
  exists s0, tr, out. split; [exact Hw|]. now destruct out.
Qed.

Lemma waited_messages (budget : nat) (status : Z) (tr : list Event) (msg : string) :
  waited budget status tr (Thrown msg) -> msg = api_error.
Proof.
  intros H. remember (Thrown msg) as out eqn:Hout.
  induction H; try discriminate; [now injection Hout | auto].
Qed.

Lemma reset_task_exact (api : Remote) : reset_trace (trace_of (reset_task api)).
Proof.
  unfold trace_of, reset_task, try_catch.
  match goal with
  | |- context [bind (stopServer api) (fun _ => bind (getServerStatus api)
                  (fun first => bind (wait_offline api 100 first) ?K))] =>
      destruct (orchestration_waited api K) as [Heq | [Heq | (s0 & tr & out & Hw & Heq)]]
  end; rewrite Heq; cbn [snd ret]; try constructor.
  destruct out as [final|msg]; [|cbn; now apply (reset_gave_up s0 tr (Thrown msg))].
  destruct (Z.eqb_spec final 0) as [Hzero|Hne]; cbn [negb].
  - rewrite Hzero in Hw.
    unfold bind, try_catch, delete_world, bind, deleteFile, startServer, command, ret.
    split_answers api; cbn [snd]; rewrite <- ?app_assoc; cbn [app];
      first [ eapply (reset_done s0 tr [_] _ _ Hw)
            | eapply (reset_done s0 tr [_; _] _ _ Hw)
            | eapply (reset_done s0 tr [_; _; _] _ _ Hw) ]; constructor.
  - cbn. apply (reset_gave_up s0 tr (Returned final) Hw). congruence.
Qed.

Lemma restart_task_exact (api : Remote) (seed : option string) :
  truthy seed = true ->
  reseed_trace (default "" seed) (trace_of (restart_task api seed)).
Proof.
  intros Hseed. unfold trace_of, restart_task, try_catch. rewrite Hseed.
  match goal with
  | |- context [bind (stopServer api) (fun _ => bind (getServerStatus api)
                  (fun first => bind (wait_offline api 100 first) ?K))] =>
      destruct (orchestration_waited api K) as [Heq | [Heq | (s0 & tr & out & Hw & Heq)]]
  end; rewrite Heq; cbn [snd ret]; try constructor.
  destruct out as [final|msg]; [|cbn; now apply (reseed_gave_up _ s0 tr (Thrown msg))].
  destruct (Z.eqb_spec final 0) as [Hzero|Hne]; cbn [negb].
  - rewrite Hzero in Hw.
    unfold bind, update_server_properties, try_catch, bind, getFileContent, uploadFile,
      delete_world, bind, deleteFile, startServer, command, ret.
    split_answers api; cbn [snd negb]; rewrite <- ?app_assoc; cbn [app];
      first [ eapply (reseed_done _ s0 tr [_; _; _] _ _ Hw)
            | eapply (reseed_delete_refused _ s0 tr [_] _ Hw)
            | eapply (reseed_delete_refused _ s0 tr [_; _] _ Hw)
            | eapply (reseed_delete_refused _ s0 tr [_; _; _] _ Hw)
            | eapply (reseed_upload_refused _ s0 tr _ Hw)
            | eapply (reseed_fetch_refused _ s0 tr Hw) ]; constructor.
  - cbn. apply (reseed_gave_up _ s0 tr (Returned final) Hw). congruence.
Qed.

Lemma saw_offline_nonzero (code : Z) : code <> 0 -> saw_offline (EStatus (Some code)) = false.
Proof. destruct code; [contradiction | reflexivity | reflexivity]. Qed.

Lemma saw_offline_skip (e : Event) (rest : list Event) :
  saw_offline e = false -> existsb saw_offline (e :: rest) = existsb saw_offline rest.
Proof. intros H. cbn [existsb]. now rewrite H. Qed.

Ltac skip_not_offline :=
  rewrite !saw_offline_skip by (reflexivity || (apply saw_offline_nonzero; assumption)).

Lemma waited_events (budget : nat) (status : Z) (tr : list Event) (out : outcome Z) :
  waited budget status tr out ->
  forallb is_wait_event tr = true /\
  only_last refused tr = true /\
  (forall code, out = Returned code -> existsb refused tr = false).
Proof.
  induction 1 as [| | |budget status code tr out Hne Hw (IH1 & IH2 & IH3)].
  - repeat split.
  - repeat split.
  - repeat split. discriminate.
  - cbn. rewrite IH1, IH2. repeat split. intros c Hc. exact (IH3 c Hc).
Qed.

Lemma waited_offline_last (budget : nat) (status : Z) (tr : list Event) (out : outcome Z) :
  waited budget status tr out ->
  (out <> Returned 0 -> status <> 0 /\ existsb saw_offline tr = false) /\
  (out = Returned 0 ->
   (status = 0 /\ tr = []) \/
   (status <> 0 /\ exists front,
      tr = front ++ [EStatus (Some 0)] /\
      existsb saw_offline front = false /\ forallb is_wait_event front = true)).
Proof.
  induction 1 as [| status Hne | budget status Hne
                 | budget status code tr out Hne Hw [IHno IHyes]].
  - split; [congruence | now left].
  - split; [now split | intros [= ->]; contradiction].
  - split; [now split | discriminate].
  - split.
    + intros Hout. split; [exact Hne|]. destruct (IHno Hout) as [Hcode Hnone].
      skip_not_offline. exact Hnone.
    + intros Hout. right. split; [exact Hne|].
      destruct (IHyes Hout) as [[-> ->] | (Hcode & front & -> & Hfront & Hev)].
      * exists [ESleep 3000]. repeat split.
      * exists (ESleep 3000 :: EStatus (Some code) :: front). repeat split.
        -- skip_not_offline. exact Hfront.
        -- exact Hev.
Qed.

Lemma only_last_app (p : Event -> bool) (front back : list Event) :
  existsb p front = false -> only_last p (front ++ back) = only_last p back.
Proof.
  induction front as [|e front IH]; [reflexivity|]. cbn [existsb app only_last].
  intros [He Hfront]%orb_false_iff. rewrite He. cbn. now apply IH.
Qed.

Lemma only_last_weaken (p q : Event -> bool) (tr : list Event) :
  (forall e, q e = true -> p e = true) ->
  only_last p tr = true -> only_last q tr = true.
Proof.
  intros Hqp. induction tr as [|e rest IH]; [reflexivity|]. cbn [only_last].
  intros [He Hrest]%andb_true_iff. rewrite (IH Hrest), andb_true_r.
  destruct (q e) eqn:Hq; [|reflexivity]. now rewrite (Hqp e Hq) in He.
Qed.

Lemma existsb_weaken (p q : Event -> bool) (tr : list Event) :
  (forall e, q e = true -> p e = true) ->
  existsb p tr = false -> existsb q tr = false.
Proof.
  intros Hqp Hp. apply not_true_is_false. intros Hq.
  apply existsb_exists in Hq as (e & Hin & He).
  assert (existsb p tr = true) by (apply existsb_exists; exists e; auto). congruence.
Qed.

Lemma wait_events_have_no (p : Event -> bool) (tr : list Event) :
  (forall e, is_wait_event e = true -> p e = false) ->
  forallb is_wait_event tr = true -> existsb p tr = false.
Proof.
  intros Hp Hall. apply not_true_is_false. intros Hex.
  apply existsb_exists in Hex as (e & Hin & He).
  rewrite forallb_forall in Hall. rewrite (Hp e (Hall e Hin)) in He. discriminate.
Qed.

(** ** What the orchestrations do after the wait *)

(** X20: the reset task requests a start exactly when one of its polls
    answered OFFLINE.  That poll is then its last poll, and what follows
    it is the deletion of [world], [world_nether] and [world_the_end], in
    this order and up to the first refusal, and then the start request,
    whether the deletions were granted or not. *)
Theorem reset_starts_iff_offline (api : Remote) :
  existsb is_start (trace_of (reset_task api)) =
    existsb saw_offline (trace_of (reset_task api)) /\
  (existsb saw_offline (trace_of (reset_task api)) = true ->
   exists before deletions granted ok,
     trace_of (reset_task api) =
       before ++ EStatus (Some 0) :: deletions ++ [EStart ok] /\
     delete_attempts deletions granted /\
     forallb is_wait_event before = true /\
     existsb saw_offline before = false).
Proof.
  destruct (reset_task_exact api) as [ | | first tr out Hw Hout
                                       | first tr deletions granted ok Hw Hdel].
  - split; [reflexivity | discriminate].
  - split; [reflexivity | discriminate].
  - destruct (waited_events _ _ _ _ Hw) as (Hev & _).
    destruct (waited_offline_last _ _ _ _ Hw) as [Hno _].
    destruct (Hno Hout) as [Hfirst Hnone].
    assert (Hstart : existsb is_start tr = false)
      by (apply wait_events_have_no; [now intros [] | exact Hev]).
    skip_not_offline. cbn [existsb is_start orb]. rewrite Hstart, Hnone.
    split; [reflexivity | discriminate].
  - destruct (waited_events _ _ _ _ Hw) as (Hev & _).
    destruct (waited_offline_last _ _ _ _ Hw) as [_ Hyes].
    assert (Hshape : exists before,
               EStop true :: EStatus (Some first) :: tr = before ++ [EStatus (Some 0)] /\
               forallb is_wait_event before = true /\ existsb saw_offline before = false).
    { destruct (Hyes eq_refl) as [[-> ->] | (Hfirst & front & -> & Hfront & Hfev)].
      - exists [EStop true]. repeat split.
      - exists (EStop true :: EStatus (Some first) :: front). repeat split.
        + exact Hfev.
        + skip_not_offline. exact Hfront. }
    destruct Hshape as (before & Hbefore & Hbev & Hbno).
    assert (Htrace : EStop true :: EStatus (Some first) :: tr ++ deletions ++ [EStart ok] =
                     before ++ EStatus (Some 0) :: deletions ++ [EStart ok]).
    { change (EStop true :: EStatus (Some first) :: tr ++ deletions ++ [EStart ok])
        with ((EStop true :: EStatus (Some first) :: tr) ++ deletions ++ [EStart ok]).
      rewrite Hbefore, <- app_assoc. reflexivity. }
    rewrite Htrace. split.
    + rewrite !existsb_app. cbn [existsb saw_offline]. rewrite !existsb_app. cbn.
      now rewrite !orb_true_r.
    + intros _. exists before, deletions, granted, ok. repeat split; assumption.
Qed.

Lemma reset_starts_iff_offline_witness :
  exists before deletions granted ok,
    trace_of (reset_task delete_refused) =
      before ++ EStatus (Some 0) :: deletions ++ [EStart ok] /\
    delete_attempts deletions granted /\
    forallb is_wait_event before = true /\
    existsb saw_offline before = false.
Proof.
  apply (reset_starts_iff_offline delete_refused). vm_compute. reflexivity.
Defined.

Lemma reseed_offline_split (first : Z) (tr tail : list Event) :
  waited 100 first tr (Returned 0) ->
  exists before,
    EStop true :: EStatus (Some first) :: tr ++ tail = before ++ EStatus (Some 0) :: tail /\
    forallb is_wait_event before = true /\
    existsb saw_offline before = false.
Proof.
  intros Hw. destruct (waited_offline_last _ _ _ _ Hw) as [_ Hyes].
  destruct (Hyes eq_refl) as [[-> ->] | (Hfirst & front & -> & Hfront & Hfev)].
  - exists [EStop true]. repeat split.
  - exists (EStop true :: EStatus (Some first) :: front). split; [|split].
    + rewrite <- app_assoc. reflexivity.
    + exact Hfev.
    + skip_not_offline. exact Hfront.
Qed.

Lemma wait_only_trace (first : Z) (tr : list Event) (out : outcome Z) (p : Event -> bool) :
  waited 100 first tr out ->
  (forall e, is_wait_event e = true -> p e = false) ->
  existsb p (EStop true :: EStatus (Some first) :: tr) = false.
Proof.
  intros Hw Hp. destruct (waited_events _ _ _ _ Hw) as (Hev & _).
  apply wait_events_have_no; [exact Hp | exact Hev].
Qed.

Lemma In_existsb (p : Event -> bool) (e : Event) (tr : list Event) :
  In e tr -> p e = true -> existsb p tr = true.
Proof. intros Hin Hp. apply existsb_exists. eauto. Qed.

(** X21: in the reseed a start request is never issued on its own: the
    trace then ends with the poll that answered OFFLINE, the fetch of
    [server.properties], the upload of that very text with its seed line
    rewritten, the three deletions, all granted, and the start. *)
Theorem reseed_start_preceded (api : Remote) (seed : option string) (ok : bool) :
  truthy seed = true ->
  In (EStart ok) (trace_of (restart_task api seed)) ->
  exists before text,
    trace_of (restart_task api seed) =
      before ++
      [EStatus (Some 0);
       EGetFile "server.properties" (Some text);
       EUpload "server.properties" (rewrite_seed (default "" seed) text) true;
       EDelete "world" true; EDelete "world_nether" true; EDelete "world_the_end" true;
       EStart ok] /\
    forallb is_wait_event before = true /\
    existsb saw_offline before = false.
Proof.
  intros Hseed Hin.
  assert (Hstart : existsb is_start (trace_of (restart_task api seed)) = true)
    by (apply (In_existsb _ _ _ Hin); reflexivity).
  destruct (restart_task_exact api seed Hseed)
    as [ | | first tr out Hw Hout | first tr Hw | first tr text Hw
       | first tr deletions text Hw Hdel | first tr deletions text ok' Hw Hdel].
  - discriminate.
  - discriminate.
  - rewrite (wait_only_trace first tr out is_start Hw) in Hstart by now intros [].
    discriminate.
  - change (existsb is_start ((EStop true :: EStatus (Some first) :: tr) ++
              [EGetFile "server.properties" None]) = true) in Hstart.
    rewrite existsb_app, (wait_only_trace first tr _ is_start Hw) in Hstart by now intros [].
    discriminate.
  - change (existsb is_start ((EStop true :: EStatus (Some first) :: tr) ++
              [EGetFile "server.properties" (Some text);
               EUpload "server.properties" (rewrite_seed (default "" seed) text) false]) = true)
      in Hstart.
    rewrite existsb_app, (wait_only_trace first tr _ is_start Hw) in Hstart by now intros [].
    discriminate.
  - change (existsb is_start ((EStop true :: EStatus (Some first) :: tr) ++
              [EGetFile "server.properties" (Some text);
               EUpload "server.properties" (rewrite_seed (default "" seed) text) true]
              ++ deletions) = true) in Hstart.
    rewrite existsb_app, (wait_only_trace first tr _ is_start Hw) in Hstart by now intros [].
    inversion Hdel; subst; discriminate.
  - inversion Hdel; subst. clear Hdel Hstart.
    destruct (reseed_offline_split first tr
                ([EGetFile "server.properties" (Some text);
                  EUpload "server.properties" (rewrite_seed (default "" seed) text) true]
                 ++ [EDelete "world" true; EDelete "world_nether" true;
                     EDelete "world_the_end" true] ++ [EStart ok']) Hw)
      as (before & Heq & Hev & Hno).
    rewrite Heq in Hin |- *.
    assert (ok' = ok) as ->.
    { apply in_app_or in Hin as [Hin|Hin].
      - exfalso. rewrite forallb_forall in Hev. now specialize (Hev _ Hin).
      - cbn in Hin. repeat destruct Hin as [Hin|Hin]; try discriminate; try contradiction.
        now injection Hin. }
    exists before, text. repeat split; assumption.
Qed.

Lemma reseed_start_preceded_witness :
  exists before text,
    trace_of (restart_task all_granted (Some "4711")) =
      before ++
      [EStatus (Some 0);
       EGetFile "server.properties" (Some text);
       EUpload "server.properties" (rewrite_seed "4711" text) true;
       EDelete "world" true; EDelete "world_nether" true; EDelete "world_the_end" true;
       EStart true] /\
    forallb is_wait_event before = true /\
    existsb saw_offline before = false.
Proof.
  apply (reseed_start_preceded all_granted (Some "4711") true).
  - reflexivity.
  - vm_compute. tauto.
Defined.

(** X22: in the reseed every refused request, a deletion included, is
    the last event of the trace; in the reset every refused request other
    than a deletion is. *)
Theorem refused_request_ends_task (api : Remote) (seed : option string) :
  truthy seed = true ->
  only_last refused (trace_of (restart_task api seed)) = true /\
  only_last (fun e => refused e && negb (is_delete e)) (trace_of (reset_task api)) = true.
Proof.
  intros Hseed.
  assert (Hwait : forall first tr out (tail : list Event) (p : Event -> bool),
            waited 100 first tr out ->
            (forall e, p e = true -> refused e = true) ->
            (tail = [] \/ exists code, out = Returned code) ->
            only_last p (EStop true :: EStatus (Some first) :: tr ++ tail) =
            only_last p (tr ++ tail) /\
            (tail = [] -> only_last p (tr ++ tail) = true) /\
            ((exists code, out = Returned code) ->
             only_last p (tr ++ tail) = only_last p tail)).
  { intros first tr out tail p Hw Hp Hcase.
    destruct (waited_events _ _ _ _ Hw) as (_ & Hlast & Hnone).
    split; [|split].
    - cbn [only_last]. destruct (p (EStop true)) eqn:H1; [now apply Hp in H1|].
      destruct (p (EStatus (Some first))) eqn:H2; [now apply Hp in H2|]. reflexivity.
    - intros ->. rewrite app_nil_r. now apply (only_last_weaken refused).
    - intros [code ->]. apply only_last_app.
      apply (existsb_weaken refused); [exact Hp | now apply (Hnone code)]. }
  split.
  - destruct (restart_task_exact api seed Hseed)
      as [ | | first tr out Hw Hout | first tr Hw | first tr text Hw
         | first tr deletions text Hw Hdel | first tr deletions text ok' Hw Hdel];
      try reflexivity.
    + rewrite <- (app_nil_r tr).
      destruct (Hwait first tr out [] refused Hw) as (-> & Hnil & _); auto.
    + destruct (Hwait first tr _ [EGetFile "server.properties" None] refused Hw)
        as (-> & _ & ->); eauto.
    + destruct (Hwait first tr _
                  [EGetFile "server.properties" (Some text);
                   EUpload "server.properties" (rewrite_seed (default "" seed) text) false]
                  refused Hw) as (-> & _ & ->); eauto.
    + destruct (Hwait first tr _
                  ([EGetFile "server.properties" (Some text);
                    EUpload "server.properties" (rewrite_seed (default "" seed) text) true]
                   ++ deletions) refused Hw) as (-> & _ & ->); eauto.
      inversion Hdel; reflexivity.
    + destruct (Hwait first tr _
                  ([EGetFile "server.properties" (Some text);
                    EUpload "server.properties" (rewrite_seed (default "" seed) text) true]
                   ++ deletions ++ [EStart ok']) refused Hw) as (-> & _ & ->); eauto.
      inversion Hdel; subst. now destruct ok'.
  - assert (Hp : forall e, refused e && negb (is_delete e) = true -> refused e = true)
      by (intros e [H _]%andb_true_iff; exact H).
    destruct (reset_task_exact api) as [ | | first tr out Hw Hout
                                         | first tr deletions granted ok Hw Hdel];
      try reflexivity.
    + rewrite <- (app_nil_r tr).
      destruct (Hwait first tr out [] _ Hw Hp) as (-> & Hnil & _); auto.
    + destruct (Hwait first tr _ (deletions ++ [EStart ok]) _ Hw Hp) as (-> & _ & ->); eauto.
      inversion Hdel; subst; now destruct ok.
Qed.

Lemma refused_request_ends_task_witness :
  only_last refused (trace_of (restart_task delete_refused (Some "4711"))) = true /\
  existsb refused (trace_of (restart_task delete_refused (Some "4711"))) = true.
Proof.
  split; [|vm_compute; reflexivity].
  apply (refused_request_ends_task delete_refused (Some "4711")). reflexivity.
Defined.

(** X23: a restart request without a seed, or with the empty string as
    seed, issues the single restart call and nothing else: no stop, no
    poll, no file access, no deletion. *)
Theorem plain_restart_only (api : Remote) (seed : option string) :
  truthy seed = false ->
  trace_of (restart_task api seed) = [ERestart (answer_restart api [])].
Proof.
  intros Hseed. unfold trace_of, restart_task, try_catch. rewrite Hseed.
  unfold restartServer, command. cbn [app]. now destruct (answer_restart api []).
Qed.

Lemma plain_restart_only_witness :
  trace_of (restart_task all_granted (Some "")) = [ERestart true] /\
  trace_of (restart_task all_granted None) = [ERestart true].
Proof.
  split.
  - apply (plain_restart_only all_granted (Some "")). reflexivity.
  - apply (plain_restart_only all_granted None). reflexivity.
Defined.
